(** * geofile: shapefile to GeoJSON conversion with pluggable metrics

    A shallow embedding of [src/geofile/geofile.py]: the [MetricsCollector]
    interface, the [NullCollector], [JsonLogCollector], [StatsDCollector]
    and [PrometheusCollector] implementations, the [convert_shapefile]
    pipeline that drives a collector around one read/write of a vector
    file, and [main] from the parsed arguments on.

    The geospatial library, the file system, the clock, the standard
    output, [pathlib] and [json] are collaborators whose code is not part of
    the repository: they are the operations of the class [Env], and every
    theorem holds for all of them.  The module [Fixture] instantiates [Env]
    with a small in-memory world on which the pipeline can be run.

    Scope of the model.  Errors are the instances of Python's [Exception]
    (what [except Exception] catches); [KeyboardInterrupt], [SystemExit] and
    the other [BaseException]-only signals are not modelled.  [print]
    raises when the standard output cannot encode the text (a
    [UnicodeEncodeError]), which no text of ASCII characters does; a
    standard output that is closed or broken, on which every [print] would
    fail with an [OSError], is not modelled.  A file size is an [int]
    below [2^63], as the operating system reports it. *)

From Stdlib Require Import ZArith Floats Uint63 Ascii String DecimalString.
From stdpp Require Import base strings list gmap.

Open Scope Z_scope.

(* ===================================================================== *)
(** ** Python values *)
(* ===================================================================== *)

(** The values that reach a metrics record: [str], [int] and [float].
    A Python [float] is an IEEE 754 binary64 number, which is what Rocq's
    primitive [float] is. *)
Inductive pyval : Type :=
| PStr (s : string)
| PInt (n : Z)
| PFloat (x : float).

(** A [dict] with [str] keys.  Python dictionaries keep insertion order and
    [json.dumps] follows it, so a dictionary is an association list without
    repeated keys, oldest key first. *)
Definition dict : Type := list (string * pyval).

(** [d[k] = v]: an existing key keeps its place and takes the new value, a
    new key goes last. *)
Fixpoint dict_set (k : string) (v : pyval) (d : dict) : dict :=
  match d with
  | [] => [(k, v)]
  | (k', v') :: d' =>
      if String.eqb k' k then (k', v) :: d' else (k', v') :: dict_set k v d'
  end.

(** [d.get(k)] *)
Fixpoint dict_get (k : string) (d : dict) : option pyval :=
  match d with
  | [] => None
  | (k', v') :: d' => if String.eqb k' k then Some v' else dict_get k d'
  end.

(** [k in d] *)
Definition dict_has (k : string) (d : dict) : bool :=
  match dict_get k d with Some _ => true | None => false end.

(** [d.update(other)]: the items of [other], in its order, assigned in [d]. *)
Definition dict_update (d other : dict) : dict :=
  fold_left (fun acc kv => dict_set (fst kv) (snd kv) acc) other d.

(** A dictionary display [{k1: v1, ..., **rest}] assigns its items from left
    to right in a fresh dictionary. *)
Definition dict_display (items : list (string * pyval)) : dict :=
  dict_update [] items.

(** The line feed, ['\n']. *)
Definition newline : string := String "010"%char EmptyString.

(** A text without a line feed. *)
Fixpoint newline_free (s : string) : bool :=
  match s with
  | EmptyString => true
  | String c s' => negb (Ascii.eqb c "010") && newline_free s'
  end.

(** [str(n)] of an [int]. *)
Definition str_of_int (n : Z) : string := NilZero.string_of_int (Z.to_int n).

(** [float(n)] of an [int] in the range of a file size. *)
Definition float_of_int (n : Z) : float := PrimFloat.of_uint63 (Uint63.of_Z n).

(* ===================================================================== *)
(** ** Exceptions and results *)
(* ===================================================================== *)

(** An exception object: its class, and what [str(e)] gives. *)
Record exn : Type := Exception { exn_class : string; exn_str : string }.

(** A Python call either returns a value or raises. *)
Inductive outcome (A : Type) : Type :=
| Returned (a : A)
| Raised (e : exn).
Arguments Returned {A} a.
Arguments Raised {A} e.

Definition is_returned {A : Type} (o : outcome A) : bool :=
  match o with Returned _ => true | Raised _ => false end.

Definition is_raised {A : Type} (o : outcome A) : bool :=
  match o with Returned _ => false | Raised _ => true end.

(* ===================================================================== *)
(** ** The collaborators *)
(* ===================================================================== *)

(** What the module imports and calls.  [World] is the state outside the
    process (files, clock); [GeoDataFrame] is the table [geopandas] hands
    back.  An operation that can change the world returns the new one. *)
Class Env : Type := {
  World : Type;
  GeoDataFrame : Type;
  (** [time.time()] *)
  time_time : World -> float * World;
  (** [time.strftime(format)] *)
  time_strftime : string -> World -> string * World;
  (** [os.path.getsize(path)] *)
  os_path_getsize : string -> World -> outcome Z;
  (** [str(Path(path).with_suffix(suffix))] *)
  path_with_suffix : string -> string -> outcome string;
  (** [gpd.read_file(path)] *)
  gpd_read_file : string -> World -> outcome GeoDataFrame * World;
  (** [len(gdf)] *)
  gdf_len : GeoDataFrame -> Z;
  (** [str(gdf.crs)] *)
  gdf_crs : GeoDataFrame -> string;
  (** [str(gdf.geometry.type.value_counts().to_dict())]; a table without a
      geometry column raises *)
  gdf_geometry_types : GeoDataFrame -> outcome string;
  (** [gdf.to_file(path, driver='GeoJSON')] *)
  gdf_to_file : GeoDataFrame -> string -> World -> outcome unit * World;
  (** [with open(path, 'a') as f: f.write(text)] *)
  file_append : string -> string -> World -> outcome unit * World;
  (** [json.dumps(record)] *)
  json_dumps : dict -> string;
  (** [f"{x:.2f}"] *)
  format_2f : float -> string;
  (** the error of [sys.stdout] when it is given a text with characters
      outside ASCII that its encoding does not have, [None] when it has
      them all *)
  stdout_encode_error : string -> option exn
}.

(** A text of ASCII characters: every byte is below 128. *)
Definition is_ascii_char (c : ascii) : bool :=
  match c with Ascii _ _ _ _ _ _ _ b7 => negb b7 end.

Fixpoint is_ascii (text : string) : bool :=
  match text with
  | EmptyString => true
  | String c text' => is_ascii_char c && is_ascii text'
  end.

(** [print(text)]: the error it raises, if it does.  The encodings of a
    standard output all have the ASCII characters. *)
Definition print_error `{Env} (text : string) : option exn :=
  if is_ascii text then None else stdout_encode_error text.

(** A line of a JSON Lines log: the text of one record that has a
    [timestamp] and an [event], then a line feed, and no other line feed. *)
Definition is_record_line `{Env} (text : string) : Prop :=
  exists record,
    text = json_dumps record +:+ newline /\
    newline_free (json_dumps record) = true /\
    dict_has "timestamp" record = true /\
    dict_has "event" record = true.

(** What a collector sends out of the process while one of its methods runs. *)
Inductive Output : Type :=
| Stdout (line : string)                     (* [print(line)] *)
| FileAppend (path : string) (text : string) (* [text] written at the end of [path] *)
| ClientIncr (stat : string)                 (* [client.incr(stat)] *)
| ClientTiming (stat : string) (ms : float)  (* [client.timing(stat, ms)] *)
| ClientGauge (stat : string) (v : pyval).   (* [client.gauge(stat, v)] *)

(** The characters a collector output puts on its stream: [print] ends its
    line, a file write is taken as it is. *)
Definition written_text (o : Output) : option string :=
  match o with
  | Stdout line => Some (line +:+ newline)
  | FileAppend _ text => Some text
  | _ => None
  end.

(* ===================================================================== *)
(** ** The MetricsCollector interface *)
(* ===================================================================== *)

Section Collectors.
Context {E : Env}.

(** The effect of one method call on a collector whose state has type [S]:
    how the call ended, the object afterwards, the world afterwards and what
    the call sent out. *)
Record effect (S : Type) : Type := Effect {
  eff_out : outcome unit;
  eff_self : S;
  eff_world : World;
  eff_emits : list Output
}.
Arguments Effect {S} _ _ _ _.
Arguments eff_out {S} _.
Arguments eff_self {S} _.
Arguments eff_world {S} _.
Arguments eff_emits {S} _.

(** A method that does nothing: [pass]. *)
Definition pass {S : Type} (self : S) (w : World) : effect S :=
  Effect (Returned tt) self w [].

(** The abstract base class: seven methods. *)
Class MetricsCollector (S : Type) : Type := {
  record_conversion_start : S -> World -> effect S;
  record_conversion_success : float -> dict -> S -> World -> effect S;
  record_conversion_failure : string -> S -> World -> effect S;
  record_read_time : float -> S -> World -> effect S;
  record_write_time : float -> S -> World -> effect S;
  record_feature_count : Z -> S -> World -> effect S;
  record_file_sizes : float -> float -> S -> World -> effect S
}.

(** A method call with its arguments. *)
Inductive MetricCall : Type :=
| Start
| Success (duration : float) (metadata : dict)
| Failure (error : string)
| ReadTime (duration : float)
| WriteTime (duration : float)
| FeatureCount (count : Z)
| FileSizes (input_mb output_mb : float).

(** Method dispatch. *)
Definition invoke {S : Type} {C : MetricsCollector S}
    (c : MetricCall) (self : S) (w : World) : effect S :=
  match c with
  | Start => record_conversion_start self w
  | Success d md => record_conversion_success d md self w
  | Failure err => record_conversion_failure err self w
  | ReadTime d => record_read_time d self w
  | WriteTime d => record_write_time d self w
  | FeatureCount n => record_feature_count n self w
  | FileSizes i o => record_file_sizes i o self w
  end.

(** The four calls between [start] and the report of the outcome. *)
Definition is_intermediate (c : MetricCall) : bool :=
  match c with
  | ReadTime _ | WriteTime _ | FeatureCount _ | FileSizes _ _ => true
  | _ => false
  end.

(** A caller that makes the calls [cs] one after the other on the same
    object, going on after a call that raises: what was sent out, and the
    object and the world at the end. *)
Fixpoint drive {S : Type} {C : MetricsCollector S}
    (cs : list MetricCall) (self : S) (w : World) : list Output * S * World :=
  match cs with
  | [] => ([], self, w)
  | c :: cs' =>
      let r := invoke c self w in
      let '(outs, self', w') := drive cs' (eff_self r) (eff_world r) in
      (eff_emits r ++ outs, self', w')
  end.

(* --------------------------------------------------------------------- *)
(** *** NullCollector *)

Definition NullCollector : Type := unit.

#[export] Instance NullCollector_class : MetricsCollector NullCollector := {
  record_conversion_start := pass;
  record_conversion_success := fun _ _ => pass;
  record_conversion_failure := fun _ => pass;
  record_read_time := fun _ => pass;
  record_write_time := fun _ => pass;
  record_feature_count := fun _ => pass;
  record_file_sizes := fun _ _ => pass
}.

(* --------------------------------------------------------------------- *)
(** *** JsonLogCollector *)

Record JsonLogCollector : Type := {
  output_file : option string;
  current_record : dict
}.

(** [JsonLogCollector(output_file)] *)
Definition JsonLogCollector_init (output_file : option string) : JsonLogCollector :=
  {| output_file := output_file; current_record := [] |}.

Definition set_current_record (self : JsonLogCollector) (d : dict) : JsonLogCollector :=
  {| output_file := output_file self; current_record := d |}.

(** [if self.output_file:] is true of a string that is not empty. *)
Definition destination (self : JsonLogCollector) : option string :=
  match output_file self with
  | Some "" => None
  | Some f => Some f
  | None => None
  end.

Definition _write_record (self : JsonLogCollector) (record : dict) (w : World)
    : effect JsonLogCollector :=
  let json_str := json_dumps record in
  match destination self with
  | Some f =>
      match file_append f (json_str +:+ newline) w with
      | (Returned _, w') => Effect (Returned tt) self w' [FileAppend f (json_str +:+ newline)]
      | (Raised e, w') => Effect (Raised e) self w' []
      end
  | None =>
      match print_error json_str with
      | None => Effect (Returned tt) self w [Stdout json_str]
      | Some e => Effect (Raised e) self w []
      end
  end.

Definition json_record_conversion_start (self : JsonLogCollector) (w : World)
    : effect JsonLogCollector :=
  let now := time_strftime "%Y-%m-%d %H:%M:%S" w in
  Effect (Returned tt)
    (set_current_record self
       (dict_display [("timestamp", PStr (fst now)); ("event", PStr "conversion_start")]))
    (snd now) [].

Definition json_record_conversion_success (duration : float) (metadata : dict)
    (self : JsonLogCollector) (w : World) : effect JsonLogCollector :=
  let self := set_current_record self
    (dict_update (current_record self)
       (dict_display (("event", PStr "conversion_success")
                      :: ("duration_seconds", PFloat duration) :: metadata))) in
  _write_record self (current_record self) w.

Definition json_record_conversion_failure (error : string)
    (self : JsonLogCollector) (w : World) : effect JsonLogCollector :=
  let self := set_current_record self
    (dict_update (current_record self)
       (dict_display [("event", PStr "conversion_failure"); ("error", PStr error)])) in
  _write_record self (current_record self) w.

Definition json_set_field (k : string) (v : pyval)
    (self : JsonLogCollector) : JsonLogCollector :=
  set_current_record self (dict_set k v (current_record self)).

#[export] Instance JsonLogCollector_class : MetricsCollector JsonLogCollector := {
  record_conversion_start := json_record_conversion_start;
  record_conversion_success := json_record_conversion_success;
  record_conversion_failure := json_record_conversion_failure;
  record_read_time := fun duration self =>
    pass (json_set_field "read_duration_seconds" (PFloat duration) self);
  record_write_time := fun duration self =>
    pass (json_set_field "write_duration_seconds" (PFloat duration) self);
  record_feature_count := fun count self =>
    pass (json_set_field "feature_count" (PInt count) self);
  record_file_sizes := fun input_mb output_mb self =>
    pass (json_set_field "output_size_mb" (PFloat output_mb)
            (json_set_field "input_size_mb" (PFloat input_mb) self))
}.

(** The record in flight after an intermediate call: the fields of the call
    assigned in the record as it was. *)
Definition accumulated (c : MetricCall) (record : dict) : dict :=
  match c with
  | ReadTime d => dict_set "read_duration_seconds" (PFloat d) record
  | WriteTime d => dict_set "write_duration_seconds" (PFloat d) record
  | FeatureCount n => dict_set "feature_count" (PInt n) record
  | FileSizes i o =>
      dict_set "output_size_mb" (PFloat o) (dict_set "input_size_mb" (PFloat i) record)
  | _ => record
  end.

(** What [_write_record] sends out when it manages to write [record]. *)
Definition record_output (self : JsonLogCollector) (record : dict) : Output :=
  match destination self with
  | Some f => FileAppend f (json_dumps record +:+ newline)
  | None => Stdout (json_dumps record)
  end.

(* --------------------------------------------------------------------- *)
(** *** StatsDCollector *)

(** [StatsClient(host, port, prefix=prefix)]: the handle the collector keeps.
    Its [incr], [timing] and [gauge] send a datagram and return. *)
Record StatsClient : Type := {
  statsd_host : string;
  statsd_port : Z;
  statsd_prefix : string
}.

Record StatsDCollector : Type := { client : StatsClient }.

Definition StatsDCollector_init (host : string) (port : Z) (prefix : string)
    : StatsDCollector :=
  {| client := {| statsd_host := host; statsd_port := port; statsd_prefix := prefix |} |}.

Definition client_send (outs : list Output) (self : StatsDCollector) (w : World)
    : effect StatsDCollector :=
  Effect (Returned tt) self w outs.

#[export] Instance StatsDCollector_class : MetricsCollector StatsDCollector := {
  record_conversion_start := pass;
  record_conversion_success := fun duration _ =>
    client_send [ClientIncr "conversion.success";
                 ClientTiming "conversion.duration" (duration * 1000)%float];
  record_conversion_failure := fun _ =>
    client_send [ClientIncr "conversion.failure"];
  record_read_time := fun duration =>
    client_send [ClientTiming "read.duration" (duration * 1000)%float];
  record_write_time := fun duration =>
    client_send [ClientTiming "write.duration" (duration * 1000)%float];
  record_feature_count := fun count =>
    client_send [ClientGauge "feature.count" (PInt count)];
  record_file_sizes := fun input_mb output_mb =>
    client_send [ClientGauge "input.size_mb" (PFloat input_mb);
                 ClientGauge "output.size_mb" (PFloat output_mb)]
}.

(* --------------------------------------------------------------------- *)
(** *** MockMetricsCollector *)

(** The collector of [tests/test_geofile.py]: it appends every call to the
    list [events]. *)
Record MockMetricsCollector : Type := { events : list MetricCall }.

Definition mock_append (c : MetricCall) (self : MockMetricsCollector) (w : World)
    : effect MockMetricsCollector :=
  Effect (Returned tt) {| events := events self ++ [c] |} w [].

#[export] Instance MockMetricsCollector_class : MetricsCollector MockMetricsCollector := {
  record_conversion_start := mock_append Start;
  record_conversion_success := fun duration metadata =>
    mock_append (Success duration metadata);
  record_conversion_failure := fun error => mock_append (Failure error);
  record_read_time := fun duration => mock_append (ReadTime duration);
  record_write_time := fun duration => mock_append (WriteTime duration);
  record_feature_count := fun count => mock_append (FeatureCount count);
  record_file_sizes := fun input_mb output_mb =>
    mock_append (FileSizes input_mb output_mb)
}.

End Collectors.

Arguments Effect {E S} _ _ _ _.
Arguments eff_out {E S} _.
Arguments eff_self {E S} _.
Arguments eff_world {E S} _.
Arguments eff_emits {E S} _.

(* ===================================================================== *)
(** ** The conversion pipeline *)
(* ===================================================================== *)

Section Pipeline.
Context {E : Env}.

(** A collector object as [convert_shapefile] receives it: an instance of
    some class that implements the interface. *)
Record collector : Type := Collector {
  obj_type : Type;
  obj_class : MetricsCollector obj_type;
  obj_self : obj_type
}.
Arguments Collector {obj_type obj_class} obj_self.

(** [NullCollector()] *)
Definition NullCollector_new : collector := @Collector NullCollector _ tt.

(** [metrics.method(args)] *)
Definition call_method (c : MetricCall) (m : collector) (w : World) : effect collector :=
  let r := @invoke E (obj_type m) (obj_class m) c (obj_self m) w in
  Effect (eff_out r) (@Collector (obj_type m) (obj_class m) (eff_self r))
         (eff_world r) (eff_emits r).

(** What one run of the pipeline does, in the order it does it.  The trace
    is a record kept beside the run; nothing reads it back. *)
Inductive Action : Type :=
| Call (c : MetricCall) (emitted : list Output) (res : outcome unit)
    (* a method call on the collector, what it sent out, how it ended *)
| Getsize (path : string)    (* [os.path.getsize(path)] *)
| ReadFile (path : string)   (* [gpd.read_file(path)] *)
| ToFile (path : string)     (* [gdf.to_file(path, driver='GeoJSON')] *)
| Console (line : string)    (* a [print] of the pipeline itself *)
| ConsoleRaised (line : string) (e : exn).
    (* a [print] of the pipeline that raised [e] and printed nothing *)

(** The result of running a piece of the pipeline. *)
Record run (A : Type) : Type := Run {
  run_out : outcome A;
  run_metrics : collector;
  run_world : World;
  run_trace : list Action
}.
Arguments Run {A} _ _ _ _.
Arguments run_out {A} _.
Arguments run_metrics {A} _.
Arguments run_world {A} _.
Arguments run_trace {A} _.

(** Statements of the pipeline: they read and change the collector and the
    world, extend the trace, and return or raise. *)
Definition M (A : Type) : Type := collector -> World -> run A.

#[export] Instance M_ret : MRet M := fun A a m w => Run (Returned a) m w [].

(** The run [r] seen after the actions [t]. *)
Definition after {A : Type} (t : list Action) (r : run A) : run A :=
  Run (run_out r) (run_metrics r) (run_world r) (t ++ run_trace r).

#[export] Instance M_bind : MBind M := fun A B f x m w =>
  let r := x m w in
  match run_out r with
  | Returned a => after (run_trace r) (f a (run_metrics r) (run_world r))
  | Raised e => Run (Raised e) (run_metrics r) (run_world r) (run_trace r)
  end.

(** [raise e] *)
Definition raise {A : Type} (e : exn) : M A := fun m w => Run (Raised e) m w [].

(** [try: body / except Exception as e: handler(e)] *)
Definition try_except {A : Type} (body : M A) (handler : exn -> M A) : M A :=
  fun m w =>
    let r := body m w in
    match run_out r with
    | Returned _ => r
    | Raised e => after (run_trace r) (handler e (run_metrics r) (run_world r))
    end.

(** A call that does not touch the world. *)
Definition lift {A : Type} (o : outcome A) : M A := fun m w => Run o m w [].

Definition call (c : MetricCall) : M unit := fun m w =>
  let r := call_method c m w in
  Run (eff_out r) (eff_self r) (eff_world r) [Call c (eff_emits r) (eff_out r)].

Definition now : M float := fun m w =>
  let '(t, w') := time_time w in Run (Returned t) m w' [].

Definition getsize (path : string) : M Z := fun m w =>
  Run (os_path_getsize path w) m w [Getsize path].

Definition read_file (path : string) : M GeoDataFrame := fun m w =>
  let '(o, w') := gpd_read_file path w in Run o m w' [ReadFile path].

Definition to_file (gdf : GeoDataFrame) (path : string) : M unit := fun m w =>
  let '(o, w') := gdf_to_file gdf path w in Run o m w' [ToFile path].

Definition print (line : string) : M unit := fun m w =>
  match print_error line with
  | None => Run (Returned tt) m w [Console line]
  | Some e => Run (Raised e) m w [ConsoleRaised line e]
  end.

(** [n / 1024 / 1024] of an [int] [n]. *)
Definition megabytes (n : Z) : float := (float_of_int n / 1024 / 1024)%float.

(** The body of [try:] in [convert_shapefile] (lines 210 to 259). *)
Definition conversion_steps (input_path : string) (output_path : option string)
    (total_start : float) : M bool :=
  output_path ← match output_path with
                | None => lift (path_with_suffix input_path ".geojson")
                | Some p => mret p
                end;
  size ← getsize input_path;
  let input_size_mb := megabytes size in
  read_start ← now;
  gdf ← read_file input_path;
  t ← now;
  let read_time := (t - read_start)%float in
  call (ReadTime read_time);;
  let feature_count := gdf_len gdf in
  call (FeatureCount feature_count);;
  print ("Read " +:+ str_of_int feature_count +:+ " features in "
         +:+ format_2f read_time +:+ "s");;
  print ("CRS: " +:+ gdf_crs gdf);;
  types ← lift (gdf_geometry_types gdf);
  print ("Geometry types: " +:+ types);;
  write_start ← now;
  to_file gdf output_path;;
  t ← now;
  let write_time := (t - write_start)%float in
  call (WriteTime write_time);;
  size ← getsize output_path;
  let output_size_mb := megabytes size in
  call (FileSizes input_size_mb output_size_mb);;
  t ← now;
  let total_time := (t - total_start)%float in
  let metadata := dict_display
    [("input_file", PStr input_path);
     ("output_file", PStr output_path);
     ("feature_count", PInt feature_count);
     ("input_size_mb", PFloat input_size_mb);
     ("output_size_mb", PFloat output_size_mb);
     ("crs", PStr (gdf_crs gdf))] in
  call (Success total_time metadata);;
  print ("Wrote GeoJSON in " +:+ format_2f write_time +:+ "s");;
  print ("Total conversion time: " +:+ format_2f total_time +:+ "s");;
  print ("Output file: " +:+ output_path +:+ " (" +:+ format_2f output_size_mb +:+ " MB)");;
  mret true.

(** The [except Exception as e:] clause (lines 261 to 264). *)
Definition report_failure (e : exn) : M bool :=
  call (Failure (exn_str e));;
  print ("Error during conversion: " +:+ exn_str e);;
  raise e.

Definition convert_shapefile (input_path : string) (output_path : option string)
    (metrics : option collector) (w : World) : run bool :=
  let metrics := match metrics with
                 | None => NullCollector_new
                 | Some m => m
                 end in
  (call Start;;
   total_start ← now;
   try_except (conversion_steps input_path output_path total_start) report_failure)
    metrics w.

End Pipeline.

Arguments Collector {E obj_type obj_class} obj_self.
Arguments Run {E A} _ _ _ _.
Arguments run_out {E A} _.
Arguments run_metrics {E A} _.
Arguments run_world {E A} _.
Arguments run_trace {E A} _.

(* ===================================================================== *)
(** ** Reading a trace *)
(* ===================================================================== *)

Section Traces.
Context {E : Env}.

(** The method calls of a trace, in order. *)
Fixpoint calls_of (t : list Action) : list MetricCall :=
  match t with
  | [] => []
  | Call c _ _ :: t' => c :: calls_of t'
  | _ :: t' => calls_of t'
  end.

(** What the collector sent out during a trace, in order. *)
Fixpoint emitted_of (t : list Action) : list Output :=
  match t with
  | [] => []
  | Call _ outs _ :: t' => outs ++ emitted_of t'
  | _ :: t' => emitted_of t'
  end.

(** The calls of a trace that raised. *)
Fixpoint raised_calls (t : list Action) : list MetricCall :=
  match t with
  | [] => []
  | Call c _ (Raised _) :: t' => c :: raised_calls t'
  | _ :: t' => raised_calls t'
  end.

(** The paths handed to [to_file] during a trace. *)
Fixpoint written_paths (t : list Action) : list string :=
  match t with
  | [] => []
  | ToFile p :: t' => p :: written_paths t'
  | _ :: t' => written_paths t'
  end.

(** What [print(line)] leaves in the trace. *)
Definition printed (line : string) : Action :=
  match print_error line with
  | None => Console line
  | Some e => ConsoleRaised line e
  end.

(** [print(line)] followed by [raise] with [e] in flight: the error that
    goes up is [e], unless the [print] raised one. *)
Definition error_after_print (line : string) (e : exn) : exn :=
  match print_error line with
  | None => e
  | Some e' => e'
  end.

(** The lines of a trace whose [print] raised. *)
Fixpoint failed_prints (t : list Action) : list string :=
  match t with
  | [] => []
  | ConsoleRaised line _ :: t' => line :: failed_prints t'
  | _ :: t' => failed_prints t'
  end.

Definition is_success (c : MetricCall) : bool :=
  match c with Success _ _ => true | _ => false end.

Definition is_failure (c : MetricCall) : bool :=
  match c with Failure _ => true | _ => false end.

Definition is_start (c : MetricCall) : bool :=
  match c with Start => true | _ => false end.

(** How many calls of a trace satisfy [f]. *)
Definition count_calls (f : MetricCall -> bool) (t : list Action) : nat :=
  length (List.filter f (calls_of t)).

(** How many times [success] and [failure] were called. *)
Definition success_count (t : list Action) : nat := count_calls is_success t.
Definition failure_count (t : list Action) : nat := count_calls is_failure t.

(** The output path of [convert_shapefile(input_path, output_path, ...)] as
    its documentation gives it: the path given, or else the input path with
    its extension replaced by [.geojson]. *)
Definition resolved_output_path (input_path : string) (output_path : option string)
    : outcome string :=
  match output_path with
  | Some p => Returned p
  | None => path_with_suffix input_path ".geojson"
  end.

(** What a run of the steps in [try:] leaves behind. *)
Definition steps_post (input_path : string) (output_path : option string)
    (r : run bool) : Prop :=
  let t := run_trace r in
  failure_count t = 0%nat /\
  count_calls is_start t = 0%nat /\
  (forall q, In q (written_paths t) ->
     resolved_output_path input_path output_path = Returned q) /\
  (forall d md, In (Success d md) (calls_of t) ->
     exists q, resolved_output_path input_path output_path = Returned q /\
               dict_get "output_file" md = Some (PStr q)) /\
  match run_out r with
  | Returned b =>
      b = true /\ raised_calls t = [] /\
      exists p gdf w1 w2 rt wt imb omb d md,
        resolved_output_path input_path output_path = Returned p /\
        gpd_read_file input_path w1 = (Returned gdf, w2) /\
        calls_of t = [ReadTime rt; FeatureCount (gdf_len gdf); WriteTime wt;
                      FileSizes imb omb; Success d md] /\
        written_paths t = [p]
  | Raised e =>
      raised_calls t = [] /\ failed_prints t = [] /\ success_count t = 0%nat \/
      (exists c outs,
         last t = Some (Call c outs (Raised e)) /\ raised_calls t = [c] /\
         failed_prints t = [] /\
         success_count t = (if is_success c then 1 else 0)%nat) \/
      (exists line,
         last t = Some (ConsoleRaised line e) /\ raised_calls t = [] /\
         failed_prints t = [line] /\ (success_count t <= 1)%nat)
  end.

(** What the steps in [try:] leave behind when the collector is a
    [JsonLogCollector] that was [self0]: the same collector with other
    fields in its record; only [success] has sent anything; one record was
    sent if the steps returned; if they raised, none was sent, unless what
    raised is a [print] after [success]. *)
Definition json_steps_post (self0 : JsonLogCollector) (r : run bool) : Prop :=
  (exists self, run_metrics r = Collector self /\ output_file self = output_file self0) /\
  (forall c outs res, In (Call c outs res) (run_trace r) ->
     outs <> [] -> is_success c = true) /\
  match run_out r with
  | Returned _ => exists record, emitted_of (run_trace r) = [record_output self0 record]
  | Raised _ =>
      emitted_of (run_trace r) = [] \/
      exists record, emitted_of (run_trace r) = [record_output self0 record] /\
                     failed_prints (run_trace r) <> []
  end.

End Traces.

(* ===================================================================== *)
(** ** A world to run the pipeline in *)
(* ===================================================================== *)

(** An in-memory stand-in for the collaborators, in the manner of the
    temporary directory of [tests/test_geofile.py]: a clock that ticks once
    per reading, a map from paths to files, POSIX paths, and a standard
    output in UTF-8, which encodes every text.  It fixes one behaviour among
    those [Env] allows; the theorems below do not depend on it, the worked
    runs do. *)
Module Fixture.

Record sim_gdf : Type := { rows : Z; crs : string; has_geometry : bool }.

Inductive sim_entry : Type :=
| VectorFile (size : Z) (table : sim_gdf)
| TextFile (content : string)
| Directory.

Record sim_world : Type := { clock : Z; files : gmap string sim_entry }.

Definition tick (w : sim_world) : sim_world :=
  {| clock := clock w + 1; files := files w |}.

Definition put_file (p : string) (f : sim_entry) (w : sim_world) : sim_world :=
  {| clock := clock w; files := <[p := f]> (files w) |}.

Definition two_digits (n : Z) : string :=
  if n <? 10 then "0" +:+ str_of_int n else str_of_int n.

Definition sim_strftime (fmt : string) (w : sim_world) : string * sim_world :=
  ("2024-01-01 12:" +:+ two_digits ((clock w / 60) mod 60) +:+ ":"
     +:+ two_digits (clock w mod 60), w).

Definition sim_getsize (p : string) (w : sim_world) : outcome Z :=
  match files w !! p with
  | Some (VectorFile n _) => Returned n
  | Some (TextFile s) => Returned (Z.of_nat (String.length s))
  | Some Directory => Returned 4096
  | None => Raised (Exception "FileNotFoundError"
                      ("[Errno 2] No such file or directory: '" +:+ p +:+ "'"))
  end.

(** [path.split('/')] *)
Fixpoint split_slash (p : string) : list string :=
  match p with
  | EmptyString => [EmptyString]
  | String c p' =>
      if Ascii.eqb c "/" then EmptyString :: split_slash p'
      else match split_slash p' with
           | x :: rest => String c x :: rest
           | [] => [String c EmptyString]
           end
  end.

Fixpoint leading_slashes (p : string) : nat :=
  match p with
  | String c p' => if Ascii.eqb c "/" then S (leading_slashes p') else 0%nat
  | EmptyString => 0%nat
  end.

(** The root of a POSIX path: two leading slashes are kept, any other
    number of them is one. *)
Definition path_root (p : string) : string :=
  match leading_slashes p with
  | 0%nat => ""
  | 2%nat => "//"
  | _ => "/"
  end.

(** The components of a path: empty ones and [.] are dropped. *)
Definition path_parts (p : string) : list string :=
  List.filter (fun x => negb (String.eqb x "") && negb (String.eqb x "."))
              (split_slash p).

Fixpoint join_slash (parts : list string) : string :=
  match parts with
  | [] => ""
  | [x] => x
  | x :: rest => x +:+ "/" +:+ join_slash rest
  end.

(** [str(path)] *)
Definition path_str (root : string) (parts : list string) : string :=
  match root +:+ join_slash parts with
  | "" => "."
  | s => s
  end.

(** A reversed file name cut at its last dot: the extension and the stem. *)
Fixpoint split_dot (rev_name : list ascii) : option (list ascii * list ascii) :=
  match rev_name with
  | [] => None
  | c :: rest =>
      if Ascii.eqb c "." then Some ([], rest)
      else match split_dot rest with
           | Some (ext, stem) => Some (c :: ext, stem)
           | None => None
           end
  end.

(** [name] without its suffix: the suffix starts at the last dot, unless
    that dot is the first or the last character. *)
Definition path_stem (name : string) : string :=
  match split_dot (rev (list_ascii_of_string name)) with
  | Some (_ :: _, (_ :: _) as stem) => string_of_list_ascii (rev stem)
  | _ => name
  end.

(** [str(PurePosixPath(p).with_suffix(suffix))] for a suffix that starts
    with a dot, as the one of the pipeline does. *)
Definition sim_with_suffix (p suffix : string) : outcome string :=
  let root := path_root p in
  match rev (path_parts p) with
  | [] => Raised (Exception "ValueError"
                    ("PosixPath('" +:+ path_str root [] +:+ "') has an empty name"))
  | name :: dirs =>
      Returned (path_str root (rev dirs ++ [path_stem name +:+ suffix]))
  end.

Definition sim_read_file (p : string) (w : sim_world) : outcome sim_gdf * sim_world :=
  match files w !! p with
  | Some (VectorFile _ t) => (Returned t, w)
  | _ => (Raised (Exception "DataSourceError" (p +:+ ": No such file or directory")), w)
  end.

Definition sim_geometry_types (t : sim_gdf) : outcome string :=
  if has_geometry t then Returned ("{'Point': " +:+ str_of_int (rows t) +:+ "}")
  else Raised (Exception "AttributeError" "No geometry data set")%string.

Definition sim_to_file (t : sim_gdf) (p : string) (w : sim_world)
    : outcome unit * sim_world :=
  match files w !! p with
  | Some Directory =>
      (Raised (Exception "DataSourceError" ("Failed to create " +:+ p)), w)
  | _ => (Returned tt, put_file p (VectorFile (128 + 96 * rows t) t) w)
  end.

Definition sim_file_append (p text : string) (w : sim_world)
    : outcome unit * sim_world :=
  match files w !! p with
  | Some Directory =>
      (Raised (Exception "IsADirectoryError"
                 ("[Errno 21] Is a directory: '" +:+ p +:+ "'")), w)
  | Some (TextFile s) => (Returned tt, put_file p (TextFile (s +:+ text)) w)
  | Some (VectorFile n t) =>
      (Returned tt, put_file p (VectorFile (n + Z.of_nat (String.length text)) t) w)
  | None => (Returned tt, put_file p (TextFile text) w)
  end.

(** A float in fixed notation with [digits] decimals. *)
Definition scaled (digits : Z) (x : float) : option (bool * Z) :=
  match Prim2SF x with
  | S754_zero s => Some (s, 0)
  | S754_finite s m e =>
      let n := Z.pos m * 10 ^ digits in
      Some (s, if 0 <=? e then n * 2 ^ e else (n + 2 ^ (- e - 1)) / 2 ^ (- e))
  | _ => None
  end.

Definition pad_left (width : nat) (s : string) : string :=
  string_of_list_ascii (repeat "0"%char (width - String.length s)) +:+ s.

Definition sim_fixed (digits : nat) (x : float) : string :=
  match scaled (Z.of_nat digits) x with
  | Some (s, n) =>
      (if s then "-" else "") +:+ str_of_int (n / 10 ^ Z.of_nat digits) +:+ "."
        +:+ pad_left digits (str_of_int (n mod 10 ^ Z.of_nat digits))
  | None => "NaN"
  end.

Definition quote : string := String "034"%char EmptyString.

(** The value of a byte. *)
Definition byte (c : ascii) : Z := Z.of_N (N_of_ascii c).

(** The characters of a text in UTF-8: a character of one byte as it is, a
    character of more bytes as its code point. *)
Fixpoint characters (bytes : list ascii) : list (ascii + Z) :=
  match bytes with
  | [] => []
  | c :: rest =>
      let b0 := byte c in
      if b0 <? 128 then inl c :: characters rest
      else if b0 <? 224 then
        match rest with
        | c1 :: rest1 => inr (b0 mod 32 * 64 + byte c1 mod 64) :: characters rest1
        | [] => [inr b0]
        end
      else if b0 <? 240 then
        match rest with
        | c1 :: c2 :: rest2 =>
            inr (b0 mod 16 * 4096 + byte c1 mod 64 * 64 + byte c2 mod 64)
              :: characters rest2
        | _ => inr b0 :: characters rest
        end
      else
        match rest with
        | c1 :: c2 :: c3 :: rest3 =>
            inr (b0 mod 8 * 262144 + byte c1 mod 64 * 4096
                 + byte c2 mod 64 * 64 + byte c3 mod 64)
              :: characters rest3
        | _ => inr b0 :: characters rest
        end
  end.

Definition hex_digit (n : Z) : ascii :=
  nth (Z.to_nat n) (list_ascii_of_string "0123456789abcdef") "0"%char.

(** [n] in hexadecimal on [width] digits. *)
Fixpoint hex_fixed (width : nat) (n : Z) : string :=
  match width with
  | O => ""
  | S k => hex_fixed k (n / 16) +:+ String (hex_digit (n mod 16)) ""
  end.

Definition json_unicode (n : Z) : string := "\u" +:+ hex_fixed 4 n.

(** What [json.dumps] writes for a character of a string: it escapes the
    quote, the backslash and every character outside the printable ASCII
    ones, those beyond [U+FFFF] as a surrogate pair. *)
Definition json_escape_char (x : ascii + Z) : string :=
  match x with
  | inl c =>
      if Ascii.eqb c "010" then "\n"
      else if Ascii.eqb c "013" then "\r"
      else if Ascii.eqb c "009" then "\t"
      else if Ascii.eqb c "008" then "\b"
      else if Ascii.eqb c "012" then "\f"
      else if Ascii.eqb c "034" then "\" +:+ quote
      else if Ascii.eqb c "\" then "\\"
      else if (byte c <? 32) || (126 <? byte c) then json_unicode (byte c)
      else String c EmptyString
  | inr n =>
      if n <? 65536 then json_unicode n
      else json_unicode (55296 + (n - 65536) / 1024)
           +:+ json_unicode (56320 + (n - 65536) mod 1024)
  end.

Definition json_escape (s : string) : string :=
  fold_right (fun x acc => json_escape_char x +:+ acc) ""
             (characters (list_ascii_of_string s)).

(** The first run of characters outside ASCII: where it starts, how long
    it is, and its first character. *)
Fixpoint wide_run (chars : list (ascii + Z)) : nat :=
  match chars with
  | inr _ :: rest => S (wide_run rest)
  | _ => O
  end.

Fixpoint first_wide (pos : Z) (chars : list (ascii + Z)) : option (Z * Z * Z) :=
  match chars with
  | [] => None
  | inl _ :: rest => first_wide (pos + 1) rest
  | inr n :: rest => Some (pos, Z.of_nat (S (wide_run rest)), n)
  end.

(** The character [n] as the message of a [UnicodeEncodeError] shows it. *)
Definition escaped_char (n : Z) : string :=
  if n <? 256 then "\x" +:+ hex_fixed 2 n
  else if n <? 65536 then "\u" +:+ hex_fixed 4 n
  else "\U" +:+ hex_fixed 8 n.

(** The error of a standard output whose encoding is ASCII. *)
Definition ascii_codec_error (text : string) : option exn :=
  match first_wide 0 (characters (list_ascii_of_string text)) with
  | None => None
  | Some (pos, len, n) =>
      Some (Exception "UnicodeEncodeError"
              ("'ascii' codec can't encode " +:+
               (if len =? 1
                then "character '" +:+ escaped_char n +:+ "' in position "
                     +:+ str_of_int pos
                else "characters in position " +:+ str_of_int pos +:+ "-"
                     +:+ str_of_int (pos + len - 1))
               +:+ ": ordinal not in range(128)"))
  end.

Definition json_string (s : string) : string := quote +:+ json_escape s +:+ quote.

Definition json_value (v : pyval) : string :=
  match v with
  | PStr s => json_string s
  | PInt n => str_of_int n
  | PFloat x => sim_fixed 6 x
  end.

Fixpoint json_items (d : dict) : string :=
  match d with
  | [] => ""
  | [(k, v)] => json_string k +:+ ": " +:+ json_value v
  | (k, v) :: d' => json_string k +:+ ": " +:+ json_value v +:+ ", " +:+ json_items d'
  end.

Definition sim_json_dumps (d : dict) : string := "{" +:+ json_items d +:+ "}".

(** The collaborators of the fixture, for a standard output with the
    encoding errors [stdout]. *)
Definition sim_env (stdout : string -> option exn) : Env := {|
  World := sim_world;
  GeoDataFrame := sim_gdf;
  time_time := fun w => (float_of_int (clock w), tick w);
  time_strftime := sim_strftime;
  os_path_getsize := sim_getsize;
  path_with_suffix := sim_with_suffix;
  gpd_read_file := sim_read_file;
  gdf_len := rows;
  gdf_crs := crs;
  gdf_geometry_types := sim_geometry_types;
  gdf_to_file := sim_to_file;
  file_append := sim_file_append;
  json_dumps := sim_json_dumps;
  format_2f := sim_fixed 2;
  stdout_encode_error := stdout
|}.

(** The fixture: its standard output is in UTF-8 and encodes every text. *)
#[export] Instance sim : Env := sim_env (fun _ => None).

(** The same with a standard output in ASCII, as under [PYTHONIOENCODING=ascii]
    or the [C] locale. *)
Definition sim_ascii : Env := sim_env ascii_codec_error.

(** Three points in EPSG:4326, as the fixture of the tests. *)
Definition points : sim_gdf := {| rows := 3; crs := "EPSG:4326"; has_geometry := true |}.

(** A directory [tmp] holding the shapefile [tmp/test_points.shp]. *)
Definition world0 : sim_world :=
  {| clock := 0;
     files := <["tmp/test_points.shp" := VectorFile 184 points]>
                (<["tmp" := Directory]> ∅) |}.

(** The collectors of the worked runs: the mock of the tests, a
    [JsonLogCollector] that prints, and one whose destination is the
    directory [tmp], which cannot be opened for appending. *)
Definition mock : collector := Collector {| events := [] |}.
Definition json_stdout : collector := Collector (JsonLogCollector_init None).
Definition json_to_directory : collector :=
  Collector (JsonLogCollector_init (Some "tmp")).

(** The error of a missing input file, and the error of opening a directory
    for appending. *)
Definition missing_input : exn :=
  Exception "FileNotFoundError"
            "[Errno 2] No such file or directory: 'tmp/does_not_exist.shp'".

Definition directory_opened : exn :=
  Exception "IsADirectoryError" "[Errno 21] Is a directory: 'tmp'".

(** Converting the shapefile, and converting a file that does not exist. *)
Definition convert_points (metrics : option collector) : run bool :=
  convert_shapefile "tmp/test_points.shp" None metrics world0.

Definition convert_missing (metrics : option collector) : run bool :=
  convert_shapefile "tmp/does_not_exist.shp" None metrics world0.

End Fixture.

(* ===================================================================== *)
(** ** Running the pipeline one statement at a time *)
(* ===================================================================== *)

Section Stepping.
Context {E : Env}.

Lemma bind_call {B : Type} (c : MetricCall) (f : unit -> M B) m w :
  (call c ≫= f) m w =
  match call_method c m w with
  | Effect (Returned a) m' w' outs => after [Call c outs (Returned a)] (f a m' w')
  | Effect (Raised e) m' w' outs => Run (Raised e) m' w' [Call c outs (Raised e)]
  end.
Proof.
  unfold mbind, M_bind, call.
  destruct (call_method c m w) as [[a|e] m' w' outs]; reflexivity.
Qed.

Lemma bind_now {B : Type} (f : float -> M B) m w :
  (now ≫= f) m w = f (fst (time_time w)) m (snd (time_time w)).
Proof.
  unfold mbind, M_bind, now, after. destruct (time_time w) as [t w']. cbn.
  destruct (f t m w'); reflexivity.
Qed.

Lemma bind_getsize {B : Type} (p : string) (f : Z -> M B) m w :
  (getsize p ≫= f) m w =
  match os_path_getsize p w with
  | Returned n => after [Getsize p] (f n m w)
  | Raised e => Run (Raised e) m w [Getsize p]
  end.
Proof.
  unfold mbind, M_bind, getsize. cbn.
  destruct (os_path_getsize p w); reflexivity.
Qed.

Lemma bind_read_file {B : Type} (p : string) (f : GeoDataFrame -> M B) m w :
  (read_file p ≫= f) m w =
  match gpd_read_file p w with
  | (Returned gdf, w') => after [ReadFile p] (f gdf m w')
  | (Raised e, w') => Run (Raised e) m w' [ReadFile p]
  end.
Proof.
  unfold mbind, M_bind, read_file.
  destruct (gpd_read_file p w) as [[gdf|e] w']; reflexivity.
Qed.

Lemma bind_to_file {B : Type} gdf (p : string) (f : unit -> M B) m w :
  (to_file gdf p ≫= f) m w =
  match gdf_to_file gdf p w with
  | (Returned a, w') => after [ToFile p] (f a m w')
  | (Raised e, w') => Run (Raised e) m w' [ToFile p]
  end.
Proof.
  unfold mbind, M_bind, to_file.
  destruct (gdf_to_file gdf p w) as [[a|e] w']; reflexivity.
Qed.

Lemma bind_print {B : Type} (line : string) (f : unit -> M B) m w :
  (print line ≫= f) m w =
  match print_error line with
  | None => after [Console line] (f tt m w)
  | Some e => Run (Raised e) m w [ConsoleRaised line e]
  end.
Proof. unfold mbind, M_bind, print. destruct (print_error line); reflexivity. Qed.

Lemma bind_lift {A B : Type} (o : outcome A) (f : A -> M B) m w :
  (lift o ≫= f) m w =
  match o with
  | Returned a => f a m w
  | Raised e => Run (Raised e) m w []
  end.
Proof.
  unfold mbind, M_bind, lift, after. cbn.
  destruct o as [a|e]; [destruct (f a m w)|]; reflexivity.
Qed.

Lemma bind_mret {A B : Type} (a : A) (f : A -> M B) m w :
  (mret a ≫= f) m w = f a m w.
Proof.
  unfold mbind, M_bind, mret, M_ret, after. cbn.
  destruct (f a m w); reflexivity.
Qed.

Lemma after_after {A : Type} (t t' : list Action) (r : run A) :
  after t (after t' r) = after (t ++ t') r.
Proof. unfold after. cbn. by rewrite app_assoc. Qed.

End Stepping.

(** One statement of the pipeline: rewrite the statement at the head, split
    on how its call into the collector or into a collaborator ended. *)
Ltac run_step :=
  first
    [ rewrite bind_call;
      match goal with
      | |- context [call_method ?c ?m ?w] =>
          let o := fresh "o" in
          destruct (call_method c m w) as [o ? ? ?] eqn:?; destruct o as [[]|?]
      end
    | rewrite bind_now
    | rewrite bind_getsize;
      match goal with
      | |- context [os_path_getsize ?p ?w] => destruct (os_path_getsize p w) eqn:?
      end
    | rewrite bind_read_file;
      match goal with
      | |- context [gpd_read_file ?p ?w] =>
          let o := fresh "o" in
          destruct (gpd_read_file p w) as [o ?] eqn:?; destruct o
      end
    | rewrite bind_to_file;
      match goal with
      | |- context [gdf_to_file ?g ?p ?w] =>
          let o := fresh "o" in
          destruct (gdf_to_file g p w) as [o ?] eqn:?; destruct o as [[]|?]
      end
    | rewrite bind_print;
      match goal with
      | |- context [print_error ?line] => destruct (print_error line) eqn:?
      end
    | rewrite bind_mret
    | rewrite bind_lift;
      match goal with
      | |- context [match ?o with Returned _ => _ | Raised _ => _ end] =>
          destruct o eqn:?
      end ];
  cbv beta; rewrite ?after_after.

Ltac run_all := repeat run_step.


(* ===================================================================== *)
(** ** The pipeline, for every collector and every world *)
(* ===================================================================== *)

Section PipelineFacts.
Context {E : Env}.

Lemma run_trace_after {A : Type} (t : list Action) (r : run A) :
  run_trace (after t r) = t ++ run_trace r.
Proof. reflexivity. Qed.

Lemma run_out_after {A : Type} (t : list Action) (r : run A) :
  run_out (after t r) = run_out r.
Proof. reflexivity. Qed.

Lemma calls_of_app (t t' : list Action) :
  calls_of (t ++ t') = calls_of t ++ calls_of t'.
Proof. induction t as [|[] t IH]; cbn; congruence. Qed.

Lemma emitted_of_app (t t' : list Action) :
  emitted_of (t ++ t') = emitted_of t ++ emitted_of t'.
Proof.
  induction t as [|[] t IH]; cbn; try congruence.
  by rewrite IH, app_assoc.
Qed.

Lemma raised_calls_app (t t' : list Action) :
  raised_calls (t ++ t') = raised_calls t ++ raised_calls t'.
Proof. induction t as [|[? ? []| | | | |] t IH]; cbn; congruence. Qed.

Lemma failed_prints_app (t t' : list Action) :
  failed_prints (t ++ t') = failed_prints t ++ failed_prints t'.
Proof. induction t as [|[] t IH]; cbn; congruence. Qed.

Lemma written_paths_app (t t' : list Action) :
  written_paths (t ++ t') = written_paths t ++ written_paths t'.
Proof. induction t as [|[] t IH]; cbn; congruence. Qed.

Lemma count_calls_app (f : MetricCall -> bool) (t t' : list Action) :
  count_calls f (t ++ t') = (count_calls f t + count_calls f t')%nat.
Proof.
  unfold count_calls. by rewrite calls_of_app, List.filter_app, length_app.
Qed.

(** The steps in [try:]: they never call [start] or [failure]; they write
    to, and report, the resolved output path only; when they return, they
    return [True] after the five calls in order, none of which raised; when
    they raise, a call that raised is the last thing they did, and [success]
    was called only if it is that call. *)
Lemma steps_spec input output t0 m w :
  steps_post input output (conversion_steps input output t0 m w).
Proof.
  unfold conversion_steps. destruct output; cbv zeta; run_all.
  all: unfold steps_post; cbn.
  all: repeat split;
    try solve
      [ reflexivity
      | intros q Hq; intuition (subst; eauto)
      | intros d md Hin; intuition (try discriminate);
        match goal with H : Success _ _ = Success _ _ |- _ => injection H as <- <- end;
        eexists; split; first [eassumption | reflexivity]
      | left; repeat split; reflexivity
      | right; left; eexists _, _; repeat split
      | right; right; eexists; repeat split; cbn; lia
      | eexists _, _, _, _, _, _, _, _, _, _; repeat split;
        first [eassumption | reflexivity] ].
Qed.

Lemma report_failure_run (e : exn) m w :
  report_failure e m w =
  match call_method (Failure (exn_str e)) m w with
  | Effect (Returned _) m' w' outs =>
      Run (Raised (error_after_print ("Error during conversion: " +:+ exn_str e) e))
          m' w'
          [Call (Failure (exn_str e)) outs (Returned tt);
           printed ("Error during conversion: " +:+ exn_str e)]
  | Effect (Raised e') m' w' outs =>
      Run (Raised e') m' w' [Call (Failure (exn_str e)) outs (Raised e')]
  end.
Proof.
  unfold report_failure, error_after_print, printed. rewrite bind_call.
  destruct (call_method _ m w) as [[[]|e'] m' w' outs]; [|reflexivity].
  rewrite bind_print. destruct (print_error _); reflexivity.
Qed.

(** A [print] is no call, reads and writes no file. *)
Lemma calls_of_printed (line : string) (t : list Action) :
  calls_of (printed line :: t) = calls_of t.
Proof. unfold printed. by destruct (print_error line). Qed.

Lemma emitted_of_printed (line : string) (t : list Action) :
  emitted_of (printed line :: t) = emitted_of t.
Proof. unfold printed. by destruct (print_error line). Qed.

Lemma raised_calls_printed (line : string) (t : list Action) :
  raised_calls (printed line :: t) = raised_calls t.
Proof. unfold printed. by destruct (print_error line). Qed.

Lemma written_paths_printed (line : string) (t : list Action) :
  written_paths (printed line :: t) = written_paths t.
Proof. unfold printed. by destruct (print_error line). Qed.

Lemma count_calls_call (f : MetricCall -> bool) c outs res (t : list Action) :
  count_calls f (Call c outs res :: t) = ((if f c then 1 else 0) + count_calls f t)%nat.
Proof. unfold count_calls. cbn. by destruct (f c). Qed.

Lemma count_calls_nil (f : MetricCall -> bool) : count_calls f [] = 0%nat.
Proof. reflexivity. Qed.

Lemma count_calls_printed (f : MetricCall -> bool) (line : string) (t : list Action) :
  count_calls f (printed line :: t) = count_calls f t.
Proof. unfold count_calls. by rewrite calls_of_printed. Qed.

Lemma failed_prints_printed (line : string) (t : list Action) :
  failed_prints (printed line :: t) =
  match print_error line with None => [] | Some _ => [line] end ++ failed_prints t.
Proof. unfold printed. by destruct (print_error line). Qed.

Lemma error_after_print_ok (line : string) (e : exn) :
  print_error line = None -> error_after_print line e = e.
Proof. unfold error_after_print. by intros ->. Qed.

(** [convert_shapefile] is [start], a reading of the clock, then the steps
    under the guard of [report_failure]. *)
Lemma convert_run input output m w :
  convert_shapefile input output (Some m) w =
  match call_method Start m w with
  | Effect (Returned _) m1 w1 outs =>
      let rb := conversion_steps input output (time_time w1).1 m1 (time_time w1).2 in
      after [Call Start outs (Returned tt)]
        match run_out rb with
        | Returned _ => rb
        | Raised e => after (run_trace rb) (report_failure e (run_metrics rb) (run_world rb))
        end
  | Effect (Raised e) m1 w1 outs => Run (Raised e) m1 w1 [Call Start outs (Raised e)]
  end.
Proof.
  unfold convert_shapefile. rewrite bind_call.
  destruct (call_method Start m w) as [[[]|e] m1 w1 outs]; [|reflexivity].
  rewrite bind_now. reflexivity.
Qed.

(** No collector given is the null collector given. *)
Lemma convert_some input output metrics w :
  exists m, convert_shapefile input output metrics w =
            convert_shapefile input output (Some m) w.
Proof. destruct metrics as [m|]; eexists; reflexivity. Qed.

End PipelineFacts.

(* ===================================================================== *)
(** ** What a caller of [convert_shapefile] can rely on *)
(* ===================================================================== *)

Section PipelineClaims.
Context {E : Env}.

(** C10.  When [convert_shapefile] returns, it returns [True]: there is no
    run that returns [False]. *)
Theorem convert_returns_true input output metrics w b :
  run_out (convert_shapefile input output metrics w) = Returned b -> b = true.
Proof.
  destruct (convert_some input output metrics w) as [m ->].
  rewrite convert_run.
  destruct (call_method Start m w) as [[[]|e] m1 w1 outs]; [|discriminate].
  cbv zeta. rewrite run_out_after.
  pose proof (steps_spec input output (time_time w1).1 m1 (time_time w1).2) as Hs.
  destruct Hs as (_ & _ & _ & _ & Hs).
  destruct (run_out (conversion_steps _ _ _ _ _)) as [b'|e] eqn:Hb.
  - rewrite Hb. intros [= <-]. tauto.
  - rewrite run_out_after, report_failure_run.
    destruct (call_method _ _ _) as [[[]|e'] ? ? ?]; discriminate.
Qed.

(** C3.  A conversion that succeeds has called, in this order and once each,
    [start], [read_time], [feature_count] with the length of the table that
    [read_file] returned, [write_time], [file_sizes] and [success]; none of
    the calls raised. *)
Theorem success_call_order input output metrics w b :
  let r := convert_shapefile input output metrics w in
  run_out r = Returned b ->
  exists gdf w1 w2 rt wt imb omb d md,
    gpd_read_file input w1 = (Returned gdf, w2) /\
    calls_of (run_trace r) =
      [Start; ReadTime rt; FeatureCount (gdf_len gdf); WriteTime wt;
       FileSizes imb omb; Success d md] /\
    raised_calls (run_trace r) = [].
Proof.
  cbv zeta. destruct (convert_some input output metrics w) as [m ->].
  rewrite convert_run.
  destruct (call_method Start m w) as [[[]|e] m1 w1 outs]; [|discriminate].
  cbv zeta. rewrite run_out_after, run_trace_after.
  pose proof (steps_spec input output (time_time w1).1 m1 (time_time w1).2) as Hs.
  destruct Hs as (_ & _ & _ & _ & Hs).
  destruct (run_out (conversion_steps _ _ _ _ _)) as [b'|e] eqn:Hb.
  - rewrite Hb. intros _.
    destruct Hs as (_ & Hr & p & gdf & wa & wb & rt & wt & imb & omb & d & md
                    & _ & Hread & Hcalls & _).
    exists gdf, wa, wb, rt, wt, imb, omb, d, md.
    cbn. rewrite Hcalls, Hr. auto.
  - rewrite run_out_after, report_failure_run.
    destruct (call_method _ _ _) as [[[]|e'] ? ? ?]; discriminate.
Qed.

(** C1, as the code has it.  A conversion that succeeds has called [success]
    once and [failure] never.  A conversion that fails, when neither the
    [start] call nor the [success] call is what raised and no [print]
    raised, has called [failure] once and [success] never.  Whatever the
    run, [success] is called at most once and [failure] at most once. *)
Theorem one_outcome_report input output metrics w :
  let r := convert_shapefile input output metrics w in
  (is_returned (run_out r) = true ->
     success_count (run_trace r) = 1%nat /\ failure_count (run_trace r) = 0%nat) /\
  (is_raised (run_out r) = true ->
   (forall c, In c (raised_calls (run_trace r)) -> is_start c || is_success c = false) ->
   failed_prints (run_trace r) = [] ->
     failure_count (run_trace r) = 1%nat /\ success_count (run_trace r) = 0%nat) /\
  (success_count (run_trace r) <= 1)%nat /\
  (failure_count (run_trace r) <= 1)%nat.
Proof.
  cbv zeta. destruct (convert_some input output metrics w) as [m ->].
  rewrite convert_run. unfold success_count, failure_count.
  destruct (call_method Start m w) as [[[]|e] m1 w1 outs].
  2:{ split; [discriminate|]. split; [|split; unfold count_calls; cbn; lia].
      intros _ H. by specialize (H Start (or_introl eq_refl)). }
  cbv zeta. rewrite run_out_after, run_trace_after.
  pose proof (steps_spec input output (time_time w1).1 m1 (time_time w1).2) as Hs.
  destruct Hs as (Hf & _ & _ & _ & Hs).
  unfold success_count, failure_count in *.
  set (rb := conversion_steps input output (time_time w1).1 m1 (time_time w1).2) in *.
  destruct (run_out rb) as [b'|e] eqn:Hb.
  - destruct Hs as (_ & _ & p & gdf & wa & wb & rt & wt & imb & omb & d & md
                    & _ & _ & Hcalls & _).
    cbv iota. rewrite Hb.
    rewrite !count_calls_app, Hf. unfold count_calls. rewrite Hcalls. cbn.
    split; [intros _; split; reflexivity|]. split; [discriminate|]. split; lia.
  - assert (Hle : (count_calls is_success (run_trace rb) <= 1)%nat).
    { destruct Hs as [(_ & _ & ->)|[(c & outs' & _ & _ & _ & ->)
                                   |(line & _ & _ & _ & Hle)]];
        [lia|destruct (is_success c); lia|exact Hle]. }
    assert (Hclean :
      (forall c, In c (raised_calls (run_trace rb)) -> is_start c || is_success c = false) ->
      failed_prints (run_trace rb) = [] ->
      count_calls is_success (run_trace rb) = 0%nat).
    { intros Hok Hnp.
      destruct Hs as [(_ & _ & ->)|[(c & outs' & _ & Hr & _ & ->)
                                   |(line & _ & _ & Hp & _)]]; [reflexivity| |].
      - assert (Hc : is_start c || is_success c = false)
          by (apply Hok; rewrite Hr; cbn; auto).
        by apply orb_false_elim in Hc as [_ ->].
      - rewrite Hp in Hnp. discriminate Hnp. }
    rewrite run_out_after, run_trace_after, report_failure_run.
    destruct (call_method _ _ _) as [[[]|e'] m2 w2 outs2]; cbn [run_out run_trace].
    all: rewrite !count_calls_app, Hf.
    all: rewrite !count_calls_call, ?count_calls_printed, !count_calls_nil.
    all: cbn [is_success is_failure].
    all: split; [discriminate|]; split; [|lia].
    all: intros _ Hok Hnp; split; [reflexivity|].
    all: rewrite Hclean; [reflexivity| |].
    all: try (intros c Hc; apply Hok; rewrite !raised_calls_app; cbn;
              apply in_or_app; left; exact Hc).
    all: rewrite !failed_prints_app in Hnp; cbn in Hnp.
    all: by apply app_eq_nil in Hnp as [Hnp _].
Qed.

(** C2, as the code has it.  Take a conversion whose [start] call returned
    and whose steps then raise [e].  It calls [failure] once, with [str(e)],
    right after the steps, and does not return; it does nothing else than
    print the error line when [failure] returned.  If the [failure] call and
    that [print] return, the error that reaches the caller is [e] itself;
    if one of them raises, the caller gets what it raised. *)
Theorem failure_reported_and_propagated input output m w m1 w1 outs e :
  call_method Start m w = Effect (Returned tt) m1 w1 outs ->
  let rb := conversion_steps input output (time_time w1).1 m1 (time_time w1).2 in
  run_out rb = Raised e ->
  let r := convert_shapefile input output (Some m) w in
  let f := call_method (Failure (exn_str e)) (run_metrics rb) (run_world rb) in
  let line := "Error during conversion: " +:+ exn_str e in
  is_raised (run_out r) = true /\
  failure_count (run_trace r) = 1%nat /\
  run_trace r =
    Call Start outs (Returned tt) :: run_trace rb ++
    Call (Failure (exn_str e)) (eff_emits f) (eff_out f) ::
    (if is_returned (eff_out f) then [printed line] else []) /\
  (eff_out f = Returned tt -> print_error line = None -> run_out r = Raised e) /\
  (eff_out f = Returned tt ->
     forall e', print_error line = Some e' -> run_out r = Raised e') /\
  (forall e', eff_out f = Raised e' -> run_out r = Raised e').
Proof.
  intros Hstart rb Hb r f line. subst r.
  rewrite convert_run, Hstart. cbv zeta. fold rb. rewrite Hb.
  rewrite run_out_after, !run_trace_after, run_out_after, report_failure_run.
  pose proof (steps_spec input output (time_time w1).1 m1 (time_time w1).2) as Hs.
  destruct Hs as (Hf & _). fold rb in Hf.
  unfold failure_count in *. subst f. fold line.
  destruct (call_method (Failure (exn_str e)) (run_metrics rb) (run_world rb))
    as [[[]|e'] m2 w2 outs2]; cbn [run_out run_trace eff_out eff_emits is_returned].
  all: rewrite !count_calls_app, Hf.
  all: rewrite !count_calls_call, ?count_calls_printed, !count_calls_nil.
  all: cbn [is_failure]; unfold error_after_print.
  all: repeat split; try reflexivity; try discriminate.
  - by intros _ ->.
  - by intros _ e' ->.
  - by intros e0 [= ->].
Qed.

(** C4.  Whatever the run, a path handed to [to_file] and an [output_file]
    reported to [success] is the resolved output path: the path given, or
    the input path with the suffix [.geojson] when none is given.  A run
    that succeeds has written once, to that path. *)
Theorem output_path_used input output metrics w :
  let r := convert_shapefile input output metrics w in
  (forall q, In q (written_paths (run_trace r)) ->
     resolved_output_path input output = Returned q) /\
  (forall d md, In (Success d md) (calls_of (run_trace r)) ->
     exists q, resolved_output_path input output = Returned q /\
               dict_get "output_file" md = Some (PStr q)) /\
  (is_returned (run_out r) = true ->
     exists q, resolved_output_path input output = Returned q /\
               written_paths (run_trace r) = [q]).
Proof.
  cbv zeta. destruct (convert_some input output metrics w) as [m ->].
  rewrite convert_run.
  destruct (call_method Start m w) as [[[]|e] m1 w1 outs].
  2:{ cbn. repeat split; try tauto; try discriminate. intros ? ? [[=]|[]]. }
  cbv zeta. rewrite run_out_after, run_trace_after.
  pose proof (steps_spec input output (time_time w1).1 m1 (time_time w1).2) as Hs.
  destruct Hs as (_ & _ & Hw & Hm & Hs).
  destruct (run_out (conversion_steps _ _ _ _ _)) as [b'|e] eqn:Hb.
  - rewrite Hb. cbn [app written_paths calls_of]. repeat split.
    + exact Hw.
    + intros d md [[=]|Hin]. eauto.
    + intros _.
      destruct Hs as (_ & _ & p & gdf & wa & wb & rt & wt & imb & omb & d & md
                      & Hp & _ & _ & Hwp).
      eauto.
  - rewrite run_out_after, run_trace_after, report_failure_run.
    destruct (call_method _ _ _) as [[[]|e'] m2 w2 outs2]; cbn [run_out run_trace].
    all: unfold printed; try destruct (print_error _).
    all: cbn [app written_paths calls_of is_returned].
    all: rewrite written_paths_app, calls_of_app; cbn [written_paths calls_of].
    all: rewrite app_nil_r; repeat split; try discriminate; try exact Hw.
    all: intros d md [[=]|Hin]; apply in_app_or in Hin as [Hin|[[=]|[]]]; eauto.
Qed.

End PipelineClaims.

(* ===================================================================== *)
(** ** The collectors *)
(* ===================================================================== *)

Section DictFacts.

Lemma dict_has_cons (k k0 : string) (v0 : pyval) (d : dict) :
  dict_has k ((k0, v0) :: d) = String.eqb k0 k || dict_has k d.
Proof. unfold dict_has. cbn. by destruct (String.eqb k0 k). Qed.

Lemma dict_has_set (k k' : string) (v : pyval) (d : dict) :
  dict_has k (dict_set k' v d) = String.eqb k' k || dict_has k d.
Proof.
  induction d as [|[k0 v0] d IH].
  - cbn. rewrite dict_has_cons. reflexivity.
  - cbn [dict_set]. destruct (String.eqb k0 k') eqn:Hk.
    + apply String.eqb_eq in Hk as ->. rewrite !dict_has_cons.
      by destruct (String.eqb k' k).
    + rewrite !dict_has_cons, IH.
      by destruct (String.eqb k0 k), (String.eqb k' k).
Qed.

Lemma dict_has_update (k : string) (items : list (string * pyval)) (d : dict) :
  dict_has k (dict_update d items) =
  dict_has k d || existsb (fun kv => String.eqb (fst kv) k) items.
Proof.
  unfold dict_update. revert d.
  induction items as [|[k0 v0] items IH]; intros d; cbn.
  - by rewrite orb_false_r.
  - rewrite IH, dict_has_set.
    by destruct (String.eqb k0 k), (dict_has k d).
Qed.

Lemma dict_has_display (k : string) (items : list (string * pyval)) :
  dict_has k (dict_display items) = existsb (fun kv => String.eqb (fst kv) k) items.
Proof. unfold dict_display. by rewrite dict_has_update. Qed.

Lemma dict_has_existsb (k : string) (d : dict) :
  dict_has k d = existsb (fun kv => String.eqb (fst kv) k) d.
Proof.
  induction d as [|[k0 v0] d IH]; [reflexivity|].
  rewrite dict_has_cons, IH. reflexivity.
Qed.

(** [d.update({k: v, ...})] has the key [k], and keeps the keys of [d]. *)
Lemma dict_has_update_display (k : string) (items : list (string * pyval)) (d : dict) :
  dict_has k (dict_update d (dict_display items)) =
  dict_has k d || existsb (fun kv => String.eqb (fst kv) k) items.
Proof. by rewrite dict_has_update, <- dict_has_existsb, dict_has_display. Qed.

End DictFacts.

Section CollectorClaims.
Context {E : Env}.

(** C9.  [convert_shapefile] without a collector is [convert_shapefile] with
    a [NullCollector()]: the same result, the same world, the same actions.
    Every method of the null collector returns, changes neither the object
    nor the world and sends nothing. *)
Theorem default_collector_is_null input output w :
  convert_shapefile input output None w =
    convert_shapefile input output (Some NullCollector_new) w /\
  (forall c w', call_method c NullCollector_new w' =
                Effect (Returned tt) NullCollector_new w' []) /\
  (forall c (self : NullCollector) w', invoke c self w' = pass self w').
Proof.
  split; [reflexivity|]. split.
  - intros [] w'; reflexivity.
  - intros [] self w'; reflexivity.
Qed.

(** C8.  The StatsD collector: [start] does nothing; [success] and [failure]
    increment their counter; [success], [read_time] and [write_time] send a
    timing of the duration times 1000; [feature_count] and [file_sizes] send
    gauges.  None of them changes the collector or the world. *)
Theorem statsd_operations (self : StatsDCollector) w
    (duration : float) (metadata : dict) (error : string) (count : Z)
    (input_mb output_mb : float) :
  record_conversion_start self w = Effect (Returned tt) self w [] /\
  record_conversion_success duration metadata self w =
    Effect (Returned tt) self w
      [ClientIncr "conversion.success";
       ClientTiming "conversion.duration" (duration * 1000)%float] /\
  record_conversion_failure error self w =
    Effect (Returned tt) self w [ClientIncr "conversion.failure"] /\
  record_read_time duration self w =
    Effect (Returned tt) self w [ClientTiming "read.duration" (duration * 1000)%float] /\
  record_write_time duration self w =
    Effect (Returned tt) self w [ClientTiming "write.duration" (duration * 1000)%float] /\
  record_feature_count count self w =
    Effect (Returned tt) self w [ClientGauge "feature.count" (PInt count)] /\
  record_file_sizes input_mb output_mb self w =
    Effect (Returned tt) self w
      [ClientGauge "input.size_mb" (PFloat input_mb);
       ClientGauge "output.size_mb" (PFloat output_mb)].
Proof. repeat split. Qed.

(** [start] on two collectors with the same destination leaves them equal. *)
Lemma json_start_forgets (self self' : JsonLogCollector) w :
  output_file self' = output_file self ->
  invoke Start self' w = invoke Start self w.
Proof.
  intros H. cbn. unfold json_record_conversion_start, set_current_record.
  by rewrite H.
Qed.

(** C6.  [start] on a [JsonLogCollector], whatever was done on it before,
    leaves a record with the timestamp just taken and the tag
    [conversion_start], and nothing else; it writes nothing and keeps the
    destination.  So what the collector does from [start] on does not depend
    on the record it held: two collectors with the same destination behave
    the same from [start] on. *)
Theorem start_resets_record (self : JsonLogCollector) w :
  let r := record_conversion_start self w in
  eff_out r = Returned tt /\
  eff_emits r = [] /\
  output_file (eff_self r) = output_file self /\
  current_record (eff_self r) =
    [("timestamp", PStr (time_strftime "%Y-%m-%d %H:%M:%S" w).1);
     ("event", PStr "conversion_start")] /\
  (forall (self' : JsonLogCollector) cs,
     output_file self' = output_file self ->
     drive (Start :: cs) self' w = drive (Start :: cs) self w).
Proof.
  cbv zeta. repeat split.
  intros self' cs H. cbn [drive]. by rewrite (json_start_forgets self self' w H).
Qed.

(** [_write_record] keeps the collector, and either writes the record and
    returns or writes nothing and raises. *)
Lemma write_record_cases (self : JsonLogCollector) (record : dict) w :
  eff_self (_write_record self record w) = self /\
  (eff_out (_write_record self record w) = Returned tt /\
   eff_emits (_write_record self record w) = [record_output self record] \/
   is_raised (eff_out (_write_record self record w)) = true /\
   eff_emits (_write_record self record w) = []).
Proof.
  unfold _write_record, record_output.
  destruct (destination self) as [f|].
  - destruct (file_append f _ w) as [[[]|e] w']; cbn; auto.
  - destruct (print_error _); cbn; auto.
Qed.

Lemma record_output_text (self : JsonLogCollector) (record : dict) :
  written_text (record_output self record) = Some (json_dumps record +:+ newline).
Proof. unfold record_output. by destruct (destination self). Qed.

(** A record once stamped stays stamped. *)
Lemma json_keeps_timestamp (c : MetricCall) (self : JsonLogCollector) w :
  dict_has "timestamp" (current_record self) = true ->
  dict_has "timestamp" (current_record (eff_self (invoke c self w))) = true.
Proof.
  intros H.
  destruct c; cbn -[dict_update dict_display dict_set dict_has _write_record];
    unfold json_record_conversion_success, json_record_conversion_failure;
    rewrite ?(proj1 (write_record_cases _ _ _));
    cbn -[dict_update dict_display dict_set dict_has];
    rewrite ?dict_has_update_display, ?dict_has_set, ?H, ?orb_true_r;
    reflexivity.
Qed.

(** The record [success] writes, and the record [failure] writes. *)
Lemma json_success_run duration metadata (self : JsonLogCollector) w :
  let record := dict_update (current_record self)
                  (dict_display (("event", PStr "conversion_success")
                     :: ("duration_seconds", PFloat duration) :: metadata)) in
  invoke (Success duration metadata) self w =
  _write_record (set_current_record self record) record w.
Proof. reflexivity. Qed.

Lemma json_failure_run error (self : JsonLogCollector) w :
  let record := dict_update (current_record self)
                  (dict_display [("event", PStr "conversion_failure");
                                 ("error", PStr error)]) in
  invoke (Failure error) self w =
  _write_record (set_current_record self record) record w.
Proof. reflexivity. Qed.

(** What a stamped collector sends is a record line. *)
Lemma json_emits_lines (c : MetricCall) (self : JsonLogCollector) w o :
  (forall d, newline_free (json_dumps d) = true) ->
  dict_has "timestamp" (current_record self) = true ->
  In o (eff_emits (invoke c self w)) ->
  exists text, written_text o = Some text /\ is_record_line text.
Proof.
  intros Hjson H Hin.
  destruct c; try contradiction.
  - rewrite json_success_run in Hin. cbv zeta in Hin.
    match type of Hin with
    | In _ (eff_emits (_write_record ?s ?r ?w0)) =>
        destruct (write_record_cases s r w0) as (_ & [(_ & Hw)|(_ & Hw)])
    end; rewrite Hw in Hin; [destruct Hin as [<-|[]]|contradiction].
    eexists. split; [apply record_output_text|].
    eexists. repeat split; [apply Hjson| |].
    + by rewrite dict_has_update_display, H.
    + rewrite dict_has_update_display. cbn. by rewrite orb_true_r.
  - rewrite json_failure_run in Hin. cbv zeta in Hin.
    match type of Hin with
    | In _ (eff_emits (_write_record ?s ?r ?w0)) =>
        destruct (write_record_cases s r w0) as (_ & [(_ & Hw)|(_ & Hw)])
    end; rewrite Hw in Hin; [destruct Hin as [<-|[]]|contradiction].
    eexists. split; [apply record_output_text|].
    eexists. repeat split; [apply Hjson| |].
    + by rewrite dict_has_update_display, H.
    + rewrite dict_has_update_display. cbn. by rewrite orb_true_r.
Qed.

(** Without a [start] before it, [failure] on a fresh collector writes a
    record that has no timestamp: the stamp comes from [start] alone. *)
Remark json_failure_before_start (error : string) (f : option string) w :
  dict_has "timestamp"
    (current_record (eff_self (invoke (Failure error) (JsonLogCollector_init f) w)))
  = false.
Proof.
  rewrite json_failure_run. cbv zeta.
  by rewrite (proj1 (write_record_cases _ _ _)).
Qed.

Lemma json_drive_lines (cs : list MetricCall) (self : JsonLogCollector) w o :
  (forall d, newline_free (json_dumps d) = true) ->
  dict_has "timestamp" (current_record self) = true ->
  In o (drive cs self w).1.1 ->
  exists text, written_text o = Some text /\ is_record_line text.
Proof.
  intros Hjson. revert self w.
  induction cs as [|c cs IH]; intros self w H Hin; [contradiction|].
  cbn [drive] in Hin.
  destruct (drive cs _ _) as [[outs self'] w'] eqn:Hd. cbn in Hin.
  apply in_app_or in Hin as [Hin|Hin].
  - by eapply json_emits_lines.
  - eapply (IH (eff_self (invoke c self w)) (eff_world (invoke c self w))).
    + by apply json_keeps_timestamp.
    + by rewrite Hd.
Qed.

(** C7.  Provided [json.dumps] puts no line feed in its result: whatever the
    collector held before, and whatever calls follow a [start], everything a
    [JsonLogCollector] then writes, to its file or to standard output, is
    the text of one record with a [timestamp] and an [event], on one line. *)
Theorem json_records_are_lines (self : JsonLogCollector) w (cs : list MetricCall) o :
  (forall d, newline_free (json_dumps d) = true) ->
  In o (drive (Start :: cs) self w).1.1 ->
  exists text, written_text o = Some text /\ is_record_line text.
Proof.
  intros Hjson Hin. cbn [drive] in Hin.
  destruct (drive cs _ _) as [[outs self'] w'] eqn:Hd. cbn in Hin.
  eapply (json_drive_lines cs _ _ o Hjson); [|by rewrite Hd].
  reflexivity.
Qed.

End CollectorClaims.

(* ===================================================================== *)
(** ** The pipeline with a JsonLogCollector *)
(* ===================================================================== *)

(** A call on a [JsonLogCollector]: the four intermediate calls reduce to
    [pass]; [success] and [failure] split on what [_write_record] did. *)
Ltac json_call :=
  cbn [call_method invoke obj_type obj_class obj_self
       eff_out eff_self eff_world eff_emits pass
       record_conversion_start record_conversion_success record_conversion_failure
       record_read_time record_write_time record_feature_count record_file_sizes
       JsonLogCollector_class json_record_conversion_start];
  unfold json_record_conversion_success, json_record_conversion_failure;
  cbv zeta;
  try match goal with
      | |- context [_write_record ?s ?r ?w] =>
          let H := fresh "Hwrite" in
          let o := fresh "o" in
          pose proof (write_record_cases s r w) as H;
          destruct (_write_record s r w) as [o ? ? ?];
          cbn [eff_out eff_self eff_world eff_emits] in H |- *;
          destruct H as (-> & [(-> & ->)|(H & ->)]);
          [|destruct o as [|?]; [discriminate H|clear H]]
      end.

Ltac json_step :=
  first
    [ rewrite bind_call; json_call
    | run_step ];
  cbv beta; rewrite ?after_after.

Section JsonPipeline.
Context {E : Env}.

Lemma json_steps_spec input output t0 (self : JsonLogCollector) w :
  json_steps_post self (conversion_steps input output t0 (Collector self) w).
Proof.
  unfold conversion_steps. destruct output; cbv zeta; repeat json_step.
  all: unfold json_steps_post; cbn.
  all: repeat split;
    try solve
      [ eexists; split; reflexivity
      | eexists; reflexivity
      | left; reflexivity
      | right; eexists; split; [reflexivity|discriminate]
      | intros c outs' res Hin Hne;
        repeat (destruct Hin as [Hin|Hin]; [try discriminate Hin|]);
        try contradiction;
        injection Hin as <- <- <-; first [reflexivity | contradiction] ].
Qed.

Lemma record_output_same (self self' : JsonLogCollector) (record : dict) :
  output_file self = output_file self' ->
  record_output self record = record_output self' record.
Proof. unfold record_output, destination. by intros ->. Qed.

(** The four intermediate calls return, leave the world as it is, send
    nothing, and assign their fields in the record, which keeps every field
    it had. *)
Lemma json_intermediate_accumulates (c : MetricCall) (self : JsonLogCollector) w :
  is_intermediate c = true ->
  invoke c self w =
    Effect (Returned tt)
           (set_current_record self (accumulated c (current_record self))) w [] /\
  (forall k, dict_has k (current_record self) = true ->
             dict_has k (accumulated c (current_record self)) = true).
Proof.
  destruct c; try discriminate; intros _; (split; [reflexivity|]); intros k Hk.
  all: cbn [accumulated]; rewrite !dict_has_set, Hk, ?orb_true_r; reflexivity.
Qed.

(** C5, as the code has it.  With a [JsonLogCollector]: [read_time],
    [write_time], [feature_count] and [file_sizes] only add fields to the
    record in flight and send nothing; a conversion sends at most two
    records, and at most one when no [print] raised; it sends at least one
    when no call on the collector raised, that is when the destination
    could be written, and exactly one when moreover no [print] raised; a
    record is sent by [success] or by [failure] only, as a line appended to
    the destination file, or printed when there is no destination. *)
Theorem json_one_record_per_conversion input output (self : JsonLogCollector) w :
  let r := convert_shapefile input output (Some (Collector self)) w in
  (forall c (s : JsonLogCollector) w',
     is_intermediate c = true ->
     invoke c s w' =
       Effect (Returned tt)
              (set_current_record s (accumulated c (current_record s))) w' [] /\
     (forall k, dict_has k (current_record s) = true ->
                dict_has k (accumulated c (current_record s)) = true)) /\
  (length (emitted_of (run_trace r)) <= 2)%nat /\
  (failed_prints (run_trace r) = [] -> (length (emitted_of (run_trace r)) <= 1)%nat) /\
  (raised_calls (run_trace r) = [] -> emitted_of (run_trace r) <> []) /\
  (raised_calls (run_trace r) = [] -> failed_prints (run_trace r) = [] ->
     exists record, emitted_of (run_trace r) = [record_output self record]) /\
  (forall c outs res, In (Call c outs res) (run_trace r) ->
     outs <> [] -> is_success c || is_failure c = true).
Proof.
  cbv zeta. split; [intros c s w' Hc; by apply json_intermediate_accumulates|].
  rewrite convert_run. json_call. cbv zeta.
  match goal with
  | |- context [conversion_steps input output ?t0 (Collector ?s1) ?w1] =>
      pose proof (json_steps_spec input output t0 s1 w1) as Hs;
      set (rb := conversion_steps input output t0 (Collector s1) w1) in *
  end.
  destruct Hs as ((self1 & Hm & Hof) & Hcalls & Hs). cbn in Hof.
  rewrite run_trace_after.
  destruct (run_out rb) as [b|e] eqn:Hb.
  - destruct Hs as (record & Hs). cbn [app emitted_of]. rewrite Hs.
    split; [cbn; lia|]. split; [intros _; cbn; lia|]. split; [discriminate|].
    split; [intros _ _; by exists record|].
    intros c outs res [[= <- <- <-]|Hin] Hne; [contradiction|].
    by rewrite (Hcalls c outs res Hin Hne).
  - assert (Hmem : forall c outs res t',
              (forall c' outs' res', In (Call c' outs' res') t' ->
                                     outs' <> [] -> is_failure c' = true) ->
              In (Call c outs res)
                 (Call Start [] (Returned tt) :: run_trace rb ++ t') ->
              outs <> [] -> is_success c || is_failure c = true).
    { intros c outs res t' Ht' [[= <- <- <-]|Hin] Hne; [contradiction|].
      apply in_app_or in Hin as [Hin|Hin].
      - by rewrite (Hcalls c outs res Hin Hne).
      - rewrite (Ht' c outs res Hin Hne). apply orb_true_r. }
    assert (Hle : (length (emitted_of (run_trace rb)) <= 1)%nat).
    { destruct Hs as [->|(record & -> & _)]; cbn; lia. }
    assert (Hnp : failed_prints (run_trace rb) = [] -> emitted_of (run_trace rb) = []).
    { intros H. by destruct Hs as [->|(record & _ & Hfp)]. }
    rewrite run_trace_after, report_failure_run, Hm. json_call.
    all: unfold printed; try destruct (print_error _) as [ep|] eqn:Hpe.
    all: cbn [run_trace app emitted_of raised_calls failed_prints].
    all: rewrite !emitted_of_app, !raised_calls_app, !failed_prints_app.
    all: cbn [emitted_of raised_calls failed_prints app]; rewrite ?app_nil_r.
    all: rewrite ?length_app; cbn [length].
    all: split; [lia|].
    + (* [failure] wrote its record, the print of the error raised *)
      split; [intros H; by apply app_eq_nil in H as [_ [=]]|].
      split; [intros _ H; by apply app_eq_nil in H as [_ [=]]|].
      split; [intros _ H; by apply app_eq_nil in H as [_ [=]]|].
      intros c outs res. apply Hmem.
      intros c' outs' res' [[= <- <- <-]|[[=]|[]]] _. reflexivity.
    + (* [failure] wrote its record, the error was printed *)
      split; [intros H; rewrite (Hnp H); cbn; lia|].
      split; [intros _ H; by apply app_eq_nil in H as [_ [=]]|].
      split.
      * intros _ H. rewrite (Hnp H). eexists. cbn [app].
        rewrite (record_output_same _ self); [reflexivity|]. cbn. congruence.
      * intros c outs res. apply Hmem.
        intros c' outs' res' [[= <- <- <-]|[[=]|[]]] _. reflexivity.
    + (* [failure] raised *)
      split; [intros _; lia|].
      split; [intros H; by apply app_eq_nil in H as [_ [=]]|].
      split; [intros H; by apply app_eq_nil in H as [_ [=]]|].
      intros c outs res. apply Hmem.
      intros c' outs' res' [[= <- <- <-]|[]] _. reflexivity.
Qed.

End JsonPipeline.

(* ===================================================================== *)
(** ** Worked runs *)
(* ===================================================================== *)

Import Fixture.

Section FixtureFacts.

Lemma newline_free_app (a b : string) :
  newline_free (a +:+ b) = newline_free a && newline_free b.
Proof.
  induction a as [|c a IH]; [reflexivity|].
  change (negb (Ascii.eqb c "010") && newline_free (a +:+ b) =
          negb (Ascii.eqb c "010") && newline_free a && newline_free b).
  rewrite IH. by destruct (Ascii.eqb c "010").
Qed.

Lemma newline_free_uint (d : Decimal.uint) :
  newline_free (NilEmpty.string_of_uint d) = true.
Proof. induction d; cbn; auto. Qed.

Lemma newline_free_str_of_int (n : Z) : newline_free (str_of_int n) = true.
Proof.
  unfold str_of_int, NilZero.string_of_int, NilZero.string_of_uint.
  destruct (Z.to_int n) as [d|d]; destruct d; cbn; auto using newline_free_uint.
Qed.

Lemma newline_free_zeros (k : nat) :
  newline_free (string_of_list_ascii (repeat "0"%char k)) = true.
Proof. induction k; cbn; auto. Qed.

Lemma newline_free_fixed (digits : nat) (x : float) :
  newline_free (sim_fixed digits x) = true.
Proof.
  unfold sim_fixed, pad_left.
  destruct (scaled _ x) as [[[] n]|]; [| |reflexivity].
  all: rewrite !newline_free_app, !newline_free_str_of_int, newline_free_zeros.
  all: reflexivity.
Qed.

Lemma newline_free_hex (width : nat) (n : Z) :
  newline_free (hex_fixed width n) = true.
Proof.
  revert n. induction width as [|k IH]; intros n; [reflexivity|].
  cbn [hex_fixed]. rewrite newline_free_app, IH. unfold hex_digit.
  generalize (Z.to_nat (n mod 16)). intros d.
  do 16 (destruct d as [|d]; [reflexivity|]). by destruct d.
Qed.

Lemma newline_free_unicode (n : Z) : newline_free (json_unicode n) = true.
Proof. unfold json_unicode. by rewrite newline_free_app, newline_free_hex. Qed.

Lemma newline_free_escape_char (x : ascii + Z) :
  newline_free (json_escape_char x) = true.
Proof.
  destruct x as [c|n]; cbn [json_escape_char].
  - destruct (Ascii.eqb c "010") eqn:Hc; [reflexivity|].
    repeat match goal with
           | |- context [if ?b then _ else _] =>
               destruct b; [reflexivity || apply newline_free_unicode|]
           end.
    cbn. by rewrite Hc.
  - destruct (n <? 65536); [apply newline_free_unicode|].
    by rewrite newline_free_app, !newline_free_unicode.
Qed.

Lemma newline_free_escape (s : string) : newline_free (json_escape s) = true.
Proof.
  unfold json_escape. induction (characters _) as [|x l IH]; [reflexivity|].
  cbn [fold_right]. by rewrite newline_free_app, newline_free_escape_char, IH.
Qed.

Lemma newline_free_json_string (s : string) : newline_free (json_string s) = true.
Proof.
  unfold json_string. by rewrite !newline_free_app, newline_free_escape.
Qed.

Lemma newline_free_json_value (v : pyval) : newline_free (json_value v) = true.
Proof.
  destruct v; cbn;
    auto using newline_free_json_string, newline_free_str_of_int, newline_free_fixed.
Qed.

Lemma newline_free_json_items (d : dict) : newline_free (json_items d) = true.
Proof.
  induction d as [|[k v] d IH]; [reflexivity|].
  cbn [json_items]. destruct d as [|kv d].
  - by rewrite !newline_free_app, newline_free_json_string, newline_free_json_value.
  - by rewrite !newline_free_app, newline_free_json_string, newline_free_json_value, IH.
Qed.

(** The serializer of the fixture writes a record on one line. *)
Lemma sim_json_dumps_one_line (d : dict) : newline_free (json_dumps d) = true.
Proof.
  cbn. unfold sim_json_dumps. by rewrite !newline_free_app, newline_free_json_items.
Qed.

End FixtureFacts.

Section WorkedRuns.

(** C10 on the shapefile of the fixture: the conversion returns, and what it
    returns is [True]. *)
Lemma convert_returns_true_witness :
  run_out (convert_points (Some mock)) = Returned true /\ true = true.
Proof.
  split; [vm_compute; reflexivity|].
  apply (convert_returns_true "tmp/test_points.shp" None (Some mock) world0 true).
  vm_compute; reflexivity.
Defined.

(** C3 on the shapefile of the fixture, with the mock of the tests. *)
Lemma success_call_order_witness :
  run_out (convert_points (Some mock)) = Returned true /\
  exists gdf w1 w2 rt wt imb omb d md,
    gpd_read_file "tmp/test_points.shp" w1 = (Returned gdf, w2) /\
    calls_of (run_trace (convert_points (Some mock))) =
      [Start; ReadTime rt; FeatureCount (gdf_len gdf); WriteTime wt;
       FileSizes imb omb; Success d md] /\
    raised_calls (run_trace (convert_points (Some mock))) = [].
Proof.
  split; [vm_compute; reflexivity|].
  apply (success_call_order "tmp/test_points.shp" None (Some mock) world0 true).
  vm_compute; reflexivity.
Defined.

(** C1 on a conversion that fails for want of its input, with the mock: no
    call and no [print] raised, [failure] was called once and [success]
    never. *)
Lemma one_outcome_report_witness :
  is_raised (run_out (convert_missing (Some mock))) = true /\
  raised_calls (run_trace (convert_missing (Some mock))) = [] /\
  failed_prints (run_trace (convert_missing (Some mock))) = [] /\
  failure_count (run_trace (convert_missing (Some mock))) = 1%nat /\
  success_count (run_trace (convert_missing (Some mock))) = 0%nat.
Proof.
  split; [vm_compute; reflexivity|]. split; [vm_compute; reflexivity|].
  split; [vm_compute; reflexivity|].
  apply (proj1 (proj2 (one_outcome_report "tmp/does_not_exist.shp" None
                         (Some mock) world0))).
  - vm_compute; reflexivity.
  - intros c Hin. vm_compute in Hin. contradiction.
  - vm_compute; reflexivity.
Defined.

(** C1 fails as stated.  The shapefile is converted and written, but the
    destination of the [JsonLogCollector] is a directory: [success] raises
    when it opens it, the error is caught, [failure] is called.  The
    conversion fails, and [success] has been called once. *)
Lemma failed_conversion_called_success :
  is_raised (run_out (convert_points (Some json_to_directory))) = true /\
  success_count (run_trace (convert_points (Some json_to_directory))) = 1%nat /\
  failure_count (run_trace (convert_points (Some json_to_directory))) = 1%nat /\
  written_paths (run_trace (convert_points (Some json_to_directory))) =
    ["tmp/test_points.geojson"].
Proof. vm_compute. repeat split. Qed.

(** C2 on a conversion that fails for want of its input, with the mock:
    [failure] is called once with the message of the error, the error line
    is printed, and that error is what the caller gets. *)
Lemma failure_reported_and_propagated_witness :
  run_out (convert_missing (Some mock)) = Raised missing_input /\
  failure_count (run_trace (convert_missing (Some mock))) = 1%nat /\
  calls_of (run_trace (convert_missing (Some mock))) =
    [Start; Failure (exn_str missing_input)].
Proof.
  pose proof (failure_reported_and_propagated
                "tmp/does_not_exist.shp" None mock world0
                (Collector {| events := [Start] |}) world0 [] missing_input
                eq_refl) as H.
  cbv zeta in H. destruct H as (_ & Hcount & Htrace & Hsame & _).
  - vm_compute; reflexivity.
  - split; [apply Hsame; vm_compute; reflexivity|].
    split; [exact Hcount|]. vm_compute; reflexivity.
Defined.

(** C2 fails as stated.  The input is missing, so the steps raise a
    [FileNotFoundError]; the destination of the [JsonLogCollector] is a
    directory, so [failure] raises an [IsADirectoryError]; that second error,
    not the first, is what the caller gets. *)
Lemma failure_call_error_replaces_the_error :
  run_out (conversion_steps "tmp/does_not_exist.shp" None
             (time_time (eff_world (call_method Start json_to_directory world0))).1
             (eff_self (call_method Start json_to_directory world0))
             (time_time (eff_world (call_method Start json_to_directory world0))).2)
    = Raised missing_input /\
  run_out (convert_missing (Some json_to_directory)) = Raised directory_opened /\
  calls_of (run_trace (convert_missing (Some json_to_directory))) =
    [Start; Failure (exn_str missing_input)] /\
  raised_calls (run_trace (convert_missing (Some json_to_directory))) =
    [Failure (exn_str missing_input)].
Proof. vm_compute. repeat split. Qed.

(** C4 on the shapefile of the fixture, no output path given: the file is
    written to the input path with [.geojson] for [.shp]. *)
Lemma output_path_used_witness :
  resolved_output_path "tmp/test_points.shp" None = Returned "tmp/test_points.geojson" /\
  written_paths (run_trace (convert_points None)) = ["tmp/test_points.geojson"].
Proof.
  assert (Hr : resolved_output_path "tmp/test_points.shp" None
               = Returned "tmp/test_points.geojson") by (vm_compute; reflexivity).
  split; [exact Hr|].
  destruct (output_path_used (E:=sim) "tmp/test_points.shp" None None world0) as (_ & _ & H).
  destruct H as (q & Hq & Hw); [vm_compute; reflexivity|].
  rewrite Hr in Hq. injection Hq as <-. exact Hw.
Defined.

(** C5 on the shapefile of the fixture, with a [JsonLogCollector] that
    prints: no call and no [print] raised, and one record was printed. *)
Lemma json_one_record_per_conversion_witness :
  raised_calls (run_trace (convert_points (Some json_stdout))) = [] /\
  failed_prints (run_trace (convert_points (Some json_stdout))) = [] /\
  exists record,
    emitted_of (run_trace (convert_points (Some json_stdout))) =
      [Stdout (json_dumps record)].
Proof.
  split; [vm_compute; reflexivity|]. split; [vm_compute; reflexivity|].
  destruct (json_one_record_per_conversion (E:=sim)
              "tmp/test_points.shp" None (JsonLogCollector_init None) world0)
    as (_ & _ & _ & _ & H & _).
  destruct H as (record & H); [vm_compute; reflexivity..|].
  exists record. exact H.
Defined.

(** C5 fails as stated.  The destination of the [JsonLogCollector] is a
    directory: the shapefile is converted and written, [success] and then
    [failure] fail to open the destination, and the conversion ends without
    one record sent. *)
Lemma no_record_when_destination_cannot_be_opened :
  emitted_of (run_trace (convert_points (Some json_to_directory))) = [] /\
  calls_of (run_trace (convert_points (Some json_to_directory))) <> [] /\
  written_paths (run_trace (convert_points (Some json_to_directory))) =
    ["tmp/test_points.geojson"] /\
  run_out (convert_points (Some json_to_directory)) = Raised directory_opened.
Proof. vm_compute. repeat split. discriminate. Qed.

(** C6 on a collector that still holds a field of an earlier conversion: from
    [start] on it does what a fresh collector does. *)
Lemma start_resets_record_witness :
  drive [Start; Failure "boom"]
        {| output_file := None; current_record := [("feature_count", PInt 7)] |} world0 =
  drive [Start; Failure "boom"] (JsonLogCollector_init None) world0.
Proof.
  apply (proj2 (proj2 (proj2 (proj2
           (start_resets_record (E:=sim) (JsonLogCollector_init None) world0))))).
  reflexivity.
Defined.

(** C7 with the serializer of the fixture: a [start], a [read_time] and a
    [failure] whose message has a line feed in it send one output, a record
    line. *)
Lemma json_records_are_lines_witness :
  let outs := (drive [Start; ReadTime 1.5; Failure ("bad" +:+ newline +:+ "input")]
                     (JsonLogCollector_init None) world0).1.1 in
  length outs = 1%nat /\
  Forall (fun o => exists text, written_text o = Some text /\ is_record_line text) outs.
Proof.
  cbv zeta. split; [vm_compute; reflexivity|].
  apply Forall_forall. intros o Hin. apply list_elem_of_In in Hin.
  exact (json_records_are_lines (E:=sim) (JsonLogCollector_init None) world0
           [ReadTime 1.5; Failure ("bad" +:+ newline +:+ "input")] o
           sim_json_dumps_one_line Hin).
Defined.

End WorkedRuns.

(* ===================================================================== *)
(** * More of the program *)
(* ===================================================================== *)

(* ===================================================================== *)
(** ** The trace is faithful to the collector *)
(* ===================================================================== *)

Section Faithful.
Context {E : Env} {S : Type} {C : MetricsCollector S}.

Definition is_call (a : Action) : bool :=
  match a with Call _ _ _ => true | _ => false end.

(** [chain s t s']: the calls of the trace [t] are calls the collector
    served, one after the other, the first on the object [s], each next one
    on the object the one before left, the last one leaving [s']. *)
Inductive chain : S -> list Action -> S -> Prop :=
| chain_nil s : chain s [] s
| chain_call s c w t s' :
    chain (eff_self (invoke c s w)) t s' ->
    chain s (Call c (eff_emits (invoke c s w)) (eff_out (invoke c s w)) :: t) s'
| chain_other s a t s' :
    is_call a = false -> chain s t s' -> chain s (a :: t) s'.

(** A statement of the pipeline is faithful when, run with any object of the
    class, it leaves an object of the class and a trace that is a chain
    between the two. *)
Definition faithful {A : Type} (x : M A) : Prop :=
  forall (s : S) w,
    exists s', run_metrics (x (Collector s) w) = Collector s' /\
               chain s (run_trace (x (Collector s) w)) s'.

(** A collector is plain when every method returns, leaves the world as it
    is, and changes the object and sends what [step] and [sends] say. *)
Definition plain (step : MetricCall -> S -> S)
    (sends : MetricCall -> S -> list Output) : Prop :=
  forall c s w, invoke c s w = Effect (Returned tt) (step c s) w (sends c s).

(** The object after the calls [cs], and what was sent during them. *)
Fixpoint replay (step : MetricCall -> S -> S) (cs : list MetricCall) (s : S) : S :=
  match cs with
  | [] => s
  | c :: cs' => replay step cs' (step c s)
  end.

Fixpoint sent (step : MetricCall -> S -> S) (sends : MetricCall -> S -> list Output)
    (cs : list MetricCall) (s : S) : list Output :=
  match cs with
  | [] => []
  | c :: cs' => sends c s ++ sent step sends cs' (step c s)
  end.

Lemma chain_app s t s1 t' s2 :
  chain s t s1 -> chain s1 t' s2 -> chain s (t ++ t') s2.
Proof.
  induction 1 as [s|s c w t s1 _ IH|s a t s1 Ha _ IH]; intros H'; cbn.
  - exact H'.
  - apply chain_call, IH, H'.
  - apply chain_other; [exact Ha|]. apply IH, H'.
Qed.

Lemma faithful_ret {A : Type} (a : A) : faithful (mret a).
Proof. intros s w. exists s. split; [reflexivity|constructor]. Qed.

Lemma faithful_raise {A : Type} (e : exn) : faithful (@raise E A e).
Proof. intros s w. exists s. split; [reflexivity|constructor]. Qed.

Lemma faithful_lift {A : Type} (o : outcome A) : faithful (lift o).
Proof. intros s w. exists s. split; [reflexivity|constructor]. Qed.

Lemma faithful_call (c : MetricCall) : faithful (call c).
Proof.
  intros s w. exists (eff_self (invoke c s w)). split; [reflexivity|].
  cbn. apply chain_call. constructor.
Qed.

Lemma faithful_now : faithful now.
Proof.
  intros s w. exists s. unfold now. destruct (time_time w).
  split; [reflexivity|constructor].
Qed.

Lemma faithful_getsize (p : string) : faithful (getsize p).
Proof.
  intros s w. exists s. split; [reflexivity|].
  cbn. apply chain_other; [reflexivity|constructor].
Qed.

Lemma faithful_read_file (p : string) : faithful (read_file p).
Proof.
  intros s w. exists s. unfold read_file. destruct (gpd_read_file p w).
  split; [reflexivity|]. cbn. apply chain_other; [reflexivity|constructor].
Qed.

Lemma faithful_to_file gdf (p : string) : faithful (to_file gdf p).
Proof.
  intros s w. exists s. unfold to_file. destruct (gdf_to_file gdf p w).
  split; [reflexivity|]. cbn. apply chain_other; [reflexivity|constructor].
Qed.

Lemma faithful_print (line : string) : faithful (print line).
Proof.
  intros s w. exists s. unfold print.
  destruct (print_error line); (split; [reflexivity|]);
    cbn; (apply chain_other; [reflexivity|constructor]).
Qed.

Lemma faithful_bind {A B : Type} (x : M A) (f : A -> M B) :
  faithful x -> (forall a, faithful (f a)) -> faithful (x ≫= f).
Proof.
  intros Hx Hf s w. unfold mbind, M_bind.
  destruct (Hx s w) as (s1 & Hm & Hc).
  destruct (run_out (x (Collector s) w)) as [a|e].
  - rewrite Hm. destruct (Hf a s1 (run_world (x (Collector s) w))) as (s2 & Hm2 & Hc2).
    exists s2. split; [exact Hm2|]. cbn. eapply chain_app; eassumption.
  - exists s1. split; [exact Hm|exact Hc].
Qed.

Lemma faithful_try_except {A : Type} (x : M A) (h : exn -> M A) :
  faithful x -> (forall e, faithful (h e)) -> faithful (try_except x h).
Proof.
  intros Hx Hh s w. unfold try_except.
  destruct (Hx s w) as (s1 & Hm & Hc).
  destruct (run_out (x (Collector s) w)) as [a|e].
  - exists s1. split; [exact Hm|exact Hc].
  - rewrite Hm. destruct (Hh e s1 (run_world (x (Collector s) w))) as (s2 & Hm2 & Hc2).
    exists s2. split; [exact Hm2|]. cbn. eapply chain_app; eassumption.
Qed.

Lemma faithful_steps input output t0 : faithful (conversion_steps input output t0).
Proof.
  unfold conversion_steps.
  apply faithful_bind; [destruct output; [apply faithful_ret|apply faithful_lift]|].
  intros p.
  repeat first
    [ apply faithful_ret
    | apply faithful_bind;
      [ first [ apply faithful_call | apply faithful_now | apply faithful_getsize
              | apply faithful_read_file | apply faithful_to_file
              | apply faithful_print | apply faithful_lift ]
      | intros ? ] ].
Qed.

Lemma faithful_report_failure (e : exn) : faithful (report_failure e).
Proof.
  unfold report_failure.
  apply faithful_bind; [apply faithful_call|intros _].
  apply faithful_bind; [apply faithful_print|intros _].
  apply faithful_raise.
Qed.

(** Every run of [convert_shapefile] leaves the collector it was given, in
    the state its calls, in the order of the trace, put it in. *)
Lemma convert_faithful input output (s : S) w :
  exists s',
    run_metrics (convert_shapefile input output (Some (Collector s)) w) = Collector s' /\
    chain s (run_trace (convert_shapefile input output (Some (Collector s)) w)) s'.
Proof.
  unfold convert_shapefile.
  apply (faithful_bind (call Start)); [apply faithful_call|intros _].
  apply faithful_bind; [apply faithful_now|intros t0].
  apply faithful_try_except; [apply faithful_steps|apply faithful_report_failure].
Qed.

(** Along a chain of a plain collector no call raises, the object is the
    replay of the calls and what was sent is what the calls send. *)
Lemma chain_plain step sends s t s' :
  plain step sends -> chain s t s' ->
  s' = replay step (calls_of t) s /\
  emitted_of t = sent step sends (calls_of t) s /\
  raised_calls t = [].
Proof.
  intros Hp. induction 1 as [s|s c w t s1 _ IH|s a t s1 Ha _ IH].
  - repeat split.
  - rewrite (Hp c s w) in *. cbn in *. destruct IH as (-> & -> & ->). repeat split.
  - destruct a; try discriminate; cbn; exact IH.
Qed.

End Faithful.

(* ===================================================================== *)
(** ** The order of the steps *)
(* ===================================================================== *)

Section Outline.
Context {E : Env}.

(** What a step of the pipeline is, arguments left out. *)
Inductive Step : Type :=
| SStart | SReadTime | SFeatureCount | SWriteTime | SFileSizes | SSuccess | SFailure
| SGetsize | SReadFile | SToFile.

Definition step_of_call (c : MetricCall) : Step :=
  match c with
  | Start => SStart
  | Success _ _ => SSuccess
  | Failure _ => SFailure
  | ReadTime _ => SReadTime
  | WriteTime _ => SWriteTime
  | FeatureCount _ => SFeatureCount
  | FileSizes _ _ => SFileSizes
  end.

(** The steps of a trace, in order; console lines are no steps. *)
Fixpoint steps_of (t : list Action) : list Step :=
  match t with
  | [] => []
  | Call c _ _ :: t' => step_of_call c :: steps_of t'
  | Getsize _ :: t' => SGetsize :: steps_of t'
  | ReadFile _ :: t' => SReadFile :: steps_of t'
  | ToFile _ :: t' => SToFile :: steps_of t'
  | Console _ :: t' => steps_of t'
  | ConsoleRaised _ _ :: t' => steps_of t'
  end.

(** The lines the pipeline itself printed during a trace, in order. *)
Fixpoint console_of (t : list Action) : list string :=
  match t with
  | [] => []
  | Console line :: t' => line :: console_of t'
  | _ :: t' => console_of t'
  end.

(** The lines a collector printed among what it sent out. *)
Definition stdout_lines (outs : list Output) : list string :=
  flat_map (fun o => match o with Stdout line => [line] | _ => [] end) outs.

(** The lines that reached the standard output during a trace, in order:
    those of the pipeline and those the collector printed in its calls. *)
Fixpoint stdout_of (t : list Action) : list string :=
  match t with
  | [] => []
  | Call _ outs _ :: t' => stdout_lines outs ++ stdout_of t'
  | Console line :: t' => line :: stdout_of t'
  | _ :: t' => stdout_of t'
  end.

(** The steps inside [try:], in the order of the source. *)
Definition steps_in_order : list Step :=
  [SGetsize; SReadFile; SReadTime; SFeatureCount; SToFile; SWriteTime;
   SGetsize; SFileSizes; SSuccess].

(** The metadata handed to [success]. *)
Definition conversion_metadata (input_path output_path : string) (feature_count : Z)
    (input_size_mb output_size_mb : float) (crs : string) : dict :=
  [("input_file", PStr input_path);
   ("output_file", PStr output_path);
   ("feature_count", PInt feature_count);
   ("input_size_mb", PFloat input_size_mb);
   ("output_size_mb", PFloat output_size_mb);
   ("crs", PStr crs)].

(** The whole of a run of the steps that returns: the clock readings [t1] to
    [t5], the sizes [n_in] and [n_out], the table [gdf] and the text [types]
    of its geometry types determine every action. *)
Definition success_trace (input_path p : string) (t0 t1 t2 t3 t4 t5 : float)
    (n_in n_out : Z) (gdf : GeoDataFrame) (types : string)
    (o1 o2 o3 o4 o5 : list Output) : list Action :=
  [Getsize input_path;
   ReadFile input_path;
   Call (ReadTime (t2 - t1)) o1 (Returned tt);
   Call (FeatureCount (gdf_len gdf)) o2 (Returned tt);
   Console ("Read " +:+ str_of_int (gdf_len gdf) +:+ " features in "
            +:+ format_2f (t2 - t1) +:+ "s");
   Console ("CRS: " +:+ gdf_crs gdf);
   Console ("Geometry types: " +:+ types);
   ToFile p;
   Call (WriteTime (t4 - t3)) o3 (Returned tt);
   Getsize p;
   Call (FileSizes (megabytes n_in) (megabytes n_out)) o4 (Returned tt);
   Call (Success (t5 - t0)
           (conversion_metadata input_path p (gdf_len gdf)
              (megabytes n_in) (megabytes n_out) (gdf_crs gdf)))
        o5 (Returned tt);
   Console ("Wrote GeoJSON in " +:+ format_2f (t4 - t3) +:+ "s");
   Console ("Total conversion time: " +:+ format_2f (t5 - t0) +:+ "s");
   Console ("Output file: " +:+ p +:+ " (" +:+ format_2f (megabytes n_out) +:+ " MB)")]%float.

(** What a run of the steps in [try:] looks like: a run that returns is a
    [success_trace]; a run that raises stopped somewhere along the order of
    the steps, with intermediate calls only behind it, unless it made all
    five calls and [success] or a [print] after it raised. *)
Definition steps_outline (input_path : string) (output_path : option string)
    (t0 : float) (r : run bool) : Prop :=
  match run_out r with
  | Returned _ =>
      exists p t1 t2 t3 t4 t5 n_in n_out gdf types o1 o2 o3 o4 o5 w1 w2 w3 w4,
        resolved_output_path input_path output_path = Returned p /\
        os_path_getsize input_path w1 = Returned n_in /\
        gpd_read_file input_path w2 = (Returned gdf, w3) /\
        gdf_geometry_types gdf = Returned types /\
        os_path_getsize p w4 = Returned n_out /\
        run_trace r =
          success_trace input_path p t0 t1 t2 t3 t4 t5 n_in n_out gdf types
                        o1 o2 o3 o4 o5
  | Raised _ =>
      (exists k, (k <= 9)%nat /\
         steps_of (run_trace r) = take k steps_in_order) /\
      (Forall (fun c => is_intermediate c = true) (calls_of (run_trace r)) \/
       (raised_calls (run_trace r) <> [] \/ failed_prints (run_trace r) <> []) /\
       exists rt n wt imb omb d md,
         calls_of (run_trace r) =
           [ReadTime rt; FeatureCount n; WriteTime wt; FileSizes imb omb;
            Success d md])
  end.

End Outline.

(** A run that raised stopped after [k] steps. *)
Ltac stopped_after k :=
  split;
  [ exists k; cbn; repeat split; first [reflexivity | lia]
  | cbn;
    first [ solve [left; repeat constructor]
          | right; split;
            [ first [left; discriminate | right; discriminate]
            | repeat eexists ] ] ].

Section OutlineFacts.
Context {E : Env}.

Lemma steps_outline_spec input output t0 m w :
  steps_outline input output t0 (conversion_steps input output t0 m w).
Proof.
  unfold conversion_steps. destruct output; cbv zeta; run_all.
  all: unfold steps_outline;
    cbn -[megabytes dict_display String.append str_of_int].
  all: try solve
    [ stopped_after 0%nat | stopped_after 1%nat | stopped_after 2%nat
    | stopped_after 3%nat | stopped_after 4%nat | stopped_after 5%nat
    | stopped_after 6%nat | stopped_after 7%nat | stopped_after 8%nat
    | stopped_after 9%nat ].
  all: repeat eexists; eassumption.
Qed.

Lemma steps_of_app (t t' : list Action) :
  steps_of (t ++ t') = steps_of t ++ steps_of t'.
Proof. induction t as [|[] t IH]; cbn; congruence. Qed.

Lemma console_of_app (t t' : list Action) :
  console_of (t ++ t') = console_of t ++ console_of t'.
Proof. induction t as [|[] t IH]; cbn; congruence. Qed.

(** X1.  Every run, whether it returns or raises, does [start], then the steps of
    [try:] in their order up to some point, then [failure] if one of them
    raised.  So [to_file] is never attempted before the table was read and
    counted, nothing is attempted twice, and [success] is never followed by
    another step than [failure]. *)
Theorem steps_follow_the_order input output metrics w :
  let r := convert_shapefile input output metrics w in
  exists k tail,
    (k <= 9)%nat /\
    steps_of (run_trace r) = SStart :: take k steps_in_order ++ tail /\
    (is_returned (run_out r) = true -> k = 9%nat /\ tail = []) /\
    (is_raised (run_out r) = true ->
       tail = [SFailure] \/ k = 0%nat /\ tail = [] /\ raised_calls (run_trace r) = [Start]).
Proof.
  cbv zeta. destruct (convert_some input output metrics w) as [m ->].
  rewrite convert_run.
  destruct (call_method Start m w) as [[[]|e] m1 w1 outs].
  2:{ exists 0%nat, []. cbn. repeat split; try lia; try discriminate. auto. }
  cbv zeta. rewrite run_out_after, run_trace_after.
  pose proof (steps_outline_spec input output (time_time w1).1 m1 (time_time w1).2) as Hs.
  unfold steps_outline in Hs.
  destruct (run_out (conversion_steps _ _ _ _ _)) as [b|e] eqn:Hb.
  - destruct Hs as (p & t1 & t2 & t3 & t4 & t5 & n_in & n_out & gdf & types
                    & o1 & o2 & o3 & o4 & o5 & wa & wb & wc & wd & _ & _ & _ & _ & _ & Ht).
    exists 9%nat, []. rewrite Hb, Ht. cbn. repeat split; try lia; discriminate.
  - destruct Hs as ((k & Hk & Hsteps) & _).
    exists k, [SFailure].
    rewrite run_out_after, run_trace_after, report_failure_run.
    destruct (call_method _ _ _) as [[[]|e'] m2 w2 outs2]; cbn [run_out run_trace].
    all: unfold printed; try destruct (print_error _).
    all: cbn [app steps_of step_of_call]; rewrite steps_of_app, Hsteps; cbn.
    all: repeat split; auto; discriminate.
Qed.

(** X2.  What [success] is told agrees with what was done and reported before it:
    its [feature_count] is the count given to [feature_count], its sizes are
    the sizes given to [file_sizes], which are the sizes of the input and of
    the written output divided twice by 1024, and its [output_file] is the
    resolved path. *)
Theorem success_metadata_agrees input output metrics w b :
  let r := convert_shapefile input output metrics w in
  run_out r = Returned b ->
  exists p gdf n_in n_out w_in w_out rt wt d,
    resolved_output_path input output = Returned p /\
    os_path_getsize input w_in = Returned n_in /\
    os_path_getsize p w_out = Returned n_out /\
    written_paths (run_trace r) = [p] /\
    calls_of (run_trace r) =
      [Start; ReadTime rt; FeatureCount (gdf_len gdf); WriteTime wt;
       FileSizes (megabytes n_in) (megabytes n_out);
       Success d (conversion_metadata input p (gdf_len gdf)
                    (megabytes n_in) (megabytes n_out) (gdf_crs gdf))].
Proof.
  cbv zeta. destruct (convert_some input output metrics w) as [m ->].
  rewrite convert_run.
  destruct (call_method Start m w) as [[[]|e] m1 w1 outs]; [|discriminate].
  cbv zeta. rewrite run_out_after, run_trace_after.
  pose proof (steps_outline_spec input output (time_time w1).1 m1 (time_time w1).2) as Hs.
  unfold steps_outline in Hs.
  destruct (run_out (conversion_steps _ _ _ _ _)) as [b'|e] eqn:Hb.
  - destruct Hs as (p & t1 & t2 & t3 & t4 & t5 & n_in & n_out & gdf & types
                    & o1 & o2 & o3 & o4 & o5 & wa & wb & wc & wd
                    & Hp & Hin & _ & _ & Hout & Ht).
    intros _. cbv iota. rewrite Ht.
    exists p, gdf, n_in, n_out, wa, wd. do 3 eexists.
    repeat split; [exact Hp|exact Hin|exact Hout].
  - rewrite run_out_after, report_failure_run.
    destruct (call_method _ _ _) as [[[]|e'] ? ? ?]; discriminate.
Qed.

(** X3.  A conversion that succeeds has printed six lines of its own, none
    of which raised: the count and the time of the read, the CRS, the
    geometry types, the time of the write, the total time and the output
    file with its size; the times and the size printed are the ones
    reported to the collector.  What else is on the standard output was
    printed by the collector during its calls, before the first of the six
    lines or between the third and the fourth. *)
Theorem success_prints_progress input output metrics w b :
  let r := convert_shapefile input output metrics w in
  run_out r = Returned b ->
  exists p gdf types rt wt imb omb d md before between,
    gdf_geometry_types gdf = Returned types /\
    calls_of (run_trace r) =
      [Start; ReadTime rt; FeatureCount (gdf_len gdf); WriteTime wt;
       FileSizes imb omb; Success d md] /\
    written_paths (run_trace r) = [p] /\
    failed_prints (run_trace r) = [] /\
    console_of (run_trace r) =
      ["Read " +:+ str_of_int (gdf_len gdf) +:+ " features in " +:+ format_2f rt +:+ "s";
       "CRS: " +:+ gdf_crs gdf;
       "Geometry types: " +:+ types;
       "Wrote GeoJSON in " +:+ format_2f wt +:+ "s";
       "Total conversion time: " +:+ format_2f d +:+ "s";
       "Output file: " +:+ p +:+ " (" +:+ format_2f omb +:+ " MB)"] /\
    stdout_of (run_trace r) =
      before ++ take 3 (console_of (run_trace r)) ++
      between ++ drop 3 (console_of (run_trace r)) /\
    before ++ between = stdout_lines (emitted_of (run_trace r)).
Proof.
  cbv zeta. destruct (convert_some input output metrics w) as [m ->].
  rewrite convert_run.
  destruct (call_method Start m w) as [[[]|e] m1 w1 outs]; [|discriminate].
  cbv zeta. rewrite run_out_after, run_trace_after.
  pose proof (steps_outline_spec input output (time_time w1).1 m1 (time_time w1).2) as Hs.
  unfold steps_outline in Hs.
  destruct (run_out (conversion_steps _ _ _ _ _)) as [b'|e] eqn:Hb.
  - destruct Hs as (p & t1 & t2 & t3 & t4 & t5 & n_in & n_out & gdf & types
                    & o1 & o2 & o3 & o4 & o5 & wa & wb & wc & wd
                    & _ & _ & _ & Hty & _ & Ht).
    intros _. cbv iota. rewrite Ht.
    exists p, gdf, types. do 6 eexists.
    exists (stdout_lines outs ++ stdout_lines o1 ++ stdout_lines o2),
           (stdout_lines o3 ++ stdout_lines o4 ++ stdout_lines o5).
    split; [exact Hty|]. do 4 (split; [reflexivity|]).
    unfold success_trace.
    cbn [app console_of stdout_of emitted_of take drop].
    unfold stdout_lines. rewrite !flat_map_app, <- !app_assoc. cbn [flat_map app].
    rewrite !app_nil_r. split; reflexivity.
  - rewrite run_out_after, report_failure_run.
    destruct (call_method _ _ _) as [[[]|e'] ? ? ?]; discriminate.
Qed.

(** X4.  With no collector and an input that [os.path.getsize] does not find:
    the conversion reports the error of [getsize] to [failure], prints the
    error line and raises that error, or the error of that [print] if it
    raises; the input is not read, nothing is written, and the world is
    what it was but for the reading of the clock. *)
Theorem missing_input_touches_nothing input output w p e :
  resolved_output_path input output = Returned p ->
  os_path_getsize input (time_time w).2 = Raised e ->
  let line := "Error during conversion: " +:+ exn_str e in
  convert_shapefile input output None w =
    Run (Raised (error_after_print line e)) NullCollector_new (time_time w).2
        [Call Start [] (Returned tt);
         Getsize input;
         Call (Failure (exn_str e)) [] (Returned tt);
         printed line] /\
  (print_error line = None ->
     run_out (convert_shapefile input output None w) = Raised e).
Proof.
  intros Hp Hsize line.
  assert (H : convert_shapefile input output None w =
    Run (Raised (error_after_print line e)) NullCollector_new (time_time w).2
        [Call Start [] (Returned tt); Getsize input;
         Call (Failure (exn_str e)) [] (Returned tt); printed line]).
  { unfold convert_shapefile.
    rewrite bind_call.
    cbn [call_method invoke NullCollector_new obj_type obj_class obj_self
         record_conversion_start NullCollector_class pass
         eff_out eff_self eff_world eff_emits].
    rewrite bind_now. unfold try_except, conversion_steps.
    destruct output as [q|]; cbn in Hp.
    - injection Hp as ->. rewrite bind_mret, bind_getsize, Hsize.
      cbn [run_out run_trace run_metrics run_world]. rewrite report_failure_run.
      reflexivity.
    - rewrite bind_lift, Hp, bind_getsize, Hsize.
      cbn [run_out run_trace run_metrics run_world]. rewrite report_failure_run.
      reflexivity. }
  split; [exact H|]. intros Hl. rewrite H. cbn.
  by rewrite (error_after_print_ok line e Hl).
Qed.

(** X5.  With no collector, no output path, and an input path from which no
    output path can be derived: the conversion reports the error of
    [with_suffix] to [failure], prints the error line and raises that
    error, or the error of that [print] if it raises; it has not looked at
    any file. *)
Theorem underivable_output_path_touches_nothing input w e :
  path_with_suffix input ".geojson" = Raised e ->
  let line := "Error during conversion: " +:+ exn_str e in
  convert_shapefile input None None w =
    Run (Raised (error_after_print line e)) NullCollector_new (time_time w).2
        [Call Start [] (Returned tt);
         Call (Failure (exn_str e)) [] (Returned tt);
         printed line] /\
  (print_error line = None ->
     run_out (convert_shapefile input None None w) = Raised e).
Proof.
  intros Hp line.
  assert (H : convert_shapefile input None None w =
    Run (Raised (error_after_print line e)) NullCollector_new (time_time w).2
        [Call Start [] (Returned tt);
         Call (Failure (exn_str e)) [] (Returned tt); printed line]).
  { unfold convert_shapefile.
    rewrite bind_call.
    cbn [call_method invoke NullCollector_new obj_type obj_class obj_self
         record_conversion_start NullCollector_class pass
         eff_out eff_self eff_world eff_emits].
    rewrite bind_now. unfold try_except, conversion_steps.
    rewrite bind_lift, Hp.
    cbn [run_out run_trace run_metrics run_world]. rewrite report_failure_run.
    reflexivity. }
  split; [exact H|]. intros Hl. rewrite H. cbn.
  by rewrite (error_after_print_ok line e Hl).
Qed.

End OutlineFacts.

(* ===================================================================== *)
(** ** Collectors that cannot fail *)
(* ===================================================================== *)

Section PlainCollectors.
Context {E : Env}.

(** The datagrams a call on a [StatsDCollector] sends. *)
Definition statsd_datagrams (c : MetricCall) : list Output :=
  match c with
  | Start => []
  | Success duration _ =>
      [ClientIncr "conversion.success";
       ClientTiming "conversion.duration" (duration * 1000)%float]
  | Failure _ => [ClientIncr "conversion.failure"]
  | ReadTime duration => [ClientTiming "read.duration" (duration * 1000)%float]
  | WriteTime duration => [ClientTiming "write.duration" (duration * 1000)%float]
  | FeatureCount count => [ClientGauge "feature.count" (PInt count)]
  | FileSizes input_mb output_mb =>
      [ClientGauge "input.size_mb" (PFloat input_mb);
       ClientGauge "output.size_mb" (PFloat output_mb)]
  end.

(** A trace with what the calls sent left out. *)
Definition quiet (t : list Action) : list Action :=
  map (fun a => match a with Call c _ res => Call c [] res | _ => a end) t.

Lemma null_plain : plain (C := NullCollector_class) (fun _ s => s) (fun _ _ => []).
Proof. intros [] s w; reflexivity. Qed.

Lemma mock_plain :
  plain (C := MockMetricsCollector_class)
        (fun c s => {| events := events s ++ [c] |}) (fun _ _ => []).
Proof. intros [] s w; reflexivity. Qed.

Lemma statsd_plain :
  plain (C := StatsDCollector_class) (fun _ s => s) (fun c _ => statsd_datagrams c).
Proof. intros [] s w; reflexivity. Qed.

Lemma replay_mock (cs : list MetricCall) (s : MockMetricsCollector) :
  replay (fun c s => {| events := events s ++ [c] |}) cs s
  = {| events := events s ++ cs |}.
Proof.
  revert s. induction cs as [|c cs IH]; intros [evs]; cbn.
  - by rewrite app_nil_r.
  - rewrite IH. cbn. by rewrite <- app_assoc.
Qed.

Lemma replay_id {S : Type} (cs : list MetricCall) (s : S) :
  replay (fun _ s => s) cs s = s.
Proof. induction cs; cbn; auto. Qed.

Lemma sent_nothing {S : Type} (step : MetricCall -> S -> S) cs (s : S) :
  sent step (fun _ _ => []) cs s = [].
Proof. revert s. induction cs as [|c cs IH]; intros s; cbn; auto. Qed.

Lemma sent_stateless {S : Type} (f : MetricCall -> list Output) cs (s : S) :
  sent (fun _ s => s) (fun c _ => f c) cs s = flat_map f cs.
Proof. induction cs as [|c cs IH]; cbn; congruence. Qed.

Lemma call_method_plain {S : Type} {C : MetricsCollector S} step sends c (s : S) w :
  plain step sends ->
  call_method c (Collector s) w =
  Effect (Returned tt) (Collector (step c s)) w (sends c s).
Proof. intros Hp. unfold call_method. cbn. by rewrite (Hp c s w). Qed.

(** X6.  The mock of the tests records the calls of a conversion, each one, in
    their order, after the events it held; no call on it raises and it sends
    nothing. *)
Theorem mock_records_every_call input output (evs : list MetricCall) w :
  let r := convert_shapefile input output (Some (Collector {| events := evs |})) w in
  run_metrics r = Collector {| events := evs ++ calls_of (run_trace r) |} /\
  raised_calls (run_trace r) = [] /\
  emitted_of (run_trace r) = [].
Proof.
  cbv zeta.
  destruct (convert_faithful (C := MockMetricsCollector_class)
              input output {| events := evs |} w) as (s' & Hm & Hc).
  destruct (chain_plain _ _ _ _ _ mock_plain Hc) as (Hs & He & Hr).
  rewrite Hm, Hs, replay_mock, He, sent_nothing. auto.
Qed.

Lemma calls_other_are_intermediate (t : list Action) :
  count_calls is_start t = 0%nat ->
  count_calls is_success t = 0%nat ->
  count_calls is_failure t = 0%nat ->
  Forall (fun c => is_intermediate c = true) (calls_of t).
Proof.
  unfold count_calls. induction (calls_of t) as [|c cs IH]; [constructor|].
  destruct c; cbn; try discriminate; intros H1 H2 H3; constructor; auto.
Qed.

(** The calls of a conversion, for any collector: the six calls of a
    conversion that returns; when a conversion raises and no call raised,
    [start], then either some of the intermediate calls or, when a [print]
    after [success] raised, all of them and [success], then [failure] with
    the text of the error that ended the steps.  That error is the one the
    conversion raises, unless the [print] of the error line raised. *)
Lemma convert_calls input output m w :
  let r := convert_shapefile input output (Some m) w in
  match run_out r with
  | Returned _ =>
      exists rt gdf wt imb omb d md,
        calls_of (run_trace r) =
          [Start; ReadTime rt; FeatureCount (gdf_len gdf); WriteTime wt;
           FileSizes imb omb; Success d md]
  | Raised e =>
      raised_calls (run_trace r) = [] ->
      exists pre e0,
        calls_of (run_trace r) = Start :: pre ++ [Failure (exn_str e0)] /\
        e = error_after_print ("Error during conversion: " +:+ exn_str e0) e0 /\
        (failed_prints (run_trace r) = [] -> e0 = e) /\
        (Forall (fun c => is_intermediate c = true) pre \/
         failed_prints (run_trace r) <> [] /\
         exists rt n wt imb omb d md,
           pre = [ReadTime rt; FeatureCount n; WriteTime wt; FileSizes imb omb;
                  Success d md])
  end.
Proof.
  cbv zeta. rewrite convert_run.
  destruct (call_method Start m w) as [[[]|e] m1 w1 outs]; [|discriminate].
  cbv zeta. rewrite run_out_after, run_trace_after.
  pose proof (steps_spec input output (time_time w1).1 m1 (time_time w1).2) as Hsp.
  pose proof (steps_outline_spec input output (time_time w1).1 m1 (time_time w1).2) as Hso.
  unfold steps_outline in Hso.
  destruct Hsp as (_ & _ & _ & _ & Hsp).
  set (rb := conversion_steps input output (time_time w1).1 m1 (time_time w1).2) in *.
  destruct (run_out rb) as [b|e] eqn:Hb.
  - cbv iota. rewrite Hb.
    destruct Hsp as (_ & _ & p & gdf & wa & wb & rt & wt & imb & omb & d & md
                     & _ & _ & Hcalls & _).
    exists rt, gdf, wt, imb, omb, d, md. cbn. by rewrite Hcalls.
  - clear Hsp. destruct Hso as (_ & Hso).
    rewrite run_out_after, run_trace_after, report_failure_run.
    destruct (call_method _ _ _) as [[[]|e'] m2 w2 outs2];
      cbn [run_out run_trace]; intros Hr.
    all: cbn [app raised_calls] in Hr; rewrite raised_calls_app in Hr.
    2:{ cbn in Hr. by apply app_eq_nil in Hr as [_ [=]]. }
    apply app_eq_nil in Hr as [Hr _].
    exists (calls_of (run_trace rb)), e.
    unfold printed, error_after_print.
    destruct (print_error _) as [ep|] eqn:Hpe.
    all: cbn [app calls_of failed_prints].
    all: rewrite calls_of_app, failed_prints_app.
    all: cbn [calls_of failed_prints]; rewrite ?app_nil_r.
    all: split; [reflexivity|]; split; [reflexivity|]; split.
    + intros H. by apply app_eq_nil in H as [_ [=]].
    + destruct Hso as [Hso|([Hso|Hso] & Hfive)]; [by left|contradiction|].
      right. split; [|exact Hfive].
      intros H. by apply app_eq_nil in H as [H _].
    + reflexivity.
    + destruct Hso as [Hso|([Hso|Hso] & Hfive)]; [by left|contradiction|].
      right. split; [exact Hso|exact Hfive].
Qed.

(** A conversion with a plain collector: no call raises, the collector ends
    as its calls leave it, and the calls are those of [convert_calls]. *)
Lemma plain_run {S : Type} {C : MetricsCollector S} step sends (s : S) input output w :
  plain step sends ->
  let r := convert_shapefile input output (Some (Collector s)) w in
  raised_calls (run_trace r) = [] /\
  run_metrics r = Collector (replay step (calls_of (run_trace r)) s) /\
  emitted_of (run_trace r) = sent step sends (calls_of (run_trace r)) s.
Proof.
  intros Hp. cbv zeta.
  destruct (convert_faithful input output s w) as (s' & Hm & Hc).
  destruct (chain_plain _ _ _ _ _ Hp Hc) as (Hs & He & Hr).
  split; [exact Hr|]. split; [by rewrite Hm, Hs|exact He].
Qed.

(** X7.  With a collector that cannot fail, no call raises.  A conversion
    that returns has called [success] once and [failure] never.  One that
    raises has called [failure] once, as its last call, with the text of
    the error that ended the steps, and [success] at most once; when no
    [print] raised, that error is the one the conversion raises and
    [success] was never called. *)
Theorem plain_collector_reports_one_outcome
    {S : Type} {C : MetricsCollector S} step sends (s : S) input output w :
  plain step sends ->
  let r := convert_shapefile input output (Some (Collector s)) w in
  raised_calls (run_trace r) = [] /\
  match run_out r with
  | Returned _ =>
      success_count (run_trace r) = 1%nat /\ failure_count (run_trace r) = 0%nat
  | Raised e =>
      failure_count (run_trace r) = 1%nat /\
      (success_count (run_trace r) <= 1)%nat /\
      (exists e0, last (calls_of (run_trace r)) = Some (Failure (exn_str e0)) /\
                  (failed_prints (run_trace r) = [] -> e0 = e)) /\
      (failed_prints (run_trace r) = [] -> success_count (run_trace r) = 0%nat)
  end.
Proof.
  intros Hp. cbv zeta.
  destruct (plain_run step sends s input output w Hp) as (Hr & _ & _).
  split; [exact Hr|].
  pose proof (convert_calls input output (Collector s) w) as Hc. cbv zeta in Hc.
  unfold success_count, failure_count, count_calls.
  destruct (run_out _) as [b|e].
  - destruct Hc as (rt & gdf & wt & imb & omb & d & md & ->). split; reflexivity.
  - destruct (Hc Hr) as (pre & e0 & -> & _ & He0 & Hpre).
    rewrite app_comm_cons, last_snoc, !List.filter_app. cbn [List.filter is_failure
      is_success app length]. rewrite !length_app. cbn [length].
    assert (Hn : forall f, (forall c, is_intermediate c = true -> f c = false) ->
                 forall l, Forall (fun c => is_intermediate c = true) l ->
                 List.filter f l = []).
    { intros f Hf l H. induction H as [|c l Hc' _ IH]; [reflexivity|].
      cbn [List.filter]. rewrite (Hf c Hc'). exact IH. }
    assert (Hnf : forall c, is_intermediate c = true -> is_failure c = false)
      by (intros []; (discriminate || reflexivity)).
    assert (Hns : forall c, is_intermediate c = true -> is_success c = false)
      by (intros []; (discriminate || reflexivity)).
    destruct Hpre as [Hpre|(Hfp & rt & n & wt & imb & omb & d & md & ->)].
    + rewrite (Hn is_failure Hnf pre Hpre), (Hn is_success Hns pre Hpre). cbn.
      repeat split; try lia. by exists e0.
    + cbn. repeat split; try lia; [by exists e0|]. intros H. by destruct (Hfp H).
Qed.

End PlainCollectors.

(* ===================================================================== *)
(** ** PrometheusCollector *)
(* ===================================================================== *)

(** [float(n)] of an [int] of either sign below [2^63] in size. *)
Definition float_of_signed (n : Z) : float :=
  match n with
  | Zneg _ => (- float_of_int (- n))%float
  | _ => float_of_int n
  end.

Section Prometheus.
Context {E : Env}.

(** The seven metrics the collector holds: a counter with a child per value
    of the label [status], three histograms, each with the values observed,
    oldest first, and three gauges. *)
Record PrometheusCollector : Type := {
  conversion_counter : gmap string float;
  conversion_duration : list float;
  read_duration : list float;
  write_duration : list float;
  feature_count_gauge : float;
  input_size_gauge : float;
  output_size_gauge : float
}.

(** The metrics as they are created: no child, no observation, gauges at 0. *)
Definition prometheus_created : PrometheusCollector :=
  {| conversion_counter := ∅;
     conversion_duration := [];
     read_duration := [];
     write_duration := [];
     feature_count_gauge := 0;
     input_size_gauge := 0;
     output_size_gauge := 0 |}.

(** [counter.labels(status=status).inc()] *)
Definition counter_inc (status : string) (counter : gmap string float)
    : gmap string float :=
  <[status := (default 0%float (counter !! status) + 1)%float]> counter.

(** What a call does to the metrics. *)
Definition prometheus_step (c : MetricCall) (self : PrometheusCollector)
    : PrometheusCollector :=
  match c with
  | Start => self
  | Success duration _ =>
      {| conversion_counter := counter_inc "success" (conversion_counter self);
         conversion_duration := conversion_duration self ++ [duration];
         read_duration := read_duration self;
         write_duration := write_duration self;
         feature_count_gauge := feature_count_gauge self;
         input_size_gauge := input_size_gauge self;
         output_size_gauge := output_size_gauge self |}
  | Failure _ =>
      {| conversion_counter := counter_inc "failure" (conversion_counter self);
         conversion_duration := conversion_duration self;
         read_duration := read_duration self;
         write_duration := write_duration self;
         feature_count_gauge := feature_count_gauge self;
         input_size_gauge := input_size_gauge self;
         output_size_gauge := output_size_gauge self |}
  | ReadTime duration =>
      {| conversion_counter := conversion_counter self;
         conversion_duration := conversion_duration self;
         read_duration := read_duration self ++ [duration];
         write_duration := write_duration self;
         feature_count_gauge := feature_count_gauge self;
         input_size_gauge := input_size_gauge self;
         output_size_gauge := output_size_gauge self |}
  | WriteTime duration =>
      {| conversion_counter := conversion_counter self;
         conversion_duration := conversion_duration self;
         read_duration := read_duration self;
         write_duration := write_duration self ++ [duration];
         feature_count_gauge := feature_count_gauge self;
         input_size_gauge := input_size_gauge self;
         output_size_gauge := output_size_gauge self |}
  | FeatureCount count =>
      {| conversion_counter := conversion_counter self;
         conversion_duration := conversion_duration self;
         read_duration := read_duration self;
         write_duration := write_duration self;
         feature_count_gauge := float_of_signed count;
         input_size_gauge := input_size_gauge self;
         output_size_gauge := output_size_gauge self |}
  | FileSizes input_mb output_mb =>
      {| conversion_counter := conversion_counter self;
         conversion_duration := conversion_duration self;
         read_duration := read_duration self;
         write_duration := write_duration self;
         feature_count_gauge := feature_count_gauge self;
         input_size_gauge := input_mb;
         output_size_gauge := output_mb |}
  end.

Definition prometheus_method (c : MetricCall) (self : PrometheusCollector) (w : World)
    : effect PrometheusCollector :=
  Effect (Returned tt) (prometheus_step c self) w [].

#[export] Instance PrometheusCollector_class : MetricsCollector PrometheusCollector := {
  record_conversion_start := pass;
  record_conversion_success := fun duration metadata =>
    prometheus_method (Success duration metadata);
  record_conversion_failure := fun error => prometheus_method (Failure error);
  record_read_time := fun duration => prometheus_method (ReadTime duration);
  record_write_time := fun duration => prometheus_method (WriteTime duration);
  record_feature_count := fun count => prometheus_method (FeatureCount count);
  record_file_sizes := fun input_mb output_mb =>
    prometheus_method (FileSizes input_mb output_mb)
}.

End Prometheus.

Section PlainPipelines.
Context {E : Env}.

Lemma prometheus_plain :
  plain (C := PrometheusCollector_class) prometheus_step (fun _ _ => []).
Proof. intros [] s w; reflexivity. Qed.

(** Intermediate calls leave the outcome counter and the histogram of the
    total duration as they are. *)
Lemma replay_intermediate_outcome (pre : list MetricCall) (self : PrometheusCollector) :
  Forall (fun c => is_intermediate c = true) pre ->
  conversion_counter (replay prometheus_step pre self) = conversion_counter self /\
  conversion_duration (replay prometheus_step pre self) = conversion_duration self.
Proof.
  intros H. revert self.
  induction H as [|c pre Hc _ IH]; intros self; [split; reflexivity|].
  cbn [replay]. destruct (IH (prometheus_step c self)) as (-> & ->).
  destruct c; try discriminate; split; reflexivity.
Qed.

Lemma replay_app {S : Type} (step : MetricCall -> S -> S) cs cs' (s : S) :
  replay step (cs ++ cs') s = replay step cs' (replay step cs s).
Proof. revert s. induction cs as [|c cs IH]; intros s; cbn; auto. Qed.

(** X8.  A conversion with a [PrometheusCollector].  When it returns: the child
    [success] of the counter went up by one, the three histograms each got
    one more observation, the duration reported to [success], to
    [read_time] and to [write_time], and the gauges hold the length of the
    table and the two sizes.  When it raises: the child [failure] of the
    counter went up by one, and nothing else of the counter and of the
    histogram of the total duration changed; unless a [print] after
    [success] raised, and then the child [success] went up by one too and
    the histogram got the duration. *)
Theorem prometheus_after_a_conversion input output (self : PrometheusCollector) w :
  let r := convert_shapefile input output (Some (Collector self)) w in
  match run_out r with
  | Returned _ =>
      exists rt gdf wt imb omb d md,
        calls_of (run_trace r) =
          [Start; ReadTime rt; FeatureCount (gdf_len gdf); WriteTime wt;
           FileSizes imb omb; Success d md] /\
        run_metrics r = Collector
          {| conversion_counter := counter_inc "success" (conversion_counter self);
             conversion_duration := conversion_duration self ++ [d];
             read_duration := read_duration self ++ [rt];
             write_duration := write_duration self ++ [wt];
             feature_count_gauge := float_of_signed (gdf_len gdf);
             input_size_gauge := imb;
             output_size_gauge := omb |}
  | Raised _ =>
      exists self',
        run_metrics r = Collector self' /\
        (conversion_counter self' = counter_inc "failure" (conversion_counter self) /\
         conversion_duration self' = conversion_duration self
         \/
         failed_prints (run_trace r) <> [] /\
         exists d,
           conversion_counter self' =
             counter_inc "failure" (counter_inc "success" (conversion_counter self)) /\
           conversion_duration self' = conversion_duration self ++ [d])
  end.
Proof.
  cbv zeta.
  destruct (plain_run _ _ self input output w prometheus_plain) as (Hr & Hm & _).
  pose proof (convert_calls input output (Collector self) w) as Hc. cbv zeta in Hc.
  destruct (run_out _) as [b|e].
  - destruct Hc as (rt & gdf & wt & imb & omb & d & md & Hc).
    exists rt, gdf, wt, imb, omb, d, md. split; [exact Hc|].
    rewrite Hm, Hc. reflexivity.
  - destruct (Hc Hr) as (pre & e0 & Hcalls & _ & _ & Hpre).
    eexists. split; [exact Hm|]. rewrite Hcalls.
    destruct Hpre as [Hpre|(Hfp & rt & n & wt & imb & omb & d & md & ->)].
    + left. cbn [replay prometheus_step]. rewrite replay_app.
      cbn [replay prometheus_step].
      destruct (replay_intermediate_outcome pre self Hpre) as (Hcc & Hcd).
      cbn. rewrite Hcc, Hcd. split; reflexivity.
    + right. split; [exact Hfp|]. exists d. split; reflexivity.
Qed.

Lemma last_flat_map {A B : Type} (f : A -> list B) (l : list A) (a : A) (b : B) :
  last l = Some a -> last (f a) = Some b -> last (flat_map f l) = Some b.
Proof.
  intros Hl Hb. apply last_Some in Hl as [l' ->].
  rewrite flat_map_app. cbn. rewrite app_nil_r.
  apply last_Some in Hb as [l'' ->]. by rewrite app_assoc, last_snoc.
Qed.

(** X9.  A conversion with a [StatsDCollector]: the client is sent the datagrams
    of the calls, in the order of the calls, and the collector is left as it
    was.  When the conversion returns these are the timing of the read, the
    gauge of the count, the timing of the write, the two gauges of the
    sizes, the increment of [conversion.success] and the timing of the
    whole; timings are in milliseconds.  When it raises, the last datagram
    is the increment of [conversion.failure], and [conversion.success] is
    not incremented, unless a [print] raised. *)
Theorem statsd_datagrams_of_a_conversion input output (self : StatsDCollector) w :
  let r := convert_shapefile input output (Some (Collector self)) w in
  run_metrics r = Collector self /\
  emitted_of (run_trace r) = flat_map statsd_datagrams (calls_of (run_trace r)) /\
  match run_out r with
  | Returned _ =>
      exists rt gdf wt imb omb d,
        emitted_of (run_trace r) =
          [ClientTiming "read.duration" (rt * 1000)%float;
           ClientGauge "feature.count" (PInt (gdf_len gdf));
           ClientTiming "write.duration" (wt * 1000)%float;
           ClientGauge "input.size_mb" (PFloat imb);
           ClientGauge "output.size_mb" (PFloat omb);
           ClientIncr "conversion.success";
           ClientTiming "conversion.duration" (d * 1000)%float]
  | Raised _ =>
      last (emitted_of (run_trace r)) = Some (ClientIncr "conversion.failure") /\
      (In (ClientIncr "conversion.success") (emitted_of (run_trace r)) ->
       failed_prints (run_trace r) <> [])
  end.
Proof.
  cbv zeta.
  destruct (plain_run _ _ self input output w statsd_plain) as (Hr & Hm & He).
  rewrite replay_id in Hm. rewrite sent_stateless in He.
  split; [exact Hm|]. split; [exact He|].
  pose proof (convert_calls input output (Collector self) w) as Hc. cbv zeta in Hc.
  destruct (run_out _) as [b|e].
  - destruct Hc as (rt & gdf & wt & imb & omb & d & md & Hc).
    exists rt, gdf, wt, imb, omb, d. by rewrite He, Hc.
  - destruct (Hc Hr) as (pre & e0 & Hcalls & _ & _ & Hpre). rewrite He, Hcalls. split.
    + apply (last_flat_map _ _ (Failure (exn_str e0))); [|reflexivity].
      by rewrite app_comm_cons, last_snoc.
    + destruct Hpre as [Hpre|(Hfp & _)]; [|intros _; exact Hfp].
      intros Hin. exfalso. apply in_flat_map in Hin as (c & Hc' & Hin).
      destruct Hc' as [<-|Hc']; [contradiction|].
      apply in_app_or in Hc' as [Hc'|[<-|[]]].
      * rewrite Forall_forall in Hpre. apply list_elem_of_In, Hpre in Hc'.
        destruct c; try discriminate; cbn in Hin; intuition discriminate.
      * cbn in Hin. intuition discriminate.
Qed.

End PlainPipelines.

(* ===================================================================== *)
(** ** A collector that cannot fail does not change the conversion *)
(* ===================================================================== *)

Section Neutral.
Context {E : Env} {S : Type} {C : MetricsCollector S}.
Variable step : MetricCall -> S -> S.
Variable sends : MetricCall -> S -> list Output.
Hypothesis Hplain : plain step sends.

(** A statement of the pipeline run with a plain collector and run with the
    null collector: the same outcome, the same world, the same actions but
    for what the calls sent. *)
Definition same_as_null {A : Type} (x : M A) : Prop :=
  forall (s : S) w,
    run_out (x (Collector s) w) = run_out (x NullCollector_new w) /\
    run_world (x (Collector s) w) = run_world (x NullCollector_new w) /\
    quiet (run_trace (x (Collector s) w)) = run_trace (x NullCollector_new w) /\
    (exists s', run_metrics (x (Collector s) w) = Collector s') /\
    run_metrics (x NullCollector_new w) = NullCollector_new.

Lemma quiet_app (t t' : list Action) : quiet (t ++ t') = quiet t ++ quiet t'.
Proof. apply map_app. Qed.

Lemma same_ret {A : Type} (a : A) : same_as_null (mret a).
Proof. intros s w. repeat split. by exists s. Qed.

Lemma same_raise {A : Type} (e : exn) : same_as_null (@raise E A e).
Proof. intros s w. repeat split. by exists s. Qed.

Lemma same_lift {A : Type} (o : outcome A) : same_as_null (lift o).
Proof. intros s w. repeat split. by exists s. Qed.

Lemma same_call (c : MetricCall) : same_as_null (call c).
Proof.
  intros s w. unfold call.
  rewrite (call_method_plain step sends c s w Hplain).
  destruct c; repeat split; by eexists.
Qed.

Lemma same_now : same_as_null now.
Proof. intros s w. unfold now. destruct (time_time w). repeat split. by exists s. Qed.

Lemma same_getsize (p : string) : same_as_null (getsize p).
Proof. intros s w. repeat split. by exists s. Qed.

Lemma same_read_file (p : string) : same_as_null (read_file p).
Proof.
  intros s w. unfold read_file. destruct (gpd_read_file p w).
  repeat split. by exists s.
Qed.

Lemma same_to_file gdf (p : string) : same_as_null (to_file gdf p).
Proof.
  intros s w. unfold to_file. destruct (gdf_to_file gdf p w).
  repeat split. by exists s.
Qed.

Lemma same_print (line : string) : same_as_null (print line).
Proof.
  intros s w. unfold print. destruct (print_error line); repeat split; by exists s.
Qed.

Lemma same_bind {A B : Type} (x : M A) (f : A -> M B) :
  same_as_null x -> (forall a, same_as_null (f a)) -> same_as_null (x ≫= f).
Proof.
  intros Hx Hf s w. unfold mbind, M_bind.
  destruct (Hx s w) as (Ho & Hw & Ht & (s1 & Hm) & Hn).
  rewrite <- Ho. destruct (run_out (x (Collector s) w)) as [a|e].
  - rewrite Hm, Hn, <- Hw.
    destruct (Hf a s1 (run_world (x (Collector s) w))) as (Ho' & Hw' & Ht' & Hm' & Hn').
    cbn. rewrite quiet_app, Ht, Ht'. repeat split; assumption.
  - cbn. repeat split; try assumption. by exists s1.
Qed.

Lemma same_try_except {A : Type} (x : M A) (h : exn -> M A) :
  same_as_null x -> (forall e, same_as_null (h e)) -> same_as_null (try_except x h).
Proof.
  intros Hx Hh s w. unfold try_except.
  destruct (Hx s w) as (Ho & Hw & Ht & (s1 & Hm) & Hn).
  destruct (run_out (x (Collector s) w)) as [a|e] eqn:Hout; rewrite <- Ho.
  - repeat split; try assumption; [congruence|by exists s1].
  - rewrite Hm, Hn, <- Hw.
    destruct (Hh e s1 (run_world (x (Collector s) w))) as (Ho' & Hw' & Ht' & Hm' & Hn').
    cbn. rewrite quiet_app, Ht, Ht'. repeat split; assumption.
Qed.

Lemma same_steps input output t0 : same_as_null (conversion_steps input output t0).
Proof.
  unfold conversion_steps.
  apply same_bind; [destruct output; [apply same_ret|apply same_lift]|].
  intros p.
  repeat first
    [ apply same_ret
    | apply same_bind;
      [ first [ apply same_call | apply same_now | apply same_getsize
              | apply same_read_file | apply same_to_file
              | apply same_print | apply same_lift ]
      | intros ? ] ].
Qed.

Lemma same_report_failure (e : exn) : same_as_null (report_failure e).
Proof.
  unfold report_failure.
  apply same_bind; [apply same_call|intros _].
  apply same_bind; [apply same_print|intros _].
  apply same_raise.
Qed.

Lemma same_convert input output (s : S) w :
  run_out (convert_shapefile input output (Some (Collector s)) w)
    = run_out (convert_shapefile input output None w) /\
  run_world (convert_shapefile input output (Some (Collector s)) w)
    = run_world (convert_shapefile input output None w) /\
  quiet (run_trace (convert_shapefile input output (Some (Collector s)) w))
    = run_trace (convert_shapefile input output None w).
Proof.
  assert (H : same_as_null
                (call Start;;
                 total_start ← now;
                 try_except (conversion_steps input output total_start) report_failure)).
  { apply same_bind; [apply same_call|intros _].
    apply same_bind; [apply same_now|intros t0].
    apply same_try_except; [apply same_steps|apply same_report_failure]. }
  destruct (H s w) as (Ho & Hw & Ht & _). auto.
Qed.

End Neutral.

Section NeutralClaims.
Context {E : Env}.

(** X10.  A conversion with a collector that cannot fail and leaves the world alone
    is the conversion with no collector: it returns or raises the same, it
    leaves the same world, and it does the same actions, up to what the
    collector sent. *)
Theorem plain_collector_is_neutral
    {S : Type} {C : MetricsCollector S} step sends (s : S) input output w :
  plain step sends ->
  let r := convert_shapefile input output (Some (Collector s)) w in
  let r0 := convert_shapefile input output None w in
  run_out r = run_out r0 /\
  run_world r = run_world r0 /\
  quiet (run_trace r) = run_trace r0.
Proof. intros Hp. exact (same_convert step sends Hp input output s w). Qed.

End NeutralClaims.

(* ===================================================================== *)
(** ** The records of a JsonLogCollector *)
(* ===================================================================== *)

Section DictLookup.

Lemma dict_get_set (k k' : string) (v : pyval) (d : dict) :
  dict_get k (dict_set k' v d) = if String.eqb k' k then Some v else dict_get k d.
Proof.
  induction d as [|[k0 v0] d IH]; [reflexivity|].
  cbn [dict_set]. destruct (String.eqb k0 k') eqn:Hk.
  - apply String.eqb_eq in Hk as ->. cbn. by destruct (String.eqb k' k).
  - cbn. rewrite IH. destruct (String.eqb k0 k) eqn:Hk0; [|reflexivity].
    apply String.eqb_eq in Hk0 as ->. by rewrite String.eqb_sym, Hk.
Qed.

Lemma dict_get_app (k : string) (d d' : dict) :
  dict_get k (d ++ d') =
  match dict_get k d with Some v => Some v | None => dict_get k d' end.
Proof.
  induction d as [|[k0 v0] d IH]; [reflexivity|].
  cbn. by destruct (String.eqb k0 k).
Qed.

(** In [d.update(items)] the last item with a key is the one that counts. *)
Lemma dict_get_update (k : string) (items : list (string * pyval)) (d : dict) :
  dict_get k (dict_update d items) =
  match dict_get k (rev items) with Some v => Some v | None => dict_get k d end.
Proof.
  unfold dict_update. induction items as [|[k0 v0] items IH] using rev_ind.
  - reflexivity.
  - rewrite fold_left_app, rev_unit. cbn. rewrite dict_get_set, IH.
    by destruct (String.eqb k0 k).
Qed.

Lemma dict_get_missing (k : string) (d : dict) :
  ~ In k (map fst d) -> dict_get k d = None.
Proof.
  induction d as [|[k0 v0] d IH]; [reflexivity|].
  cbn. intros H. destruct (String.eqb k0 k) eqn:Hk.
  - apply String.eqb_eq in Hk. tauto.
  - apply IH. tauto.
Qed.

(** In a dictionary, where no key is repeated, the first item with a key is
    also the last. *)
Lemma dict_get_rev (k : string) (d : dict) :
  List.NoDup (map fst d) -> dict_get k (rev d) = dict_get k d.
Proof.
  induction d as [|[k0 v0] d IH]; [reflexivity|].
  cbn. intros H. apply List.NoDup_cons_iff in H as [Hk0 Hd].
  rewrite dict_get_app, (IH Hd). cbn.
  destruct (String.eqb k0 k) eqn:Hk.
  - apply String.eqb_eq in Hk as <-. by rewrite (dict_get_missing k0 d Hk0).
  - by destruct (dict_get k d).
Qed.

Lemma dict_set_keys (k : string) (v : pyval) (d : dict) :
  List.NoDup (map fst d) ->
  List.NoDup (map fst (dict_set k v d)) /\
  (forall k', In k' (map fst (dict_set k v d)) -> k' = k \/ In k' (map fst d)).
Proof.
  induction d as [|[k0 v0] d IH]; cbn.
  - intros _. split; [repeat constructor; tauto|]. intros k' [->|[]]. by left.
  - intros H. apply List.NoDup_cons_iff in H as [Hk0 Hd].
    destruct (String.eqb k0 k) eqn:Hk; cbn.
    + split; [by constructor|]. tauto.
    + destruct (IH Hd) as (Hn & Hin). split.
      * constructor; [|exact Hn]. intros H. apply Hin in H as [->|H]; [|tauto].
        by rewrite String.eqb_refl in Hk.
      * intros k' [->|H]; [tauto|]. apply Hin in H. tauto.
Qed.

Lemma dict_update_keys (items : list (string * pyval)) (d : dict) :
  List.NoDup (map fst d) -> List.NoDup (map fst (dict_update d items)).
Proof.
  unfold dict_update. revert d.
  induction items as [|[k v] items IH]; intros d H; [exact H|].
  cbn. apply IH. by apply dict_set_keys.
Qed.

(** What a dictionary display holds under a key. *)
Lemma dict_get_display (k : string) (items : list (string * pyval)) :
  dict_get k (dict_display items) = dict_get k (rev items).
Proof. unfold dict_display. rewrite dict_get_update. by destruct (dict_get k (rev items)). Qed.

(** [d.update({...})] with a display: the last item of the display with the
    key, or else what [d] held. *)
Lemma dict_get_update_display (k : string) (items : list (string * pyval)) (d : dict) :
  dict_get k (dict_update d (dict_display items)) =
  match dict_get k (rev items) with Some v => Some v | None => dict_get k d end.
Proof.
  rewrite dict_get_update, dict_get_rev, dict_get_display; [reflexivity|].
  apply dict_update_keys. constructor.
Qed.

End DictLookup.

Section JsonRecords.
Context {E : Env}.

(** What [failure] does to the record of a [JsonLogCollector]. *)
Lemma json_failure_fields (error : string) (self : JsonLogCollector) w :
  let r := invoke (Failure error) self w in
  let record := current_record (eff_self r) in
  output_file (eff_self r) = output_file self /\
  (eff_out r = Returned tt /\ eff_emits r = [record_output self record] \/
   is_raised (eff_out r) = true /\ eff_emits r = []) /\
  dict_get "event" record = Some (PStr "conversion_failure") /\
  dict_get "error" record = Some (PStr error) /\
  (forall k, k <> "event" -> k <> "error" ->
             dict_get k record = dict_get k (current_record self)).
Proof.
  cbv zeta. rewrite json_failure_run. cbv zeta.
  match goal with
  | |- context [_write_record ?s ?rec ?w0] =>
      destruct (write_record_cases s rec w0) as (Hself & Hcases)
  end.
  rewrite Hself. cbn [output_file current_record set_current_record].
  split; [reflexivity|]. split; [exact Hcases|].
  rewrite !dict_get_update_display. cbn. repeat split.
  intros k Hk1 Hk2.
  apply String.eqb_neq in Hk1, Hk2.
  rewrite String.eqb_sym in Hk1. rewrite String.eqb_sym in Hk2.
  by rewrite !dict_get_set, Hk1, Hk2.
Qed.

(** X11.  [failure] on a [JsonLogCollector], whatever record it holds: the record
    takes the tag [conversion_failure] and the error, and keeps every other
    field as it was; the record is then written, or nothing is if the
    destination cannot be written, and the collector keeps the changed
    record either way. *)
Theorem json_failure_keeps_the_fields (error : string) (self : JsonLogCollector) w :
  let r := invoke (Failure error) self w in
  let record := current_record (eff_self r) in
  output_file (eff_self r) = output_file self /\
  (eff_out r = Returned tt /\ eff_emits r = [record_output self record] \/
   is_raised (eff_out r) = true /\ eff_emits r = []) /\
  dict_get "event" record = Some (PStr "conversion_failure") /\
  dict_get "error" record = Some (PStr error) /\
  (forall k, k <> "event" -> k <> "error" ->
             dict_get k record = dict_get k (current_record self)).
Proof. exact (json_failure_fields error self w). Qed.

(** X12.  [success] on a [JsonLogCollector]: the metadata is merged last, so a key
    of the metadata holds the value of the metadata, even [event] or
    [duration_seconds]; unless the metadata has them, [event] is
    [conversion_success] and [duration_seconds] the duration; every other
    field of the record is kept. *)
Theorem json_success_metadata_wins (duration : float) (metadata : dict)
    (self : JsonLogCollector) w :
  List.NoDup (map fst metadata) ->
  let record := current_record (eff_self (invoke (Success duration metadata) self w)) in
  (forall k v, dict_get k metadata = Some v -> dict_get k record = Some v) /\
  (dict_get "event" metadata = None ->
   dict_get "event" record = Some (PStr "conversion_success")) /\
  (dict_get "duration_seconds" metadata = None ->
   dict_get "duration_seconds" record = Some (PFloat duration)) /\
  (forall k, k <> "event" -> k <> "duration_seconds" -> dict_get k metadata = None ->
             dict_get k record = dict_get k (current_record self)).
Proof.
  intros Hnd. cbv zeta. rewrite json_success_run. cbv zeta.
  match goal with
  | |- context [_write_record ?s ?rec ?w0] =>
      destruct (write_record_cases s rec w0) as (Hself & _)
  end.
  rewrite Hself. cbn [current_record set_current_record].
  assert (Hget : forall k,
            dict_get k (rev (("event", PStr "conversion_success")
                             :: ("duration_seconds", PFloat duration) :: metadata)) =
            match dict_get k metadata with
            | Some v => Some v
            | None => dict_get k [("duration_seconds", PFloat duration);
                                  ("event", PStr "conversion_success")]
            end).
  { intros k. cbn [rev]. rewrite <- app_assoc, dict_get_app, dict_get_rev by exact Hnd.
    reflexivity. }
  repeat split.
  - intros k v Hk. by rewrite dict_get_update_display, Hget, Hk.
  - intros Hk. by rewrite dict_get_update_display, Hget, Hk.
  - intros Hk. by rewrite dict_get_update_display, Hget, Hk.
  - intros k Hk1 Hk2 Hk. rewrite dict_get_update_display, Hget, Hk. cbn [dict_get].
    apply String.eqb_neq in Hk1, Hk2.
    rewrite String.eqb_sym in Hk1. rewrite String.eqb_sym in Hk2.
    by rewrite Hk1, Hk2.
Qed.

End JsonRecords.

Section JsonLines.
Context {E : Env}.

(** The record of a conversion that succeeded, field by field in the order
    in which the fields entered the dictionary: the two of [start], those of
    the intermediate calls, then what [success] adds. *)
Definition success_record (timestamp input_path output_path : string)
    (read_time write_time total_time : float) (feature_count : Z)
    (input_size_mb output_size_mb : float) (crs : string) : dict :=
  [("timestamp", PStr timestamp);
   ("event", PStr "conversion_success");
   ("read_duration_seconds", PFloat read_time);
   ("feature_count", PInt feature_count);
   ("write_duration_seconds", PFloat write_time);
   ("input_size_mb", PFloat input_size_mb);
   ("output_size_mb", PFloat output_size_mb);
   ("duration_seconds", PFloat total_time);
   ("input_file", PStr input_path);
   ("output_file", PStr output_path);
   ("crs", PStr crs)].

(** The format of the time stamp of a record. *)
Definition timestamp_format : string := "%Y-%m-%d %H:%M:%S".

(** What the steps in [try:] do with a [JsonLogCollector] that was [self0]
    and held the record of [start]. *)
Definition json_outline (timestamp input_path : string) (output_path : option string)
    (self0 : JsonLogCollector) (r : run bool) : Prop :=
  match run_out r with
  | Returned _ =>
      exists p rt wt d n imb omb crs,
        resolved_output_path input_path output_path = Returned p /\
        calls_of (run_trace r) =
          [ReadTime rt; FeatureCount n; WriteTime wt; FileSizes imb omb;
           Success d (conversion_metadata input_path p n imb omb crs)] /\
        emitted_of (run_trace r) =
          [record_output self0
             (success_record timestamp input_path p rt wt d n imb omb crs)]
  | Raised _ =>
      exists self, run_metrics r = Collector self /\
        output_file self = output_file self0 /\
        dict_get "timestamp" (current_record self) = Some (PStr timestamp)
  end.

Lemma json_outline_spec timestamp input output t0 (self : JsonLogCollector) w :
  current_record self =
    dict_display [("timestamp", PStr timestamp); ("event", PStr "conversion_start")] ->
  json_outline timestamp input output self
    (conversion_steps input output t0 (Collector self) w).
Proof.
  destruct self as [f rec]. cbn [current_record]. intros ->.
  unfold conversion_steps. destruct output; cbv zeta; repeat json_step.
  all: unfold json_outline;
    cbn -[megabytes String.append str_of_int].
  all: try solve [ eexists; repeat split; reflexivity ].
  all: repeat eexists; first [eassumption | reflexivity].
Qed.

(** X13.  A conversion that returns with a [JsonLogCollector] has sent one record,
    and this is the record: the time stamp taken by [start], the tag
    [conversion_success], then the read time, the feature count, the write
    time and the two sizes as the intermediate calls reported them, then
    the total time, the two paths and the reference system.  The fields of
    the metadata that the record already had keep their place. *)
Theorem json_line_of_a_success input output (self : JsonLogCollector) w b :
  let r := convert_shapefile input output (Some (Collector self)) w in
  run_out r = Returned b ->
  exists p rt wt d n imb omb crs,
    resolved_output_path input output = Returned p /\
    calls_of (run_trace r) =
      [Start; ReadTime rt; FeatureCount n; WriteTime wt; FileSizes imb omb;
       Success d (conversion_metadata input p n imb omb crs)] /\
    emitted_of (run_trace r) =
      [record_output self
         (success_record (time_strftime timestamp_format w).1 input p
                         rt wt d n imb omb crs)].
Proof.
  cbv zeta. rewrite convert_run. json_call. cbv zeta.
  match goal with
  | |- context [conversion_steps input output ?t0 (Collector ?s1) ?w1] =>
      pose proof (json_outline_spec (time_strftime timestamp_format w).1
                    input output t0 s1 w1 eq_refl) as Hs;
      set (rb := conversion_steps input output t0 (Collector s1) w1) in *
  end.
  unfold json_outline in Hs. rewrite run_out_after.
  destruct (run_out rb) as [b'|e] eqn:Hb.
  - intros _. destruct Hs as (p & rt & wt & d & n & imb & omb & crs & Hp & Hc & He).
    exists p, rt, wt, d, n, imb, omb, crs. rewrite run_trace_after.
    cbn [app calls_of emitted_of]. rewrite Hc, He. repeat split; try assumption.
  - rewrite run_out_after, report_failure_run.
    destruct (call_method _ _ _) as [[[]|e'] m' w' outs]; discriminate.
Qed.

(** X14.  A conversion that fails with a [JsonLogCollector], and whose
    collector could write, has sent one record or two, and the last one
    bears the time stamp taken by [start], the tag [conversion_failure] and
    the text of the error that ended the steps.  When no [print] raised,
    it is the only record, and that error is the one [convert_shapefile]
    raises. *)
Theorem json_line_of_a_failure input output (self : JsonLogCollector) w e :
  let r := convert_shapefile input output (Some (Collector self)) w in
  run_out r = Raised e ->
  raised_calls (run_trace r) = [] ->
  exists record e0,
    last (emitted_of (run_trace r)) = Some (record_output self record) /\
    dict_get "timestamp" record = Some (PStr (time_strftime timestamp_format w).1) /\
    dict_get "event" record = Some (PStr "conversion_failure") /\
    dict_get "error" record = Some (PStr (exn_str e0)) /\
    (length (emitted_of (run_trace r)) <= 2)%nat /\
    (failed_prints (run_trace r) = [] ->
       e0 = e /\ emitted_of (run_trace r) = [record_output self record]).
Proof.
  cbv zeta. rewrite convert_run. json_call. cbv zeta.
  match goal with
  | |- context [conversion_steps input output ?t0 (Collector ?s1) ?w1] =>
      pose proof (json_outline_spec (time_strftime timestamp_format w).1
                    input output t0 s1 w1 eq_refl) as Hs;
      pose proof (json_steps_spec input output t0 s1 w1) as (_ & _ & Hem);
      set (rb := conversion_steps input output t0 (Collector s1) w1) in *
  end.
  unfold json_outline in Hs. rewrite run_out_after, run_trace_after.
  destruct (run_out rb) as [b'|e0] eqn:Hb.
  - intros Hr. rewrite Hb in Hr. discriminate Hr.
  - destruct Hs as (s' & Hm & Hof & Hts). cbn in Hof.
    rewrite run_out_after, run_trace_after, report_failure_run, Hm.
    cbn [call_method obj_type obj_class obj_self].
    pose proof (json_failure_fields (exn_str e0) s' (run_world rb)) as Hf.
    cbv zeta in Hf.
    destruct (invoke (Failure (exn_str e0)) s' (run_world rb)) as [o s2 w2 outs].
    cbn [eff_out eff_self eff_world eff_emits] in Hf.
    destruct Hf as (_ & Hcases & Hev & Herr & Hkeep).
    destruct Hcases as [(-> & ->)|(Ho & ->)].
    + cbn [eff_out eff_self eff_world eff_emits run_out run_trace].
      unfold printed, error_after_print.
      destruct (print_error _) as [ep|] eqn:Hpe; intros [= He] _;
        exists (current_record s2), e0;
        cbn [app emitted_of failed_prints];
        rewrite emitted_of_app, failed_prints_app;
        cbn [app emitted_of failed_prints]; rewrite ?app_nil_r;
        rewrite (record_output_same s' self _ Hof);
        (split; [apply last_snoc|]);
        (split; [rewrite Hkeep by discriminate; exact Hts|]);
        (split; [exact Hev|]); (split; [exact Herr|]); split.
      * rewrite length_app. cbn [length].
        destruct Hem as [->|(rec & -> & _)]; cbn; lia.
      * intros Hnp. by apply app_eq_nil in Hnp as [_ [=]].
      * rewrite length_app. cbn [length].
        destruct Hem as [->|(rec & -> & _)]; cbn; lia.
      * intros Hnp.
        destruct Hem as [Hem|(rec & _ & Hfp)]; [|by destruct (Hfp Hnp)].
        rewrite Hem. split; [exact He|reflexivity].
    + destruct o as [[]|e']; [discriminate Ho|].
      cbn [eff_out eff_self eff_world eff_emits run_out run_trace].
      intros _ Hr. exfalso.
      cbn [app raised_calls] in Hr. rewrite raised_calls_app in Hr.
      cbn in Hr. by apply app_eq_nil in Hr as [_ [=]].
Qed.

End JsonLines.

(* ===================================================================== *)
(** ** The command line: [main] and the collectors it creates *)
(* ===================================================================== *)

(** [args.metrics], one of the four [choices] of the parser. *)
Inductive MetricsChoice : Type :=
| choice_none | choice_prometheus | choice_json | choice_statsd.

(** The namespace [parser.parse_args()] returns.  The parsing itself is
    [argparse]'s and is not modelled: [main] below starts from the parsed
    arguments (line 308). *)
Record Namespace : Type := {
  args_input : string;
  args_output : option string;
  args_metrics : MetricsChoice;
  args_metrics_port : Z;
  args_metrics_file : option string;
  args_statsd_host : string;
  args_statsd_port : Z
}.

(** What the two optional backends need from outside the program: the
    imports, which raise when the module is missing; the creation of a
    metric of [prometheus_client], which registers its name;
    [start_http_server]; the creation of a [StatsClient]; and whether an
    exception is an instance of [ImportError], which is what the [except]
    clauses ask.  The error of a [print], a [UnicodeEncodeError], is not an
    instance of [ImportError]. *)
Class Backends {E : Env} : Type := {
  isinstance_ImportError : exn -> bool;
  import_prometheus_client : World -> outcome unit * World;
  new_metric : string -> World -> outcome unit * World;
  start_http_server : Z -> World -> outcome unit * World;
  import_statsd : World -> outcome unit * World;
  StatsClient_new : string -> Z -> string -> World -> outcome unit * World;
  encode_error_is_no_ImportError :
    forall text e, stdout_encode_error text = Some e -> isinstance_ImportError e = false
}.

Section AsciiFacts.
Context {E : Env}.

Lemma is_ascii_app (a b : string) : is_ascii (a +:+ b) = is_ascii a && is_ascii b.
Proof.
  induction a as [|c a IH]; [reflexivity|].
  change (is_ascii_char c && is_ascii (a +:+ b) =
          is_ascii_char c && is_ascii a && is_ascii b).
  rewrite IH. by destruct (is_ascii_char c).
Qed.

Lemma is_ascii_uint (d : Decimal.uint) :
  is_ascii (NilEmpty.string_of_uint d) = true.
Proof. induction d; cbn; auto. Qed.

Lemma is_ascii_str_of_int (n : Z) : is_ascii (str_of_int n) = true.
Proof.
  unfold str_of_int, NilZero.string_of_int, NilZero.string_of_uint.
  destruct (Z.to_int n) as [d|d]; destruct d; cbn; auto using is_ascii_uint.
Qed.

(** A text of ASCII characters is printed. *)
Lemma print_error_ascii (text : string) :
  is_ascii text = true -> print_error text = None.
Proof. unfold print_error. by intros ->. Qed.

End AsciiFacts.

Section Main.
Context {E : Env} {B : Backends}.

(** A run outside of a conversion: no collector is in flight. *)
Record done (A : Type) : Type := Done {
  done_out : outcome A;
  done_world : World;
  done_trace : list Action
}.
Arguments Done {A} _ _ _.
Arguments done_out {A} _.
Arguments done_world {A} _.
Arguments done_trace {A} _.

Definition Io (A : Type) : Type := World -> done A.

#[export] Instance Io_ret : MRet Io := fun A a w => Done (Returned a) w [].

Definition io_after {A : Type} (t : list Action) (r : done A) : done A :=
  Done (done_out r) (done_world r) (t ++ done_trace r).

#[export] Instance Io_bind : MBind Io := fun A B f x w =>
  let r := x w in
  match done_out r with
  | Returned a => io_after (done_trace r) (f a (done_world r))
  | Raised e => Done (Raised e) (done_world r) (done_trace r)
  end.

Definition io_raise {A : Type} (e : exn) : Io A := fun w => Done (Raised e) w [].

Definition io_lift {A : Type} (f : World -> outcome A * World) : Io A := fun w =>
  Done (f w).1 (f w).2 [].

Definition io_print (line : string) : Io unit := fun w =>
  match print_error line with
  | None => Done (Returned tt) w [Console line]
  | Some e => Done (Raised e) w [ConsoleRaised line e]
  end.

(** [try: body / except ImportError: handler]: an exception of another
    class passes through. *)
Definition except_ImportError {A : Type} (body : Io A) (handler : exn -> Io A) : Io A :=
  fun w =>
    let r := body w in
    match done_out r with
    | Returned _ => r
    | Raised e =>
        if isinstance_ImportError e
        then io_after (done_trace r) (handler e (done_world r))
        else r
    end.

(** [convert_shapefile(input, output, metrics)] as a statement of [main]. *)
Definition convert (input_path : string) (output_path : option string)
    (metrics : collector) : Io bool := fun w =>
  let r := convert_shapefile input_path output_path (Some metrics) w in
  Done (run_out r) (run_world r) (run_trace r).

(** The names of the seven metrics, in the order in which
    [PrometheusCollector.__init__] creates them (lines 45 to 74). *)
Definition prometheus_metric_names : list string :=
  ["shapefile_conversions_total";
   "shapefile_conversion_duration_seconds";
   "shapefile_read_duration_seconds";
   "shapefile_write_duration_seconds";
   "shapefile_feature_count";
   "shapefile_input_size_mb";
   "shapefile_output_size_mb"].

Fixpoint new_metrics (names : list string) : Io unit :=
  match names with
  | [] => mret tt
  | name :: names => io_lift (new_metric name);; new_metrics names
  end.

(** [PrometheusCollector(port)] (lines 42 to 77). *)
Definition PrometheusCollector_new (port : Z) : Io PrometheusCollector :=
  io_lift import_prometheus_client;;
  new_metrics prometheus_metric_names;;
  io_lift (start_http_server port);;
  io_print ("Prometheus metrics available at http://localhost:"
            +:+ str_of_int port +:+ "/metrics");;
  mret prometheus_created.

(** The body of [try:] in [StatsDCollector.__init__] (lines 164 to 166). *)
Definition StatsDCollector_try (host : string) (port : Z) (prefix : string)
    : Io StatsDCollector :=
  io_lift import_statsd;;
  io_lift (StatsClient_new host port prefix);;
  io_print ("StatsD metrics sending to " +:+ host +:+ ":" +:+ str_of_int port);;
  mret (StatsDCollector_init host port prefix).

(** [StatsDCollector(host, port, prefix)] (lines 162 to 169). *)
Definition StatsDCollector_new (host : string) (port : Z) (prefix : string)
    : Io StatsDCollector :=
  except_ImportError
    (StatsDCollector_try host port prefix)
    (fun e =>
       io_print "statsd module not installed. Install with: pip install statsd";;
       io_raise e).

(** The line [main] prints about a [JsonLogCollector] (line 317). *)
Definition json_announcement (metrics_file : option string) : string :=
  "JSON metrics will be " +:+
  match metrics_file with
  | None | Some "" => "printed to console"
  | Some f => "written to " +:+ f
  end.

(** Lines 308 to 324: the collector of the chosen backend, or [None] where
    [main] returns without one. *)
Definition create_collector (args : Namespace) : Io (option collector) :=
  match args_metrics args with
  | choice_prometheus =>
      except_ImportError
        (metrics ← PrometheusCollector_new (args_metrics_port args);
         mret (Some (Collector metrics)))
        (fun _ =>
           io_print ("prometheus-client not installed. "
                     +:+ "Install with: pip install prometheus-client");;
           mret None)
  | choice_json =>
      let metrics := JsonLogCollector_init (args_metrics_file args) in
      io_print (json_announcement (args_metrics_file args));;
      mret (Some (Collector metrics))
  | choice_statsd =>
      except_ImportError
        (metrics ← StatsDCollector_new (args_statsd_host args) (args_statsd_port args)
                                       "shapefile";
         mret (Some (Collector metrics)))
        (fun _ => mret None)
  | choice_none => mret (Some NullCollector_new)
  end.

(** [main()] from line 308 on. *)
Definition main (args : Namespace) : Io unit :=
  metrics ← create_collector args;
  match metrics with
  | None => mret tt
  | Some metrics =>
      convert (args_input args) (args_output args) metrics;;
      mret tt
  end.

(** The actions of a conversion: everything but the lines [main] and the
    constructors print. *)
Definition is_console (a : Action) : bool :=
  match a with Console _ | ConsoleRaised _ _ => true | _ => false end.

Definition conversion_actions (t : list Action) : list Action :=
  List.filter (fun a => negb (is_console a)) t.

End Main.

Arguments Done {E A} _ _ _.
Arguments done_out {E A} _.
Arguments done_world {E A} _.
Arguments done_trace {E A} _.

Section MainFacts.
Context {E : Env} {B : Backends}.

Lemma io_bind_run {A A' : Type} (x : Io A) (f : A -> Io A') w :
  (x ≫= f) w =
  match done_out (x w) with
  | Returned a => io_after (done_trace (x w)) (f a (done_world (x w)))
  | Raised e => Done (Raised e) (done_world (x w)) (done_trace (x w))
  end.
Proof. reflexivity. Qed.

Lemma io_bind_print {A : Type} (line : string) (f : unit -> Io A) w :
  (io_print line ≫= f) w =
  match print_error line with
  | None => io_after [Console line] (f tt w)
  | Some e => Done (Raised e) w [ConsoleRaised line e]
  end.
Proof. unfold mbind, Io_bind, io_print. by destruct (print_error line). Qed.

(** The error of a [print] is not caught by [except ImportError]. *)
Lemma print_error_is_no_ImportError (line : string) (e : exn) :
  print_error line = Some e -> isinstance_ImportError e = false.
Proof.
  unfold print_error. destruct (is_ascii line); [discriminate|].
  apply encode_error_is_no_ImportError.
Qed.

(** The lines [main] and the constructors print whatever the arguments:
    they are ASCII. *)
Definition prometheus_announcement (port : Z) : string :=
  "Prometheus metrics available at http://localhost:" +:+ str_of_int port +:+ "/metrics".

Definition statsd_announcement (host : string) (port : Z) : string :=
  "StatsD metrics sending to " +:+ host +:+ ":" +:+ str_of_int port.

Definition statsd_hint : string :=
  "statsd module not installed. Install with: pip install statsd".

Lemma prometheus_announcement_printed (port : Z) :
  print_error (prometheus_announcement port) = None.
Proof.
  apply print_error_ascii. unfold prometheus_announcement.
  by rewrite !is_ascii_app, is_ascii_str_of_int.
Qed.

(** Creating the metrics prints nothing. *)
Lemma new_metrics_silent (names : list string) w :
  done_trace (new_metrics names w) = [].
Proof.
  revert w. induction names as [|name names IH]; intros w; [reflexivity|].
  cbn [new_metrics]. rewrite io_bind_run. cbn [io_lift done_out done_world done_trace].
  destruct (new_metric name w).1; [|reflexivity].
  cbn. apply IH.
Qed.

(** [PrometheusCollector(port)] returns the metrics as created and has
    announced the server, or raises and has printed nothing. *)
Lemma prometheus_new_cases (port : Z) w :
  let r := PrometheusCollector_new port w in
  match done_out r with
  | Returned self =>
      self = prometheus_created /\
      done_trace r = [Console ("Prometheus metrics available at http://localhost:"
                               +:+ str_of_int port +:+ "/metrics")]
  | Raised _ => done_trace r = []
  end.
Proof.
  cbv zeta. unfold PrometheusCollector_new.
  rewrite io_bind_run. cbn [io_lift done_out done_world done_trace].
  destruct (import_prometheus_client w) as [[[]|e] w1]; [|reflexivity].
  cbn [fst snd io_after done_out done_world done_trace app].
  rewrite io_bind_run.
  pose proof (new_metrics_silent prometheus_metric_names w1) as Hm.
  destruct (new_metrics prometheus_metric_names w1) as [[[]|e] w2 t2];
    cbn [done_out done_world done_trace] in Hm |- *; subst t2; [|reflexivity].
  cbn [io_after done_out done_world done_trace app].
  rewrite io_bind_run. cbn [io_lift done_out done_world done_trace].
  destruct (start_http_server port w2) as [[[]|e] w3]; [|reflexivity].
  cbn [fst snd io_after done_out done_world done_trace app].
  rewrite io_bind_print.
  pose proof (prometheus_announcement_printed port) as Hp.
  unfold prometheus_announcement in Hp. rewrite Hp.
  cbn. split; reflexivity.
Qed.

(** What [except ImportError:] of [StatsDCollector.__init__] does with an
    error [e] raised in the world [w] after the actions [t]. *)
Definition statsd_caught (e : exn) (w : World) (t : list Action)
    : done StatsDCollector :=
  if isinstance_ImportError e
  then Done (Raised e) w (t ++ [Console statsd_hint])
  else Done (Raised e) w t.

(** The body of [try:] in [StatsDCollector.__init__], case by case. *)
Lemma statsd_try_cases (host : string) (port : Z) (prefix : string) w :
  let imported := import_statsd w in
  let connected := StatsClient_new host port prefix imported.2 in
  let line := statsd_announcement host port in
  StatsDCollector_try host port prefix w =
  match imported.1 with
  | Raised e => Done (Raised e) imported.2 []
  | Returned _ =>
      match connected.1 with
      | Raised e => Done (Raised e) connected.2 []
      | Returned _ =>
          match print_error line with
          | Some e => Done (Raised e) connected.2 [ConsoleRaised line e]
          | None =>
              Done (Returned (StatsDCollector_init host port prefix)) connected.2
                   [Console line]
          end
      end
  end.
Proof.
  cbv zeta. unfold StatsDCollector_try, statsd_announcement.
  rewrite io_bind_run. cbn [io_lift done_out done_world done_trace].
  destruct (import_statsd w) as [[[]|e] w1]; cbn [fst snd]; [|reflexivity].
  cbn [io_after done_out done_world done_trace app].
  rewrite io_bind_run. cbn [io_lift done_out done_world done_trace].
  destruct (StatsClient_new host port prefix w1) as [[[]|e] w2]; cbn [fst snd];
    [|reflexivity].
  cbn [io_after done_out done_world done_trace app].
  rewrite io_bind_print. destruct (print_error _); reflexivity.
Qed.

(** [StatsDCollector.__init__], case by case. *)
Lemma statsd_new_cases (host : string) (port : Z) (prefix : string) w :
  let r := StatsDCollector_new host port prefix w in
  let imported := import_statsd w in
  let connected := StatsClient_new host port prefix imported.2 in
  let line := statsd_announcement host port in
  match imported.1 with
  | Raised e => r = statsd_caught e imported.2 []
  | Returned _ =>
      match connected.1 with
      | Raised e => r = statsd_caught e connected.2 []
      | Returned _ =>
          match print_error line with
          | Some e => r = Done (Raised e) connected.2 [ConsoleRaised line e]
          | None =>
              r = Done (Returned (StatsDCollector_init host port prefix)) connected.2
                       [Console line]
          end
      end
  end.
Proof.
  cbv zeta. unfold StatsDCollector_new, except_ImportError, statsd_caught, statsd_hint.
  assert (Hh : print_error
                 "statsd module not installed. Install with: pip install statsd" = None)
    by (by apply print_error_ascii).
  rewrite (statsd_try_cases host port prefix w). cbv zeta.
  destruct (import_statsd w).1 as [[]|e].
  - destruct (StatsClient_new _ _ _ _).1 as [[]|e].
    + destruct (print_error (statsd_announcement host port)) as [e|] eqn:Hpe;
        cbn [done_out].
      * by rewrite (print_error_is_no_ImportError _ _ Hpe).
      * reflexivity.
    + cbn [done_out done_world done_trace].
      destruct (isinstance_ImportError e); [|reflexivity].
      rewrite io_bind_print, Hh. reflexivity.
  - cbn [done_out done_world done_trace].
    destruct (isinstance_ImportError e); [|reflexivity].
    rewrite io_bind_print, Hh. reflexivity.
Qed.

(** A conversion that returns has run the whole pipeline. *)
Lemma convert_returned input output m w b :
  let r := convert_shapefile input output (Some m) w in
  run_out r = Returned b ->
  exists p, resolved_output_path input output = Returned p /\
    written_paths (run_trace r) = [p] /\
    success_count (run_trace r) = 1%nat /\
    failure_count (run_trace r) = 0%nat.
Proof.
  cbv zeta. rewrite convert_run.
  destruct (call_method Start m w) as [[[]|e] m1 w1 outs]; [|discriminate].
  cbv zeta. rewrite run_out_after, run_trace_after.
  pose proof (steps_outline_spec input output (time_time w1).1 m1 (time_time w1).2) as Hs.
  unfold steps_outline in Hs.
  destruct (run_out (conversion_steps _ _ _ _ _)) as [b'|e] eqn:Hb.
  - destruct Hs as (p & t1 & t2 & t3 & t4 & t5 & n_in & n_out & gdf & types
                    & o1 & o2 & o3 & o4 & o5 & wa & wb & wc & wd
                    & Hp & _ & _ & _ & _ & Ht).
    intros _. cbv iota. rewrite Ht. exists p. repeat split. exact Hp.
  - rewrite run_out_after, report_failure_run.
    destruct (call_method _ _ _) as [[[]|e'] ? ? ?]; discriminate.
Qed.

(** A conversion begins with [start]: its trace is never empty of actions. *)
Lemma convert_acts input output m w :
  conversion_actions (run_trace (convert_shapefile input output (Some m) w)) <> [].
Proof.
  rewrite convert_run.
  destruct (call_method Start m w) as [[[]|e] m1 w1 outs]; [|discriminate].
  cbv zeta. rewrite run_trace_after. discriminate.
Qed.

(** [main] after the collector was created. *)
Lemma main_run (args : Namespace) w :
  main args w =
  let c := create_collector args w in
  match done_out c with
  | Returned None => Done (Returned tt) (done_world c) (done_trace c ++ [])
  | Returned (Some m) =>
      let r := convert_shapefile (args_input args) (args_output args) (Some m)
                                 (done_world c) in
      Done (match run_out r with Returned _ => Returned tt | Raised e => Raised e end)
           (run_world r)
           (done_trace c ++ match run_out r with
                            | Returned _ => run_trace r ++ []
                            | Raised _ => run_trace r
                            end)
  | Raised e => Done (Raised e) (done_world c) (done_trace c)
  end.
Proof.
  unfold main. rewrite io_bind_run. cbv zeta.
  destruct (done_out (create_collector args w)) as [[m|]|e]; try reflexivity.
  rewrite io_bind_run. unfold convert. cbn [done_out done_world done_trace].
  destruct (run_out (convert_shapefile _ _ _ _)); reflexivity.
Qed.

(** The hint [main] or the constructor prints when the module of the
    backend is missing. *)
Definition install_hint (choice : MetricsChoice) : string :=
  match choice with
  | choice_prometheus =>
      "prometheus-client not installed. Install with: pip install prometheus-client"
  | _ => "statsd module not installed. Install with: pip install statsd"
  end.

(** How the creation of the collector can end. *)
Lemma create_collector_cases (args : Namespace) w :
  let c := create_collector args w in
  match done_out c with
  | Returned (Some m) =>
      match args_metrics args with
      | choice_none => m = NullCollector_new /\ done_trace c = []
      | choice_json =>
          m = Collector (JsonLogCollector_init (args_metrics_file args)) /\
          done_trace c = [Console (json_announcement (args_metrics_file args))] /\
          done_world c = w
      | choice_prometheus =>
          m = Collector prometheus_created /\ exists line, done_trace c = [Console line]
      | choice_statsd =>
          m = Collector (StatsDCollector_init (args_statsd_host args)
                           (args_statsd_port args) "shapefile") /\
          exists line, done_trace c = [Console line]
      end
  | Returned None =>
      (args_metrics args = choice_prometheus \/ args_metrics args = choice_statsd) /\
      done_trace c = [Console (install_hint (args_metrics args))]
  | Raised e =>
      isinstance_ImportError e = false /\
      match args_metrics args with
      | choice_none => False
      | choice_json =>
          print_error (json_announcement (args_metrics_file args)) = Some e /\
          c = Done (Raised e) w
                [ConsoleRaised (json_announcement (args_metrics_file args)) e]
      | choice_prometheus => done_trace c = []
      | choice_statsd =>
          done_trace c = [] \/
          done_trace c =
            [ConsoleRaised (statsd_announcement (args_statsd_host args)
                              (args_statsd_port args)) e]
      end
  end.
Proof.
  cbv zeta. unfold create_collector. destruct (args_metrics args).
  - cbn. split; reflexivity.
  - unfold except_ImportError. rewrite io_bind_run.
    pose proof (prometheus_new_cases (args_metrics_port args) w) as Hp.
    cbv zeta in Hp.
    destruct (PrometheusCollector_new (args_metrics_port args) w) as [[self|e] w1 t1].
    + cbn [done_out done_world done_trace] in Hp |- *. destruct Hp as (-> & ->).
      cbn. split; [reflexivity|]. eexists; reflexivity.
    + cbn [done_out done_world done_trace] in Hp |- *. subst t1.
      destruct (isinstance_ImportError e) eqn:Hi.
      * rewrite io_bind_print.
        rewrite print_error_ascii by reflexivity.
        cbn. split; [by left|reflexivity].
      * cbn. rewrite Hi. split; reflexivity.
  - rewrite io_bind_print.
    destruct (print_error _) as [e|] eqn:Hpe; cbn.
    + split; [exact (print_error_is_no_ImportError _ _ Hpe)|]. split; reflexivity.
    + repeat split; reflexivity.
  - unfold except_ImportError. rewrite io_bind_run.
    pose proof (statsd_new_cases (args_statsd_host args) (args_statsd_port args)
                  "shapefile" w) as Hs.
    cbv zeta in Hs. unfold statsd_caught in Hs.
    destruct (import_statsd w) as [[[]|e] w1]; cbn [fst snd] in Hs.
    + destruct (StatsClient_new _ _ _ w1) as [[[]|e] w2]; cbn [fst snd] in Hs.
      * destruct (print_error _) as [e|] eqn:Hpe; rewrite Hs; cbn.
        -- rewrite (print_error_is_no_ImportError _ _ Hpe). cbn.
           rewrite (print_error_is_no_ImportError _ _ Hpe). split; [reflexivity|].
           by right.
        -- split; [reflexivity|]. eexists; reflexivity.
      * destruct (isinstance_ImportError e) eqn:Hi; rewrite Hs; cbn; rewrite Hi; cbn.
        -- split; [by right|reflexivity].
        -- rewrite Hi. split; [reflexivity|]. by left.
    + destruct (isinstance_ImportError e) eqn:Hi; rewrite Hs; cbn; rewrite Hi; cbn.
      * split; [by right|reflexivity].
      * rewrite Hi. split; [reflexivity|]. by left.
Qed.

Lemma conversion_actions_app (t t' : list Action) :
  conversion_actions (t ++ t') = conversion_actions t ++ conversion_actions t'.
Proof. apply List.filter_app. Qed.

End MainFacts.

Section MainClaims.
Context {E : Env} {B : Backends}.

(** X15.  [StatsDCollector(host, port, prefix)] returns a collector whose
    client has the host, the port and the prefix given, after announcing
    it; or it raises the very error of the import, of the creation of the
    client or of the [print] of the announcement.  The installation hint is
    printed exactly when the error is an [ImportError], also when it comes
    from the creation of the client and not from the import; nothing else
    is printed then. *)
Theorem statsd_constructor_reraises (host : string) (port : Z) (prefix : string) w :
  let r := StatsDCollector_new host port prefix w in
  let imported := import_statsd w in
  let connected := StatsClient_new host port prefix imported.2 in
  let line := "StatsD metrics sending to " +:+ host +:+ ":" +:+ str_of_int port in
  match done_out r with
  | Returned self =>
      self = StatsDCollector_init host port prefix /\
      is_returned imported.1 = true /\ is_returned connected.1 = true /\
      print_error line = None /\
      done_trace r = [Console line]
  | Raised e =>
      (imported.1 = Raised e \/
       is_returned imported.1 = true /\ connected.1 = Raised e \/
       is_returned imported.1 = true /\ is_returned connected.1 = true /\
       print_error line = Some e) /\
      console_of (done_trace r) =
        if isinstance_ImportError e
        then ["statsd module not installed. Install with: pip install statsd"]
        else []
  end.
Proof.
  cbv zeta. pose proof (statsd_new_cases host port prefix w) as H. cbv zeta in H.
  unfold statsd_caught, statsd_announcement, statsd_hint in H.
  destruct (import_statsd w).1 as [[]|e].
  - destruct (StatsClient_new _ _ _ _).1 as [[]|e].
    + destruct (print_error _) as [e|] eqn:Hpe; rewrite H; cbn.
      * rewrite (print_error_is_no_ImportError _ _ Hpe). split; [|reflexivity].
        right. right. repeat split.
      * repeat split.
    + destruct (isinstance_ImportError e) eqn:Hi; rewrite H; cbn; rewrite Hi;
        (split; [right; left; split; reflexivity|reflexivity]).
  - destruct (isinstance_ImportError e) eqn:Hi; rewrite H; cbn; rewrite Hi;
      (split; [left; reflexivity|reflexivity]).
Qed.

(** X16.  When the module of the chosen backend is missing, [main] prints the
    installation hint and returns as if nothing were wrong: nothing is
    converted and no error reaches the caller. *)
Theorem main_without_the_module (args : Namespace) w e :
  match args_metrics args with
  | choice_prometheus => (import_prometheus_client w).1 = Raised e
  | choice_statsd => (import_statsd w).1 = Raised e
  | _ => False
  end ->
  isinstance_ImportError e = true ->
  done_out (main args w) = Returned tt /\
  done_trace (main args w) = [Console (install_hint (args_metrics args))].
Proof.
  intros H Hi. rewrite main_run. cbv zeta.
  assert (Hc : exists w',
            create_collector args w =
            Done (Returned None) w' [Console (install_hint (args_metrics args))]).
  { unfold create_collector, install_hint.
    destruct (args_metrics args); try contradiction.
    - assert (Hn : PrometheusCollector_new (args_metrics_port args) w =
                   Done (Raised e) (import_prometheus_client w).2 []).
      { unfold PrometheusCollector_new. rewrite io_bind_run.
        cbn [io_lift done_out done_world done_trace]. by rewrite H. }
      unfold except_ImportError.
      rewrite (io_bind_run (PrometheusCollector_new _)), Hn.
      cbn [done_out done_world done_trace]. rewrite Hi.
      rewrite io_bind_print, print_error_ascii by reflexivity.
      eexists. reflexivity.
    - pose proof (statsd_new_cases (args_statsd_host args) (args_statsd_port args)
                    "shapefile" w) as Hs.
      cbv zeta in Hs. unfold statsd_caught, statsd_hint in Hs. rewrite H, Hi in Hs.
      unfold except_ImportError.
      rewrite (io_bind_run (StatsDCollector_new _ _ _)), Hs.
      cbn [done_out done_world done_trace]. rewrite Hi.
      eexists. reflexivity. }
  destruct Hc as (w' & ->). cbn. split; reflexivity.
Qed.

(** X17.  When [main] returns, either the conversion ran to its end, the output
    was written once, at the resolved path, and [success] was reported
    once, or the module of the backend was missing and [main] did nothing
    but print the installation hint. *)
Theorem main_returns_converted_or_hinted (args : Namespace) w :
  let r := main args w in
  is_returned (done_out r) = true ->
  (exists p,
     resolved_output_path (args_input args) (args_output args) = Returned p /\
     written_paths (done_trace r) = [p] /\
     success_count (done_trace r) = 1%nat /\
     failure_count (done_trace r) = 0%nat) \/
  ((args_metrics args = choice_prometheus \/ args_metrics args = choice_statsd) /\
   done_trace r = [Console (install_hint (args_metrics args))]).
Proof.
  cbv zeta. rewrite main_run. cbv zeta.
  pose proof (create_collector_cases args w) as Hc. cbv zeta in Hc.
  destruct (done_out (create_collector args w)) as [[m|]|e]; cbn [done_out done_trace].
  - destruct (run_out (convert_shapefile _ _ _ _)) as [b|e] eqn:Hb; [|discriminate].
    intros _. left.
    destruct (convert_returned _ _ _ _ _ Hb) as (p & Hp & Hw & Hs & Hf).
    exists p. split; [exact Hp|].
    unfold success_count, failure_count in *.
    rewrite !written_paths_app, !count_calls_app, Hw, Hs, Hf.
    assert (Ht : written_paths (done_trace (create_collector args w)) = [] /\
                 calls_of (done_trace (create_collector args w)) = []).
    { destruct (args_metrics args).
      - destruct Hc as (_ & ->). by split.
      - destruct Hc as (_ & line & ->). by split.
      - destruct Hc as (_ & -> & _). by split.
      - destruct Hc as (_ & line & ->). by split. }
    destruct Ht as (-> & Hcalls). unfold count_calls. rewrite Hcalls. by cbn.
  - intros _. right. destruct Hc as (Hm & ->). by split.
  - discriminate.
Qed.

(** X18.  When [main] raises and nothing of a conversion was done, the
    creation of the collector failed, with an error that is not an
    [ImportError], and [main] has printed nothing: with [--metrics
    prometheus] a metric could not be registered or the server not be
    started; with [--metrics statsd] the client could not be created or its
    announcement not be printed; with [--metrics json] the announcement
    could not be printed. *)
Theorem main_raises_before_converting (args : Namespace) w e :
  let r := main args w in
  done_out r = Raised e ->
  conversion_actions (done_trace r) = [] ->
  args_metrics args <> choice_none /\
  isinstance_ImportError e = false /\
  console_of (done_trace r) = [] /\
  done_out (create_collector args w) = Raised e /\
  (failed_prints (done_trace r) = [] ->
     done_trace r = [] /\ args_metrics args <> choice_json) /\
  (args_metrics args = choice_prometheus -> done_trace r = []) /\
  (args_metrics args = choice_json ->
     print_error (json_announcement (args_metrics_file args)) = Some e).
Proof.
  cbv zeta. rewrite main_run. cbv zeta.
  pose proof (create_collector_cases args w) as Hc. cbv zeta in Hc.
  destruct (done_out (create_collector args w)) as [[m|]|e0] eqn:Ho;
    cbn [done_out done_trace].
  - intros _ Hn. exfalso. rewrite conversion_actions_app in Hn.
    apply app_eq_nil in Hn as [_ Hn].
    apply (convert_acts (args_input args) (args_output args) m
                        (done_world (create_collector args w))).
    destruct (run_out (convert_shapefile _ _ _ _)); [|exact Hn].
    rewrite conversion_actions_app in Hn. by apply app_eq_nil in Hn as [Hn _].
  - discriminate.
  - intros [= <-] _. destruct Hc as (Hi & Hc).
    destruct (args_metrics args); [contradiction| | |].
    + rewrite Hc. cbn.
      repeat first [split | intro]; first [discriminate | assumption | reflexivity].
    + destruct Hc as (Hpe & Hc). rewrite Hc. cbn.
      repeat first [split | intro]; first [discriminate | assumption | reflexivity].
    + destruct Hc as [->| ->]; cbn;
        repeat first [split | intro]; first [discriminate | assumption | reflexivity].
Qed.

(** X19.  With [--metrics json], the destination [main] announces is the one
    [_write_record] will choose: the file named, or the console when no
    file or an empty name was given.  When the announcement is printed,
    [main] then converts with a new [JsonLogCollector]; when its [print]
    raises, which a file name outside ASCII can cause, [main] raises that
    error and converts nothing. *)
Theorem main_json_announcement (args : Namespace) w :
  args_metrics args = choice_json ->
  let self := JsonLogCollector_init (args_metrics_file args) in
  let r := convert_shapefile (args_input args) (args_output args)
                             (Some (Collector self)) w in
  let line := "JSON metrics will be " +:+
              match destination self with
              | Some f => "written to " +:+ f
              | None => "printed to console"
              end in
  match print_error line with
  | None =>
      done_trace (main args w) = Console line :: run_trace r /\
      done_world (main args w) = run_world r
  | Some e => main args w = Done (Raised e) w [ConsoleRaised line e]
  end.
Proof.
  intros Hj. cbv zeta.
  assert (Hl : "JSON metrics will be " +:+
               match destination (JsonLogCollector_init (args_metrics_file args)) with
               | Some f => "written to " +:+ f
               | None => "printed to console"
               end = json_announcement (args_metrics_file args)).
  { unfold json_announcement, destination, JsonLogCollector_init. cbn [output_file].
    by destruct (args_metrics_file args) as [[|c f]|]. }
  rewrite Hl. rewrite main_run. cbv zeta.
  pose proof (create_collector_cases args w) as Hc. cbv zeta in Hc.
  rewrite Hj in Hc.
  destruct (done_out (create_collector args w)) as [[m|]|e] eqn:Ho.
  - destruct Hc as (-> & Ht & ->).
    assert (Hp : print_error (json_announcement (args_metrics_file args)) = None).
    { unfold create_collector in Ht. rewrite Hj in Ht.
      rewrite io_bind_print in Ht.
      destruct (print_error _); [discriminate Ht|reflexivity]. }
    rewrite Hp, Ht. cbn [done_out done_world done_trace app]. split; [|reflexivity].
    destruct (run_out (convert_shapefile _ _ _ _)); by rewrite ?app_nil_r.
  - by destruct Hc as ([|] & _).
  - destruct Hc as (_ & Hp & Hc). rewrite Hp, Hc. reflexivity.
Qed.

(** X20.  With the backends [none], [prometheus] and [statsd], once the collector
    is created it has no part in the conversion: whether [main] returns or
    raises, what it raises, how it leaves the world, and every action but
    what the collector sends are those of a conversion without a
    collector. *)
Theorem main_backend_is_neutral (args : Namespace) w m :
  let c := create_collector args w in
  let r0 := convert_shapefile (args_input args) (args_output args) None (done_world c) in
  done_out c = Returned (Some m) ->
  args_metrics args <> choice_json ->
  done_out (main args w) =
    match run_out r0 with Returned _ => Returned tt | Raised e => Raised e end /\
  done_world (main args w) = run_world r0 /\
  quiet (done_trace (main args w)) = done_trace c ++ run_trace r0.
Proof.
  cbv zeta. intros Hm Hj. rewrite main_run. cbv zeta.
  pose proof (create_collector_cases args w) as Hc. cbv zeta in Hc.
  rewrite Hm in Hc |- *. cbn [done_out done_world done_trace].
  set (w1 := done_world (create_collector args w)) in *.
  assert (Hsame :
    run_out (convert_shapefile (args_input args) (args_output args) (Some m) w1)
      = run_out (convert_shapefile (args_input args) (args_output args) None w1) /\
    run_world (convert_shapefile (args_input args) (args_output args) (Some m) w1)
      = run_world (convert_shapefile (args_input args) (args_output args) None w1) /\
    quiet (run_trace (convert_shapefile (args_input args) (args_output args) (Some m) w1))
      = run_trace (convert_shapefile (args_input args) (args_output args) None w1) /\
    quiet (done_trace (create_collector args w)) = done_trace (create_collector args w)).
  { destruct (args_metrics args); [| | contradiction |].
    - destruct Hc as (-> & ->).
      destruct (same_convert _ _ null_plain (args_input args) (args_output args) tt w1)
        as (H1 & H2 & H3).
      repeat split; assumption.
    - destruct Hc as (-> & line & ->).
      destruct (same_convert _ _ prometheus_plain (args_input args) (args_output args)
                  prometheus_created w1) as (H1 & H2 & H3).
      repeat split; assumption.
    - destruct Hc as (-> & line & ->).
      destruct (same_convert _ _ statsd_plain (args_input args) (args_output args)
                  (StatsDCollector_init (args_statsd_host args) (args_statsd_port args)
                     "shapefile") w1) as (H1 & H2 & H3).
      repeat split; assumption. }
  destruct Hsame as (H1 & H2 & H3 & H4).
  rewrite <- H1, <- H2, <- H3. repeat split.
  rewrite quiet_app, H4.
  destruct (run_out (convert_shapefile _ _ _ _)); by rewrite ?app_nil_r.
Qed.

End MainClaims.

(* ===================================================================== *)
(** ** More worked runs *)
(* ===================================================================== *)

(** Backends for the world of the fixture: a module is installed or not, a
    port is bound when it is a port number, metrics and clients are always
    created. *)
Module Installation.

Definition module_missing (name : string) : exn :=
  Exception "ModuleNotFoundError" ("No module named '" +:+ name +:+ "'").

Definition sim_import (installed : bool) (name : string) (w : sim_world)
    : outcome unit * sim_world :=
  if installed then (Returned tt, w) else (Raised (module_missing name), w).

Definition port_out_of_range : exn :=
  Exception "OverflowError" "bind(): port must be 0-65535.".

Definition sim_start_http_server (port : Z) (w : sim_world)
    : outcome unit * sim_world :=
  if (0 <=? port) && (port <=? 65535) then (Returned tt, w)
  else (Raised port_out_of_range, w).

Definition sim_is_ImportError (e : exn) : bool :=
  String.eqb (exn_class e) "ImportError"
  || String.eqb (exn_class e) "ModuleNotFoundError".

(** The errors of the two standard outputs of the fixture are no
    [ImportError]: the one in UTF-8 has none, the one in ASCII raises a
    [UnicodeEncodeError]. *)
Lemma utf8_error_class (text : string) (e : exn) :
  (fun _ : string => @None exn) text = Some e -> sim_is_ImportError e = false.
Proof. discriminate. Qed.

Lemma ascii_error_class (text : string) (e : exn) :
  ascii_codec_error text = Some e -> sim_is_ImportError e = false.
Proof.
  unfold ascii_codec_error.
  destruct (first_wide _ _) as [[[pos len] n]|]; [|discriminate].
  by intros [= <-].
Qed.

Definition backends_of (stdout : string -> option exn)
    (stdout_class : forall text e, stdout text = Some e -> sim_is_ImportError e = false)
    (has_prometheus has_statsd : bool) : Backends (E := sim_env stdout) :=
  @Build_Backends (sim_env stdout)
    sim_is_ImportError
    (sim_import has_prometheus "prometheus_client")
    (fun _ w => (Returned tt, w))
    sim_start_http_server
    (sim_import has_statsd "statsd")
    (fun _ _ _ w => (Returned tt, w))
    stdout_class.

Definition sim_backends (has_prometheus has_statsd : bool) : Backends (E := sim) :=
  backends_of _ utf8_error_class has_prometheus has_statsd.

Definition sim_ascii_backends (has_prometheus has_statsd : bool)
    : Backends (E := sim_ascii) :=
  backends_of _ ascii_error_class has_prometheus has_statsd.

(** The command lines of the worked runs: [geofile tmp/test_points.shp]
    with [--metrics] as given. *)
Definition command_line (choice : MetricsChoice) (port : Z) (file : option string)
    : Namespace :=
  {| args_input := "tmp/test_points.shp";
     args_output := None;
     args_metrics := choice;
     args_metrics_port := port;
     args_metrics_file := file;
     args_statsd_host := "localhost";
     args_statsd_port := 8125 |}.

End Installation.

Import Installation.

Section MoreWorkedRuns.

(** The metadata of the converted fixture agrees with the calls before. *)
Lemma success_metadata_agrees_witness :
  run_out (convert_points None) = Returned true /\
  exists p, written_paths (run_trace (convert_points None)) = [p] /\
            resolved_output_path "tmp/test_points.shp" None = Returned p.
Proof.
  split; [vm_compute; reflexivity|].
  destruct (success_metadata_agrees (E:=sim) "tmp/test_points.shp" None None world0 true)
    as (p & gdf & n_in & n_out & w_in & w_out & rt & wt & d & Hp & _ & _ & Hw & _).
  - vm_compute; reflexivity.
  - exists p. split; [exact Hw|exact Hp].
Defined.

(** The converted fixture with a [JsonLogCollector] that prints: six lines
    of the pipeline, and seven lines on the standard output, the record
    being the fourth. *)
Lemma success_prints_progress_witness :
  run_out (convert_points (Some json_stdout)) = Returned true /\
  length (console_of (run_trace (convert_points (Some json_stdout)))) = 6%nat /\
  length (stdout_of (run_trace (convert_points (Some json_stdout)))) = 7%nat /\
  take 3 (stdout_of (run_trace (convert_points (Some json_stdout)))) =
    take 3 (console_of (run_trace (convert_points (Some json_stdout)))).
Proof.
  split; [vm_compute; reflexivity|].
  destruct (success_prints_progress (E:=sim) "tmp/test_points.shp" None
              (Some json_stdout) world0 true)
    as (p & gdf & types & rt & wt & imb & omb & d & md & before & between
        & _ & _ & _ & _ & Hc & _).
  - vm_compute; reflexivity.
  - split; [unfold convert_points; rewrite Hc; reflexivity|].
    split; vm_compute; reflexivity.
Defined.

(** The input of the fixture that does not exist. *)
Lemma missing_input_touches_nothing_witness :
  resolved_output_path "tmp/does_not_exist.shp" None
    = Returned "tmp/does_not_exist.geojson" /\
  os_path_getsize "tmp/does_not_exist.shp" (time_time world0).2 = Raised missing_input /\
  run_world (convert_missing None) = (time_time world0).2 /\
  run_out (convert_missing None) = Raised missing_input.
Proof.
  split; [vm_compute; reflexivity|]. split; [vm_compute; reflexivity|].
  destruct (missing_input_touches_nothing (E:=sim) "tmp/does_not_exist.shp" None world0
              "tmp/does_not_exist.geojson" missing_input) as (H & Hout);
    [vm_compute; reflexivity..|].
  split; [unfold convert_missing; rewrite H; reflexivity|].
  apply Hout. vm_compute; reflexivity.
Defined.

(** The path [.] has no name to give a suffix to. *)
Lemma underivable_output_path_touches_nothing_witness :
  path_with_suffix (Env := sim) "." ".geojson"
    = Raised (Exception "ValueError" "PosixPath('.') has an empty name") /\
  run_out (convert_shapefile (E:=sim) "." None None world0)
    = Raised (Exception "ValueError" "PosixPath('.') has an empty name").
Proof.
  split; [vm_compute; reflexivity|].
  apply (proj2 (underivable_output_path_touches_nothing (E:=sim) "." world0
                  (Exception "ValueError" "PosixPath('.') has an empty name")
                  eq_refl)).
  vm_compute; reflexivity.
Defined.

(** The mock of the tests is a collector that cannot fail. *)
Lemma plain_collector_reports_one_outcome_witness :
  raised_calls (run_trace (convert_missing (Some mock))) = [] /\
  failure_count (run_trace (convert_missing (Some mock))) = 1%nat /\
  success_count (run_trace (convert_missing (Some mock))) = 0%nat.
Proof.
  pose proof (plain_collector_reports_one_outcome (E:=sim) _ _ {| events := [] |}
                "tmp/does_not_exist.shp" None world0 (mock_plain (E:=sim))) as H.
  cbv zeta in H. destruct H as (Hr & H). split; [exact Hr|].
  assert (Ho : run_out (convert_shapefile (E:=sim) "tmp/does_not_exist.shp" None
                          (Some (Collector {| events := [] |})) world0)
               = Raised missing_input)
    by (vm_compute; reflexivity).
  rewrite Ho in H. destruct H as (Hf & _ & _ & Hs).
  split; [exact Hf|]. apply Hs. vm_compute; reflexivity.
Defined.

(** The mock changes nothing of the conversion of the fixture. *)
Lemma plain_collector_is_neutral_witness :
  run_world (convert_points (Some mock)) = run_world (convert_points None) /\
  quiet (run_trace (convert_points (Some mock))) = run_trace (convert_points None).
Proof.
  pose proof (plain_collector_is_neutral (E:=sim) _ _ {| events := [] |}
                "tmp/test_points.shp" None world0 (mock_plain (E:=sim))) as H.
  cbv zeta in H. destruct H as (_ & Hw & Ht). split; [exact Hw|exact Ht].
Defined.

(** Metadata that names [event]: the value of the metadata is what the
    record holds. *)
Lemma json_success_metadata_wins_witness :
  List.NoDup (map fst [("event", PStr "mine")]) /\
  dict_get "event"
    (current_record
       (eff_self (invoke (E:=sim) (Success 1.5 [("event", PStr "mine")])
                         (JsonLogCollector_init None) world0)))
    = Some (PStr "mine").
Proof.
  assert (Hnd : List.NoDup (map fst [("event", PStr "mine")])).
  { constructor; [intros []|constructor]. }
  split; [exact Hnd|].
  apply (proj1 (json_success_metadata_wins (E:=sim) 1.5 [("event", PStr "mine")]
                  (JsonLogCollector_init None) world0 Hnd)).
  reflexivity.
Defined.

(** The record of the converted fixture. *)
Lemma json_line_of_a_success_witness :
  run_out (convert_points (Some json_stdout)) = Returned true /\
  exists record,
    emitted_of (run_trace (convert_points (Some json_stdout)))
      = [Stdout (json_dumps record)] /\
    map fst record =
      ["timestamp"; "event"; "read_duration_seconds"; "feature_count";
       "write_duration_seconds"; "input_size_mb"; "output_size_mb";
       "duration_seconds"; "input_file"; "output_file"; "crs"].
Proof.
  split; [vm_compute; reflexivity|].
  destruct (json_line_of_a_success (E:=sim) "tmp/test_points.shp" None
              (JsonLogCollector_init None) world0 true)
    as (p & rt & wt & d & n & imb & omb & crs & _ & _ & He).
  - vm_compute; reflexivity.
  - eexists. split; [exact He|reflexivity].
Defined.

(** The record of the conversion that fails for want of its input. *)
Lemma json_line_of_a_failure_witness :
  run_out (convert_missing (Some json_stdout)) = Raised missing_input /\
  raised_calls (run_trace (convert_missing (Some json_stdout))) = [] /\
  exists record,
    emitted_of (run_trace (convert_missing (Some json_stdout)))
      = [Stdout (json_dumps record)] /\
    dict_get "error" record = Some (PStr (exn_str missing_input)).
Proof.
  split; [vm_compute; reflexivity|]. split; [vm_compute; reflexivity|].
  destruct (json_line_of_a_failure (E:=sim) "tmp/does_not_exist.shp" None
              (JsonLogCollector_init None) world0 missing_input)
    as (record & e0 & _ & _ & _ & Herr & _ & Hone).
  - vm_compute; reflexivity.
  - vm_compute; reflexivity.
  - destruct Hone as (-> & He); [vm_compute; reflexivity|].
    exists record. split; [exact He|exact Herr].
Defined.

(** [--metrics statsd] where the module is not installed. *)
Lemma main_without_the_module_witness :
  (import_statsd (Backends := sim_backends false false) world0).1
    = Raised (module_missing "statsd") /\
  sim_is_ImportError (module_missing "statsd") = true /\
  done_out (main (B := sim_backends false false)
              (command_line choice_statsd 8000 None) world0) = Returned tt /\
  done_trace (main (B := sim_backends false false)
                (command_line choice_statsd 8000 None) world0)
    = [Console "statsd module not installed. Install with: pip install statsd"].
Proof.
  split; [reflexivity|]. split; [reflexivity|].
  apply (main_without_the_module (B := sim_backends false false)
           (command_line choice_statsd 8000 None) world0 (module_missing "statsd"));
    reflexivity.
Defined.

(** The plain command line converts the fixture. *)
Lemma main_returns_converted_or_hinted_witness :
  is_returned (done_out (main (B := sim_backends false false)
                           (command_line choice_none 8000 None) world0)) = true /\
  written_paths (done_trace (main (B := sim_backends false false)
                               (command_line choice_none 8000 None) world0))
    = ["tmp/test_points.geojson"].
Proof.
  split; [vm_compute; reflexivity|].
  destruct (main_returns_converted_or_hinted (B := sim_backends false false)
              (command_line choice_none 8000 None) world0)
    as [(p & Hp & Hw & _)|([H|H] & _)]; [vm_compute; reflexivity| |discriminate H..].
  rewrite Hw. f_equal. vm_compute in Hp. congruence.
Defined.

(** [--metrics prometheus --metrics-port 70000]: the server cannot start. *)
Lemma main_raises_before_converting_witness :
  done_out (main (B := sim_backends true true)
              (command_line choice_prometheus 70000 None) world0)
    = Raised port_out_of_range /\
  done_trace (main (B := sim_backends true true)
                (command_line choice_prometheus 70000 None) world0) = [].
Proof.
  split; [vm_compute; reflexivity|].
  destruct (main_raises_before_converting (B := sim_backends true true)
              (command_line choice_prometheus 70000 None) world0 port_out_of_range)
    as (_ & _ & _ & _ & _ & Hp & _); [vm_compute; reflexivity..|].
  exact (Hp eq_refl).
Defined.

(** [--metrics json --metrics-file tmp/metrics.jsonl]. *)
Lemma main_json_announcement_witness :
  exists t,
    done_trace (main (B := sim_backends false false)
                  (command_line choice_json 8000 (Some "tmp/metrics.jsonl")) world0)
      = Console "JSON metrics will be written to tmp/metrics.jsonl" :: t.
Proof.
  pose proof (main_json_announcement (B := sim_backends false false)
                (command_line choice_json 8000 (Some "tmp/metrics.jsonl")) world0
                eq_refl) as H.
  cbv zeta in H.
  change (print_error _) with (@None exn) in H.
  destruct H as (Ht & _). eexists. exact Ht.
Defined.

(** [--metrics statsd] with the module installed. *)
Lemma main_backend_is_neutral_witness :
  done_world (main (B := sim_backends true true)
                (command_line choice_statsd 8000 None) world0)
    = run_world (convert_points None).
Proof.
  apply (main_backend_is_neutral (B := sim_backends true true)
           (command_line choice_statsd 8000 None) world0
           (Collector (StatsDCollector_init "localhost" 8125 "shapefile")));
    [reflexivity|discriminate].
Defined.

(** *** Where a [print] raises

    The same runs on a standard output in ASCII, with a name that has a
    character outside ASCII in it. *)

Definition ascii_mock : collector (E := sim_ascii) :=
  Collector (E := sim_ascii) {| events := [] |}.

(** The output path has an [é].  The shapefile is converted and written,
    [success] returns, and the last line of the pipeline cannot be printed:
    the conversion fails with the error of [print], after a [success] and a
    [failure] that both returned. *)
Lemma print_after_success_raises :
  let r := convert_shapefile (E := sim_ascii) "tmp/test_points.shp"
             (Some "tmp/données.geojson") (Some ascii_mock) world0 in
  run_out r =
    Raised (Exception "UnicodeEncodeError"
              ("'ascii' codec can't encode character '\xe9' in position 21: "
               +:+ "ordinal not in range(128)")) /\
  raised_calls (run_trace r) = [] /\
  failed_prints (run_trace r) = ["Output file: tmp/données.geojson (0.00 MB)"] /\
  success_count (run_trace r) = 1%nat /\
  failure_count (run_trace r) = 1%nat /\
  written_paths (run_trace r) = ["tmp/données.geojson"].
Proof. vm_compute. repeat split. Qed.

(** The input is missing and its name has an [é]: [failure] is told the
    [FileNotFoundError], the line that reports it cannot be printed, and
    the caller gets the error of [print] instead. *)
Lemma error_line_print_replaces_the_error :
  let r := convert_shapefile (E := sim_ascii) "tmp/données.shp" None
             (Some ascii_mock) world0 in
  calls_of (run_trace r) =
    [Start; Failure "[Errno 2] No such file or directory: 'tmp/données.shp'"] /\
  raised_calls (run_trace r) = [] /\
  exn_class (match run_out r with Raised e => e | Returned _ => missing_input end)
    = "UnicodeEncodeError".
Proof. vm_compute. repeat split. Qed.

(** With a [JsonLogCollector] that writes to a file, the first of these two
    runs leaves two records in it: the one of [success] and the one of
    [failure]. *)
Lemma two_records_when_print_raises :
  let r := convert_shapefile (E := sim_ascii) "tmp/test_points.shp"
             (Some "tmp/données.geojson")
             (Some (Collector (E := sim_ascii)
                      (JsonLogCollector_init (Some "tmp/metrics.jsonl")))) world0 in
  is_raised (run_out r) = true /\
  raised_calls (run_trace r) = [] /\
  length (emitted_of (run_trace r)) = 2%nat /\
  map is_success (calls_of (run_trace r))
    = [false; false; false; false; false; true; false] /\
  last (map is_failure (calls_of (run_trace r))) = Some true.
Proof. vm_compute. repeat split. Qed.

(** [--metrics json --metrics-file tmp/métriques.jsonl]: the announcement
    cannot be printed, [main] raises and converts nothing. *)
Lemma main_json_announcement_raises :
  let r := main (E := sim_ascii) (B := sim_ascii_backends false false)
             (command_line choice_json 8000 (Some "tmp/métriques.jsonl")) world0 in
  is_raised (done_out r) = true /\
  done_world r = world0 /\
  conversion_actions (done_trace r) = [] /\
  failed_prints (done_trace r)
    = ["JSON metrics will be written to tmp/métriques.jsonl"].
Proof. vm_compute. repeat split. Qed.

End MoreWorkedRuns.
